(** * The type definitions of graphql-js ([src/type/definition.js])

    A shallow embedding of the type-graph layer: the eight kinds of types
    and their predicates, the two wrapping constructors, the unwrapping
    helpers, the lazily resolved fields / interfaces / member types of the
    named types, the enum codec, and the [toConfig] inverse of the
    constructors. *)

From Stdlib Require Import ZArith Lia.
From stdpp Require Import base option list strings countable gmap.

(** ** JavaScript values *)

(** Handles standing for object identity: two references are the same
    object iff their handles are equal. *)
Definition Ref := nat.

(** [GraphQLType]: the instances of the eight classes, as [instanceOf] tells
    them apart.  An instance of one of the six named classes is known by its
    handle; an instance of a wrapping class by its [ofType]. *)
Inductive GraphQLType : Type :=
| ScalarType (r : Ref)
| ObjectType (r : Ref)
| InterfaceType (r : Ref)
| UnionType (r : Ref)
| EnumType (r : Ref)
| InputObjectType (r : Ref)
| List (ofType : GraphQLType)
| NonNull (ofType : GraphQLType).

(** [mixed]: any JS value a caller can hand to this module.  Numbers are the
    integer-valued ones; arrays, functions and other objects are opaque and
    compared by reference, as [===] and [Map] keys compare them. *)
Inductive mixed : Type :=
| Undefined
| Null
| Bool (b : bool)
| Num (n : Z)
| Str (s : string)
| Arr (r : Ref)
| Fun (r : Ref)
| Obj (r : Ref)
| TypeObj (t : GraphQLType).

#[global] Instance GraphQLType_eq_dec : EqDecision GraphQLType.
Proof. solve_decision. Defined.

#[global] Instance mixed_eq_dec : EqDecision mixed.
Proof. solve_decision. Defined.

(** One wrapping constructor, and a type under layers of them, outermost
    first. *)
Inductive Wrapper : Type := ListOf | NonNullOf.

Fixpoint wrap (layers : list Wrapper) (T : GraphQLType) : GraphQLType :=
  match layers with
  | [] => T
  | ListOf :: layers => List (wrap layers T)
  | NonNullOf :: layers => NonNull (wrap layers T)
  end.

(** Keys of a JS [Map] have to be countable for [gmap]: a type is coded as
    its wrappers, outermost first ([true] for NonNull), then the class and
    handle of the named type underneath. *)
Fixpoint GraphQLType_code (t : GraphQLType) : list bool * (nat * Ref) :=
  match t with
  | ScalarType r => ([], (0, r))
  | ObjectType r => ([], (1, r))
  | InterfaceType r => ([], (2, r))
  | UnionType r => ([], (3, r))
  | EnumType r => ([], (4, r))
  | InputObjectType r => ([], (5, r))
  | List t' => let '(ws, b) := GraphQLType_code t' in (false :: ws, b)
  | NonNull t' => let '(ws, b) := GraphQLType_code t' in (true :: ws, b)
  end.

Definition GraphQLType_base (b : nat * Ref) : GraphQLType :=
  match b with
  | (0, r) => ScalarType r
  | (1, r) => ObjectType r
  | (2, r) => InterfaceType r
  | (3, r) => UnionType r
  | (4, r) => EnumType r
  | (_, r) => InputObjectType r
  end.

Definition GraphQLType_decode (c : list bool * (nat * Ref)) : GraphQLType :=
  wrap ((λ b : bool, if b then NonNullOf else ListOf) <$> c.1) (GraphQLType_base c.2).

#[global] Instance GraphQLType_countable : Countable GraphQLType.
Proof.
  apply (inj_countable' GraphQLType_code GraphQLType_decode).
  unfold GraphQLType_decode.
  induction x as [r|r|r|r|r|r|t IH|t IH]; simpl; try reflexivity;
    destruct (GraphQLType_code t) as [ws b]; simpl in *; f_equal; exact IH.
Defined.

Definition mixed_code (v : mixed)
  : unit + unit + bool + Z + string + nat + nat + nat + GraphQLType :=
  match v with
  | Undefined => inl (inl (inl (inl (inl (inl (inl (inl tt)))))))
  | Null => inl (inl (inl (inl (inl (inl (inl (inr tt)))))))
  | Bool b => inl (inl (inl (inl (inl (inl (inr b))))))
  | Num n => inl (inl (inl (inl (inl (inr n)))))
  | Str s => inl (inl (inl (inl (inr s))))
  | Arr r => inl (inl (inl (inr r)))
  | Fun r => inl (inl (inr r))
  | Obj r => inl (inr r)
  | TypeObj t => inr t
  end.

Definition mixed_decode
  (c : unit + unit + bool + Z + string + nat + nat + nat + GraphQLType) : mixed :=
  match c with
  | inl (inl (inl (inl (inl (inl (inl (inl _))))))) => Undefined
  | inl (inl (inl (inl (inl (inl (inl (inr _))))))) => Null
  | inl (inl (inl (inl (inl (inl (inr b)))))) => Bool b
  | inl (inl (inl (inl (inl (inr n))))) => Num n
  | inl (inl (inl (inl (inr s)))) => Str s
  | inl (inl (inl (inr r))) => Arr r
  | inl (inl (inr r)) => Fun r
  | inl (inr r) => Obj r
  | inr t => TypeObj t
  end.

#[global] Instance mixed_countable : Countable mixed.
Proof.
  apply (inj_countable' mixed_code mixed_decode). by intros [].
Defined.

(** [typeof v], for the two answers the module asks about. *)
Definition typeof_string (v : mixed) : bool :=
  match v with Str _ => true | _ => false end.

Definition typeof_function (v : mixed) : bool :=
  match v with Fun _ => true | _ => false end.

(** [v == null]: [null] or [undefined]. *)
Definition nullish (v : mixed) : bool :=
  match v with Undefined | Null => true | _ => false end.

(** [Boolean(v)], the test of [if (v)] and of [v && w]. *)
Definition truthy (v : mixed) : bool :=
  match v with
  | Undefined | Null => false
  | Bool b => b
  | Num n => negb (n =? 0)%Z
  | Str s => negb (String.eqb s EmptyString)
  | Arr _ | Fun _ | Obj _ | TypeObj _ => true
  end.

(** A [ValueNode] of the parsed request, as far as [parseLiteral] looks at
    it: an enum literal ([kind === Kind.ENUM]) with its name text, or a node
    of another kind. *)
Inductive ValueNode : Type :=
| EnumValueNode (value : string)
| OtherValueNode (r : Ref).

(** ** Errors *)

(** The pieces a message is built from.  [inspect], [print] and the
    suggestions of [didYouMean] are left unevaluated. *)
Inductive fragment : Type :=
| Lit (s : string)              (* literal text, or an interpolated string *)
| Quoted (f : fragment)         (* a piece between double quotes *)
| Interp (v : mixed)            (* [${v}] *)
| Inspect (v : mixed)           (* [inspect(v)] *)
| Print (node : ValueNode)      (* [print(node)] *)
| DidYouMeanEnumValue (allNames : list string) (unknownValueStr : fragment).
                                (* [didYouMeanEnumValue(this, unknownValueStr)] *)

Definition message := list fragment.

Inductive exn : Type :=
| Error (m : message)                                    (* [throw new Error(m)] *)
| GraphQLError (m : message) (node : option ValueNode).  (* [throw new GraphQLError(m, node)] *)

Inductive result (A : Type) : Type :=
| Ok (a : A)
| Throw (e : exn).
Arguments Ok {A} a.
Arguments Throw {A} e.

#[global] Instance result_ret : MRet result := fun A a => Ok a.
#[global] Instance result_bind : MBind result := fun A B f m =>
  match m with Ok a => f a | Throw e => Throw e end.

(** Modelled from the spec: [devAssert] ([jsutils/devAssert] is not under
    src/), the fail-fast assertion of the construction-time invariants: it
    throws an [Error] with the message, synchronously, when the condition
    does not hold. *)
Definition devAssert (condition : bool) (m : message) : result unit :=
  if condition then Ok tt else Throw (Error m).

(** ** Predicates *)

(** [instanceOf(type, C)] for each of the eight classes. *)
Definition isScalarType (type : mixed) : bool :=
  match type with TypeObj (ScalarType _) => true | _ => false end.

Definition isObjectType (type : mixed) : bool :=
  match type with TypeObj (ObjectType _) => true | _ => false end.

Definition isInterfaceType (type : mixed) : bool :=
  match type with TypeObj (InterfaceType _) => true | _ => false end.

Definition isUnionType (type : mixed) : bool :=
  match type with TypeObj (UnionType _) => true | _ => false end.

Definition isEnumType (type : mixed) : bool :=
  match type with TypeObj (EnumType _) => true | _ => false end.

Definition isInputObjectType (type : mixed) : bool :=
  match type with TypeObj (InputObjectType _) => true | _ => false end.

Definition isListType (type : mixed) : bool :=
  match type with TypeObj (List _) => true | _ => false end.

Definition isNonNullType (type : mixed) : bool :=
  match type with TypeObj (NonNull _) => true | _ => false end.

Definition isType (type : mixed) : bool :=
  isScalarType type || isObjectType type || isInterfaceType type
  || isUnionType type || isEnumType type || isInputObjectType type
  || isListType type || isNonNullType type.

Definition isWrappingType (type : mixed) : bool :=
  isListType type || isNonNullType type.

(** [type.ofType] of a wrapping type; [undefined] on anything else. *)
Definition ofType (type : mixed) : mixed :=
  match type with
  | TypeObj (List t) | TypeObj (NonNull t) => TypeObj t
  | _ => Undefined
  end.

(** [isInputType] calls itself on [type.ofType]: the recursion is on the
    wrappers of the type. *)
Fixpoint isInputType_rec (t : GraphQLType) : bool :=
  isScalarType (TypeObj t) || isEnumType (TypeObj t)
  || isInputObjectType (TypeObj t)
  || (isWrappingType (TypeObj t)
      && match t with
         | List t' | NonNull t' => isInputType_rec t'
         | _ => false
         end).

Definition isInputType (type : mixed) : bool :=
  match type with TypeObj t => isInputType_rec t | _ => false end.

Fixpoint isOutputType_rec (t : GraphQLType) : bool :=
  isScalarType (TypeObj t) || isObjectType (TypeObj t)
  || isInterfaceType (TypeObj t) || isUnionType (TypeObj t)
  || isEnumType (TypeObj t)
  || (isWrappingType (TypeObj t)
      && match t with
         | List t' | NonNull t' => isOutputType_rec t'
         | _ => false
         end).

Definition isOutputType (type : mixed) : bool :=
  match type with TypeObj t => isOutputType_rec t | _ => false end.

Definition isLeafType (type : mixed) : bool :=
  isScalarType type || isEnumType type.

Definition isCompositeType (type : mixed) : bool :=
  isObjectType type || isInterfaceType type || isUnionType type.

Definition isAbstractType (type : mixed) : bool :=
  isInterfaceType type || isUnionType type.

Definition isNullableType (type : mixed) : bool :=
  isType type && negb (isNonNullType type).

Definition isNamedType (type : mixed) : bool :=
  isScalarType type || isObjectType type || isInterfaceType type
  || isUnionType type || isEnumType type || isInputObjectType type.

(** ** The wrapping constructors *)

(** [new GraphQLList(ofType)] *)
Definition GraphQLList (ofType : mixed) : result GraphQLType :=
  _ ← devAssert (isType ofType)
        [Lit "Expected "; Inspect ofType; Lit " to be a GraphQL type."];
  match ofType with
  | TypeObj t => Ok (List t)
  | _ => Throw (Error [])       (* not reached: [isType] holds *)
  end.

(** [new GraphQLNonNull(ofType)] *)
Definition GraphQLNonNull (ofType : mixed) : result GraphQLType :=
  _ ← devAssert (isNullableType ofType)
        [Lit "Expected "; Inspect ofType; Lit " to be a GraphQL nullable type."];
  match ofType with
  | TypeObj t => Ok (NonNull t)
  | _ => Throw (Error [])       (* not reached: [isNullableType] holds *)
  end.

(** ** Unwrapping *)

Definition getNullableType (type : mixed) : mixed :=
  if truthy type then
    if isNonNullType type then ofType type else type
  else Undefined.

(** The loop [while (isWrappingType(unwrappedType)) unwrappedType =
    unwrappedType.ofType]: one iteration per wrapper. *)
Fixpoint getNamedType_loop (unwrappedType : GraphQLType) : GraphQLType :=
  match unwrappedType with
  | List t | NonNull t => getNamedType_loop t
  | _ => unwrappedType
  end.

Definition getNamedType (type : mixed) : mixed :=
  if truthy type then
    match type with
    | TypeObj t => TypeObj (getNamedType_loop t)
    | _ => type                 (* not a wrapping type: the loop does not run *)
    end
  else Undefined.

(** ** Objects used as maps, optional properties, values of unchecked shape *)

(** [ObjMap<T>]: the own enumerable properties in [Object.entries] order,
    which is insertion order for property names that are not array indices;
    a property name occurs once. *)
Definition ObjMap (A : Type) : Type := list (string * A).

Definition ObjMap_wf {A : Type} (m : ObjMap A) : Prop := NoDup m.*1.

(** [map[key] = value]: an existing property keeps its place. *)
Fixpoint ObjMap_set {A : Type} (m : ObjMap A) (key : string) (value : A) : ObjMap A :=
  match m with
  | [] => [(key, value)]
  | (k, x) :: m' =>
      if decide (k = key) then (k, value) :: m' else (k, x) :: ObjMap_set m' key value
  end.

(** A property of Flow type [?T]: missing or [undefined], [null], or given. *)
Inductive Maybe (A : Type) : Type :=
| Absent
| IsNull
| Given (a : A).
Arguments Absent {A}.
Arguments IsNull {A}.
Arguments Given {A} a.

(** [x ?? d] *)
Definition nullish_or {A : Type} (x : Maybe A) (d : A) : A :=
  match x with Given a => a | _ => d end.

(** A value the code checks at run time before it relies on its shape:
    [Is a] has the shape the Flow type promises; [Not v] is any other value
    [v], one that fails the check ([isPlainObj], [Array.isArray]). *)
Inductive dyn (A : Type) : Type :=
| Is (a : A)
| Not (v : mixed).
Arguments Is {A} a.
Arguments Not {A} v.

Definition isPlainObj {A : Type} (obj : dyn A) : bool :=
  match obj with Is _ => true | Not _ => false end.

Definition Array_isArray {A : Type} (value : dyn (list A)) : bool :=
  match value with Is _ => true | Not _ => false end.

(** [devAssert(check(obj), m)] for a check of the shape, [isPlainObj] or
    [Array.isArray]: the code after it goes on with the object; the message
    may inspect the value that failed. *)
Definition devAssert_shape {A : Type} (check : dyn A → bool) (obj : dyn A)
    (m : mixed → message) : result A :=
  match obj with
  | Is a => _ ← devAssert (check obj) []; Ok a
  | Not v => _ ← devAssert (check obj) (m v); Throw (Error (m v))
  end.

(** An extensions object: whether its prototype is [null], and its entries. *)
Record ObjMapLike : Type := {
  nullProto : bool;
  entries : ObjMap mixed;
}.

(** Modelled from the spec: [toObjMap] ([jsutils/toObjMap] is not under
    src/): the extensions are kept as a read-only map of their own, a
    null-prototype object holding the entries of the one given; an object
    that already has a null prototype is that map. *)
Definition toObjMap (obj : ObjMapLike) : ObjMapLike :=
  {| nullProto := true; entries := entries obj |}.

(** [extensions && toObjMap(extensions)] *)
Definition and_toObjMap (extensions : Maybe ObjMapLike) : Maybe ObjMapLike :=
  match extensions with
  | Given obj => Given (toObjMap obj)
  | falsy => falsy
  end.

(** Modelled from the spec: [mapValue] ([jsutils/mapValue] is not under
    src/): a new map with the same keys in the same order, each value the
    callback's result on the old value and its key; a callback that throws
    ends the traversal. *)
Fixpoint mapValue {A B : Type} (map : ObjMap A) (fn : A → string → result B)
  : result (ObjMap B) :=
  match map with
  | [] => Ok []
  | (key, value) :: rest =>
      b ← fn value key;
      bs ← mapValue rest fn;
      Ok ((key, b) :: bs)
  end.

(** Modelled from the spec: [keyValMap] ([jsutils/keyValMap] is not under
    src/): the map built by assigning [valFn(item)] to the property
    [keyFn(item)] for each item of the list in turn. *)
Definition keyValMap {T V : Type} (l : list T) (keyFn : T → string) (valFn : T → V)
  : ObjMap V :=
  foldl (λ m item, ObjMap_set m (keyFn item) (valFn item)) [] l.

(** Modelled from the spec: [keyMap] ([jsutils/keyMap] is not under src/):
    the name-to-item lookup map, built by assigning each item of the list
    in turn to the property [keyFn(item)] of a null-prototype object. *)
Definition keyMap {T : Type} (l : list T) (keyFn : T → string) : gmap string T :=
  foldl (λ m item, <[keyFn item := item]> m) ∅ l.

(** [new Map(entries)]: [Map.prototype.set] on each entry in turn, the keys
    compared by SameValueZero. *)
Definition Map_new {V : Type} (entries : list (mixed * V)) : gmap mixed V :=
  foldl (λ m e, <[e.1 := e.2]> m) ∅ entries.

(** ** Thunks, and the world they run in *)

(** What a thunk's closure can read: the variables around it. *)
Definition Env : Type := gmap string mixed.

(** [ThunkArray<T>] and [ThunkObjMap<T>]: the collection itself, or a
    function that produces it from what its closure reads when called.  The
    handle identifies the function. *)
Inductive Thunk (A : Type) : Type :=
| Direct (a : A)
| Producer (id : Ref) (produce : Env → A).
Arguments Direct {A} a.
Arguments Producer {A} id produce.

(** The world outside a type: the environment of the thunks, and the log of
    the thunks called so far, oldest first. *)
Record World : Type := {
  env : Env;
  calls : list Ref;
}.

(** Code that may call thunks and may throw. *)
Definition M (A : Type) : Type := World → World * result A.

#[global] Instance M_ret : MRet M := fun A a w => (w, Ok a).
#[global] Instance M_bind : MBind M := fun A B f m w =>
  match m w with
  | (w', Ok a) => f a w'
  | (w', Throw e) => (w', Throw e)
  end.

Definition lift {A : Type} (r : result A) : M A := fun w => (w, r).

Definition call_thunk {A : Type} (id : Ref) (produce : Env → A) : M A :=
  fun w => ({| env := env w; calls := calls w ++ [id] |}, Ok (produce (env w))).

(** [typeof thunk === 'function' ? thunk() : thunk] *)
Definition resolveArrayThunk {A : Type} (thunk : Thunk A) : M A :=
  match thunk with
  | Producer id produce => call_thunk id produce
  | Direct a => mret a
  end.

Definition resolveObjMapThunk {A : Type} (thunk : Thunk A) : M A :=
  match thunk with
  | Producer id produce => call_thunk id produce
  | Direct a => mret a
  end.

(** A lazily resolved member of a type, [_fields], [_interfaces] or
    [_types]: the defining function bound to the configuration
    ([typeof this._fields === 'function']), or the collection it returned. *)
Inductive Cell (C R : Type) : Type :=
| Bound (config : C)
| Settled (value : R).
Arguments Bound {C R} config.
Arguments Settled {C R} value.

(** The body the accessors share:
    [if (typeof this._x === 'function') { this._x = this._x(); } return this._x;]
    gives the cell after the call and the collection returned.  When the
    defining function throws, the assignment does not happen. *)
Definition Cell_get {C R : Type} (define : C → M R) (cell : Cell C R) : M (Cell C R * R) :=
  match cell with
  | Bound config => value ← define config; mret (Settled value, value)
  | Settled value => mret (cell, value)
  end.

(** ** Arguments and fields *)

Record GraphQLArgumentConfig : Type := {
  ac_description : mixed;
  ac_type : mixed;
  ac_defaultValue : mixed;
  ac_extensions : Maybe ObjMapLike;
  ac_deprecationReason : mixed;
  ac_astNode : mixed;
}.

Definition GraphQLFieldConfigArgumentMap : Type := ObjMap GraphQLArgumentConfig.

Record GraphQLArgument : Type := {
  arg_name : string;
  arg_description : mixed;
  arg_type : mixed;
  arg_defaultValue : mixed;
  arg_deprecationReason : mixed;
  arg_extensions : Maybe ObjMapLike;
  arg_astNode : mixed;
}.

Record GraphQLFieldConfig : Type := {
  fc_description : mixed;
  fc_type : mixed;
  fc_args : dyn GraphQLFieldConfigArgumentMap;   (* [Not Undefined] when left out *)
  fc_resolve : mixed;
  fc_subscribe : mixed;
  fc_deprecationReason : mixed;
  fc_extensions : Maybe ObjMapLike;
  fc_astNode : mixed;
}.

Definition GraphQLFieldConfigMap : Type := ObjMap (dyn GraphQLFieldConfig).

Record GraphQLField : Type := {
  fld_name : string;
  fld_description : mixed;
  fld_type : mixed;
  fld_args : list GraphQLArgument;
  fld_resolve : mixed;
  fld_subscribe : mixed;
  fld_deprecationReason : mixed;
  fld_extensions : Maybe ObjMapLike;
  fld_astNode : mixed;
}.

Definition GraphQLFieldMap : Type := ObjMap GraphQLField.

Definition isRequiredArgument (arg : GraphQLArgument) : bool :=
  isNonNullType (arg_type arg) && bool_decide (arg_defaultValue arg = Undefined).

(** [Object.entries(config).map(([argName, argConfig]) => ({ ... }))] *)
Definition defineArguments (config : GraphQLFieldConfigArgumentMap) : list GraphQLArgument :=
  map (λ '(argName, argConfig),
         {| arg_name := argName;
            arg_description := ac_description argConfig;
            arg_type := ac_type argConfig;
            arg_defaultValue := ac_defaultValue argConfig;
            arg_deprecationReason := ac_deprecationReason argConfig;
            arg_extensions := and_toObjMap (ac_extensions argConfig);
            arg_astNode := ac_astNode argConfig |})
      config.

(** What [defineFieldMap] and [defineInterfaces] read of a configuration,
    which is that of an object type or of an interface type. *)
Class FieldsAndInterfaces (C : Type) : Type := {
  config_name : C → mixed;
  config_fields : C → Thunk (dyn GraphQLFieldConfigMap);
  config_interfaces : C → Maybe (Thunk (dyn (list mixed)));
}.

Definition defineInterfaces `{FieldsAndInterfaces C} (config : C) : M (list mixed) :=
  interfaces ← resolveArrayThunk (nullish_or (config_interfaces config) (Direct (Is [])));
  lift (devAssert_shape Array_isArray interfaces
          (λ _, [Interp (config_name config);
                 Lit " interfaces must be an Array or a function which returns an Array."])).

(** [fieldConfig.args ?? {}] *)
Definition args_or_empty (args : dyn GraphQLFieldConfigArgumentMap)
  : dyn GraphQLFieldConfigArgumentMap :=
  match args with
  | Not Undefined | Not Null => Is []
  | _ => args
  end.

(** The callback of [mapValue] in [defineFieldMap]. *)
Definition defineField (name : mixed) (fieldConfig : dyn GraphQLFieldConfig)
    (fieldName : string) : result GraphQLField :=
  fieldConfig ← devAssert_shape isPlainObj fieldConfig
    (λ _, [Interp name; Lit "."; Lit fieldName; Lit " field config must be an object."]);
  _ ← devAssert (nullish (fc_resolve fieldConfig)
                 || typeof_function (fc_resolve fieldConfig))
        [Interp name; Lit "."; Lit fieldName;
         Lit " field resolver must be a function if provided, but got: ";
         Inspect (fc_resolve fieldConfig); Lit "."];
  argsConfig ← devAssert_shape isPlainObj (args_or_empty (fc_args fieldConfig))
    (λ _, [Interp name; Lit "."; Lit fieldName;
           Lit " args must be an object with argument names as keys."]);
  Ok {| fld_name := fieldName;
        fld_description := fc_description fieldConfig;
        fld_type := fc_type fieldConfig;
        fld_args := defineArguments argsConfig;
        fld_resolve := fc_resolve fieldConfig;
        fld_subscribe := fc_subscribe fieldConfig;
        fld_deprecationReason := fc_deprecationReason fieldConfig;
        fld_extensions := and_toObjMap (fc_extensions fieldConfig);
        fld_astNode := fc_astNode fieldConfig |}.

Definition defineFieldMap `{FieldsAndInterfaces C} (config : C) : M GraphQLFieldMap :=
  fieldMap ← resolveObjMapThunk (config_fields config);
  fieldMap ← lift (devAssert_shape isPlainObj fieldMap
    (λ _, [Interp (config_name config);
           Lit " fields must be an object with field names as keys or a function which returns such an object."]));
  lift (mapValue fieldMap (defineField (config_name config))).

(** [argsToArgsConfig] *)
Definition argsToArgsConfig (args : list GraphQLArgument) : GraphQLFieldConfigArgumentMap :=
  keyValMap args arg_name
    (λ arg, {| ac_description := arg_description arg;
               ac_type := arg_type arg;
               ac_defaultValue := arg_defaultValue arg;
               ac_deprecationReason := arg_deprecationReason arg;
               ac_extensions := arg_extensions arg;
               ac_astNode := arg_astNode arg |}).

(** The callback of [mapValue] in [fieldsToFieldsConfig]. *)
Definition fieldToFieldConfig (field : GraphQLField) : GraphQLFieldConfig :=
  {| fc_description := fld_description field;
     fc_type := fld_type field;
     fc_args := Is (argsToArgsConfig (fld_args field));
     fc_resolve := fld_resolve field;
     fc_subscribe := fld_subscribe field;
     fc_deprecationReason := fld_deprecationReason field;
     fc_extensions := fld_extensions field;
     fc_astNode := fld_astNode field |}.

Definition fieldsToFieldsConfig (fields : GraphQLFieldMap) : result GraphQLFieldConfigMap :=
  mapValue fields (λ field _, Ok (Is (fieldToFieldConfig field))).

(** ** Object types *)

Record GraphQLObjectTypeConfig : Type := {
  oc_name : mixed;
  oc_description : mixed;
  oc_interfaces : Maybe (Thunk (dyn (list mixed)));
  oc_fields : Thunk (dyn GraphQLFieldConfigMap);
  oc_isTypeOf : mixed;
  oc_extensions : Maybe ObjMapLike;
  oc_astNode : mixed;
  oc_extensionASTNodes : Maybe (list mixed);
}.

#[global] Instance GraphQLObjectTypeConfig_fields : FieldsAndInterfaces GraphQLObjectTypeConfig := {|
  config_name := oc_name;
  config_fields := oc_fields;
  config_interfaces := oc_interfaces;
|}.

Record GraphQLObjectType : Type := {
  obj_name : mixed;
  obj_description : mixed;
  obj_isTypeOf : mixed;
  obj_extensions : Maybe ObjMapLike;
  obj_astNode : mixed;
  obj_extensionASTNodes : list mixed;
  obj__fields : Cell GraphQLObjectTypeConfig GraphQLFieldMap;
  obj__interfaces : Cell GraphQLObjectTypeConfig (list mixed);
}.

(** [new GraphQLObjectType(config)] *)
Definition GraphQLObjectType_new (config : GraphQLObjectTypeConfig) : result GraphQLObjectType :=
  let this :=
    {| obj_name := oc_name config;
       obj_description := oc_description config;
       obj_isTypeOf := oc_isTypeOf config;
       obj_extensions := and_toObjMap (oc_extensions config);
       obj_astNode := oc_astNode config;
       obj_extensionASTNodes := nullish_or (oc_extensionASTNodes config) [];
       obj__fields := Bound config;
       obj__interfaces := Bound config |} in
  _ ← devAssert (typeof_string (oc_name config)) [Lit "Must provide name."];
  _ ← devAssert (nullish (oc_isTypeOf config) || typeof_function (oc_isTypeOf config))
        [Interp (obj_name this); Lit " must provide "; Quoted (Lit "isTypeOf");
         Lit " as a function, "; Lit "but got: "; Inspect (oc_isTypeOf config); Lit "."];
  Ok this.

(** [this._fields = cell] and [this._interfaces = cell] *)
Definition obj_set__fields (this : GraphQLObjectType)
    (cell : Cell GraphQLObjectTypeConfig GraphQLFieldMap) : GraphQLObjectType :=
  {| obj_name := obj_name this;
     obj_description := obj_description this;
     obj_isTypeOf := obj_isTypeOf this;
     obj_extensions := obj_extensions this;
     obj_astNode := obj_astNode this;
     obj_extensionASTNodes := obj_extensionASTNodes this;
     obj__fields := cell;
     obj__interfaces := obj__interfaces this |}.

Definition obj_set__interfaces (this : GraphQLObjectType)
    (cell : Cell GraphQLObjectTypeConfig (list mixed)) : GraphQLObjectType :=
  {| obj_name := obj_name this;
     obj_description := obj_description this;
     obj_isTypeOf := obj_isTypeOf this;
     obj_extensions := obj_extensions this;
     obj_astNode := obj_astNode this;
     obj_extensionASTNodes := obj_extensionASTNodes this;
     obj__fields := obj__fields this;
     obj__interfaces := cell |}.

Definition GraphQLObjectType_getFields (this : GraphQLObjectType)
  : M (GraphQLObjectType * GraphQLFieldMap) :=
  '(cell, fields) ← Cell_get defineFieldMap (obj__fields this);
  mret (obj_set__fields this cell, fields).

Definition GraphQLObjectType_getInterfaces (this : GraphQLObjectType)
  : M (GraphQLObjectType * list mixed) :=
  '(cell, interfaces) ← Cell_get defineInterfaces (obj__interfaces this);
  mret (obj_set__interfaces this cell, interfaces).

Definition GraphQLObjectType_toConfig (this : GraphQLObjectType)
  : M (GraphQLObjectType * GraphQLObjectTypeConfig) :=
  '(this, interfaces) ← GraphQLObjectType_getInterfaces this;
  '(this, fields) ← GraphQLObjectType_getFields this;
  fields ← lift (fieldsToFieldsConfig fields);
  mret (this,
        {| oc_name := obj_name this;
           oc_description := obj_description this;
           oc_interfaces := Given (Direct (Is interfaces));
           oc_fields := Direct (Is fields);
           oc_isTypeOf := obj_isTypeOf this;
           oc_extensions := obj_extensions this;
           oc_astNode := obj_astNode this;
           oc_extensionASTNodes := Given (obj_extensionASTNodes this) |}).

(** ** Interface types *)

Record GraphQLInterfaceTypeConfig : Type := {
  ic_name : mixed;
  ic_description : mixed;
  ic_interfaces : Maybe (Thunk (dyn (list mixed)));
  ic_fields : Thunk (dyn GraphQLFieldConfigMap);
  ic_resolveType : mixed;
  ic_extensions : Maybe ObjMapLike;
  ic_astNode : mixed;
  ic_extensionASTNodes : Maybe (list mixed);
}.

#[global] Instance GraphQLInterfaceTypeConfig_fields
  : FieldsAndInterfaces GraphQLInterfaceTypeConfig := {|
  config_name := ic_name;
  config_fields := ic_fields;
  config_interfaces := ic_interfaces;
|}.

Record GraphQLInterfaceType : Type := {
  itf_name : mixed;
  itf_description : mixed;
  itf_resolveType : mixed;
  itf_extensions : Maybe ObjMapLike;
  itf_astNode : mixed;
  itf_extensionASTNodes : list mixed;
  itf__fields : Cell GraphQLInterfaceTypeConfig GraphQLFieldMap;
  itf__interfaces : Cell GraphQLInterfaceTypeConfig (list mixed);
}.

(** [new GraphQLInterfaceType(config)] *)
Definition GraphQLInterfaceType_new (config : GraphQLInterfaceTypeConfig)
  : result GraphQLInterfaceType :=
  let this :=
    {| itf_name := ic_name config;
       itf_description := ic_description config;
       itf_resolveType := ic_resolveType config;
       itf_extensions := and_toObjMap (ic_extensions config);
       itf_astNode := ic_astNode config;
       itf_extensionASTNodes := nullish_or (ic_extensionASTNodes config) [];
       itf__fields := Bound config;
       itf__interfaces := Bound config |} in
  _ ← devAssert (typeof_string (ic_name config)) [Lit "Must provide name."];
  _ ← devAssert (nullish (ic_resolveType config) || typeof_function (ic_resolveType config))
        [Interp (itf_name this); Lit " must provide "; Quoted (Lit "resolveType");
         Lit " as a function, "; Lit "but got: "; Inspect (ic_resolveType config); Lit "."];
  Ok this.

(** [this._fields = cell] and [this._interfaces = cell] *)
Definition itf_set__fields (this : GraphQLInterfaceType)
    (cell : Cell GraphQLInterfaceTypeConfig GraphQLFieldMap) : GraphQLInterfaceType :=
  {| itf_name := itf_name this;
     itf_description := itf_description this;
     itf_resolveType := itf_resolveType this;
     itf_extensions := itf_extensions this;
     itf_astNode := itf_astNode this;
     itf_extensionASTNodes := itf_extensionASTNodes this;
     itf__fields := cell;
     itf__interfaces := itf__interfaces this |}.

Definition itf_set__interfaces (this : GraphQLInterfaceType)
    (cell : Cell GraphQLInterfaceTypeConfig (list mixed)) : GraphQLInterfaceType :=
  {| itf_name := itf_name this;
     itf_description := itf_description this;
     itf_resolveType := itf_resolveType this;
     itf_extensions := itf_extensions this;
     itf_astNode := itf_astNode this;
     itf_extensionASTNodes := itf_extensionASTNodes this;
     itf__fields := itf__fields this;
     itf__interfaces := cell |}.

Definition GraphQLInterfaceType_getFields (this : GraphQLInterfaceType)
  : M (GraphQLInterfaceType * GraphQLFieldMap) :=
  '(cell, fields) ← Cell_get defineFieldMap (itf__fields this);
  mret (itf_set__fields this cell, fields).

Definition GraphQLInterfaceType_getInterfaces (this : GraphQLInterfaceType)
  : M (GraphQLInterfaceType * list mixed) :=
  '(cell, interfaces) ← Cell_get defineInterfaces (itf__interfaces this);
  mret (itf_set__interfaces this cell, interfaces).

Definition GraphQLInterfaceType_toConfig (this : GraphQLInterfaceType)
  : M (GraphQLInterfaceType * GraphQLInterfaceTypeConfig) :=
  '(this, interfaces) ← GraphQLInterfaceType_getInterfaces this;
  '(this, fields) ← GraphQLInterfaceType_getFields this;
  fields ← lift (fieldsToFieldsConfig fields);
  mret (this,
        {| ic_name := itf_name this;
           ic_description := itf_description this;
           ic_interfaces := Given (Direct (Is interfaces));
           ic_fields := Direct (Is fields);
           ic_resolveType := itf_resolveType this;
           ic_extensions := itf_extensions this;
           ic_astNode := itf_astNode this;
           ic_extensionASTNodes := Given (itf_extensionASTNodes this) |}).

(** ** Union types *)

Record GraphQLUnionTypeConfig : Type := {
  uc_name : mixed;
  uc_description : mixed;
  uc_types : Thunk (dyn (list mixed));
  uc_resolveType : mixed;
  uc_extensions : Maybe ObjMapLike;
  uc_astNode : mixed;
  uc_extensionASTNodes : Maybe (list mixed);
}.

Record GraphQLUnionType : Type := {
  uni_name : mixed;
  uni_description : mixed;
  uni_resolveType : mixed;
  uni_extensions : Maybe ObjMapLike;
  uni_astNode : mixed;
  uni_extensionASTNodes : list mixed;
  uni__types : Cell GraphQLUnionTypeConfig (list mixed);
}.

Definition defineTypes (config : GraphQLUnionTypeConfig) : M (list mixed) :=
  types ← resolveArrayThunk (uc_types config);
  lift (devAssert_shape Array_isArray types
    (λ _, [Lit "Must provide Array of types or a function which returns such an array for Union ";
           Interp (uc_name config); Lit "."])).

(** [new GraphQLUnionType(config)] *)
Definition GraphQLUnionType_new (config : GraphQLUnionTypeConfig) : result GraphQLUnionType :=
  let this :=
    {| uni_name := uc_name config;
       uni_description := uc_description config;
       uni_resolveType := uc_resolveType config;
       uni_extensions := and_toObjMap (uc_extensions config);
       uni_astNode := uc_astNode config;
       uni_extensionASTNodes := nullish_or (uc_extensionASTNodes config) [];
       uni__types := Bound config |} in
  _ ← devAssert (typeof_string (uc_name config)) [Lit "Must provide name."];
  _ ← devAssert (nullish (uc_resolveType config) || typeof_function (uc_resolveType config))
        [Interp (uni_name this); Lit " must provide "; Quoted (Lit "resolveType");
         Lit " as a function, "; Lit "but got: "; Inspect (uc_resolveType config); Lit "."];
  Ok this.

(** [this._types = cell] *)
Definition uni_set__types (this : GraphQLUnionType)
    (cell : Cell GraphQLUnionTypeConfig (list mixed)) : GraphQLUnionType :=
  {| uni_name := uni_name this;
     uni_description := uni_description this;
     uni_resolveType := uni_resolveType this;
     uni_extensions := uni_extensions this;
     uni_astNode := uni_astNode this;
     uni_extensionASTNodes := uni_extensionASTNodes this;
     uni__types := cell |}.

Definition GraphQLUnionType_getTypes (this : GraphQLUnionType)
  : M (GraphQLUnionType * list mixed) :=
  '(cell, types) ← Cell_get defineTypes (uni__types this);
  mret (uni_set__types this cell, types).

Definition GraphQLUnionType_toConfig (this : GraphQLUnionType)
  : M (GraphQLUnionType * GraphQLUnionTypeConfig) :=
  '(this, types) ← GraphQLUnionType_getTypes this;
  mret (this,
        {| uc_name := uni_name this;
           uc_description := uni_description this;
           uc_types := Direct (Is types);
           uc_resolveType := uni_resolveType this;
           uc_extensions := uni_extensions this;
           uc_astNode := uni_astNode this;
           uc_extensionASTNodes := Given (uni_extensionASTNodes this) |}).

(** ** Enum types *)

Record GraphQLEnumValueConfig : Type := {
  evc_description : mixed;
  evc_value : option mixed;       (* [None]: the object has no [value] property *)
  evc_deprecationReason : mixed;
  evc_extensions : Maybe ObjMapLike;
  evc_astNode : mixed;
}.

Definition GraphQLEnumValueConfigMap : Type := ObjMap (dyn GraphQLEnumValueConfig).

Record GraphQLEnumValue : Type := {
  ev_name : string;
  ev_description : mixed;
  ev_value : mixed;
  ev_deprecationReason : mixed;
  ev_extensions : Maybe ObjMapLike;
  ev_astNode : mixed;
}.

Record GraphQLEnumTypeConfig : Type := {
  ec_name : mixed;
  ec_description : mixed;
  ec_values : dyn GraphQLEnumValueConfigMap;
  ec_extensions : Maybe ObjMapLike;
  ec_astNode : mixed;
  ec_extensionASTNodes : Maybe (list mixed);
}.

Record GraphQLEnumType : Type := {
  enum_name : mixed;
  enum_description : mixed;
  enum_extensions : Maybe ObjMapLike;
  enum_astNode : mixed;
  enum_extensionASTNodes : list mixed;
  enum__values : list GraphQLEnumValue;
  enum__valueLookup : gmap mixed GraphQLEnumValue;
  enum__nameLookup : gmap string GraphQLEnumValue;
}.

(** Reading a property that may be missing: [obj.prop] is [undefined] then. *)
Definition get_property (prop : option mixed) : mixed := default Undefined prop.

(** The callback of [Object.entries(valueMap).map] in [defineEnumValues]. *)
Definition defineEnumValue (typeName : mixed)
    (entry : string * dyn GraphQLEnumValueConfig) : result GraphQLEnumValue :=
  let '(valueName, valueConfig) := entry in
  valueConfig ← devAssert_shape isPlainObj valueConfig
    (λ v, [Interp typeName; Lit "."; Lit valueName; Lit " must refer to an object with a ";
           Quoted (Lit "value"); Lit " key "; Lit "representing an internal value but got: ";
           Inspect v; Lit "."]);
  Ok {| ev_name := valueName;
        ev_description := evc_description valueConfig;
        ev_value :=
          if bool_decide (get_property (evc_value valueConfig) ≠ Undefined)
          then get_property (evc_value valueConfig)
          else Str valueName;
        ev_deprecationReason := evc_deprecationReason valueConfig;
        ev_extensions := and_toObjMap (evc_extensions valueConfig);
        ev_astNode := evc_astNode valueConfig |}.

Definition defineEnumValues (typeName : mixed) (valueMap : dyn GraphQLEnumValueConfigMap)
  : result (list GraphQLEnumValue) :=
  valueMap ← devAssert_shape isPlainObj valueMap
    (λ _, [Interp typeName; Lit " values must be an object with value names as keys."]);
  mapM (defineEnumValue typeName) valueMap.

(** [new GraphQLEnumType(config)] *)
Definition GraphQLEnumType_new (config : GraphQLEnumTypeConfig) : result GraphQLEnumType :=
  _values ← defineEnumValues (ec_name config) (ec_values config);
  let this :=
    {| enum_name := ec_name config;
       enum_description := ec_description config;
       enum_extensions := and_toObjMap (ec_extensions config);
       enum_astNode := ec_astNode config;
       enum_extensionASTNodes := nullish_or (ec_extensionASTNodes config) [];
       enum__values := _values;
       enum__valueLookup := Map_new (map (λ enumValue, (ev_value enumValue, enumValue)) _values);
       enum__nameLookup := keyMap _values ev_name |} in
  _ ← devAssert (typeof_string (ec_name config)) [Lit "Must provide name."];
  Ok this.

Definition GraphQLEnumType_getValues (this : GraphQLEnumType) : list GraphQLEnumValue :=
  enum__values this.

(** [this._nameLookup[name]]; [None] is [undefined]. *)
Definition GraphQLEnumType_getValue (this : GraphQLEnumType) (name : string)
  : option GraphQLEnumValue :=
  enum__nameLookup this !! name.

Definition GraphQLEnumType_serialize (this : GraphQLEnumType) (outputValue : mixed)
  : result string :=
  match enum__valueLookup this !! outputValue with
  | None =>
      Throw (GraphQLError
               [Lit "Enum "; Quoted (Interp (enum_name this));
                Lit " cannot represent value: "; Inspect outputValue] None)
  | Some enumValue => Ok (ev_name enumValue)
  end.

Definition allNames (this : GraphQLEnumType) : list string :=
  map ev_name (GraphQLEnumType_getValues this).

Definition GraphQLEnumType_parseValue (this : GraphQLEnumType) (inputValue : mixed)
  : result mixed :=
  match inputValue with
  | Str inputValue =>
      match GraphQLEnumType_getValue this inputValue with
      | None =>
          Throw (GraphQLError
                   [Lit "Value "; Quoted (Lit inputValue); Lit " does not exist in ";
                    Quoted (Interp (enum_name this)); Lit " enum.";
                    DidYouMeanEnumValue (allNames this) (Lit inputValue)] None)
      | Some enumValue => Ok (ev_value enumValue)
      end
  | _ =>
      let valueStr := Inspect inputValue in
      Throw (GraphQLError
               [Lit "Enum "; Quoted (Interp (enum_name this));
                Lit " cannot represent non-string value: "; valueStr; Lit ".";
                DidYouMeanEnumValue (allNames this) valueStr] None)
  end.

Definition GraphQLEnumType_parseLiteral (this : GraphQLEnumType) (valueNode : ValueNode)
    (_variables : mixed) : result mixed :=
  match valueNode with
  | EnumValueNode value =>
      match GraphQLEnumType_getValue this value with
      | None =>
          let valueStr := Print valueNode in
          Throw (GraphQLError
                   [Lit "Value "; Quoted valueStr; Lit " does not exist in ";
                    Quoted (Interp (enum_name this)); Lit " enum.";
                    DidYouMeanEnumValue (allNames this) valueStr] (Some valueNode))
      | Some enumValue => Ok (ev_value enumValue)
      end
  | OtherValueNode _ =>
      let valueStr := Print valueNode in
      Throw (GraphQLError
               [Lit "Enum "; Quoted (Interp (enum_name this));
                Lit " cannot represent non-enum value: "; valueStr; Lit ".";
                DidYouMeanEnumValue (allNames this) valueStr] (Some valueNode))
  end.

Definition GraphQLEnumType_toConfig (this : GraphQLEnumType) : GraphQLEnumTypeConfig :=
  let values :=
    keyValMap (GraphQLEnumType_getValues this) ev_name
      (λ value, Is {| evc_description := ev_description value;
                      evc_value := Some (ev_value value);
                      evc_deprecationReason := ev_deprecationReason value;
                      evc_extensions := ev_extensions value;
                      evc_astNode := ev_astNode value |}) in
  {| ec_name := enum_name this;
     ec_description := enum_description this;
     ec_values := Is values;
     ec_extensions := enum_extensions this;
     ec_astNode := enum_astNode this;
     ec_extensionASTNodes := Given (enum_extensionASTNodes this) |}.

(** ** Input object types *)

Record GraphQLInputFieldConfig : Type := {
  ifc_description : mixed;
  ifc_type : mixed;
  ifc_defaultValue : mixed;
  ifc_deprecationReason : mixed;
  ifc_extensions : Maybe ObjMapLike;
  ifc_astNode : mixed;
  ifc_resolve : option mixed;     (* [None]: the object has no [resolve] property *)
}.

Definition GraphQLInputFieldConfigMap : Type := ObjMap GraphQLInputFieldConfig.

Record GraphQLInputField : Type := {
  inf_name : string;
  inf_description : mixed;
  inf_type : mixed;
  inf_defaultValue : mixed;
  inf_deprecationReason : mixed;
  inf_extensions : Maybe ObjMapLike;
  inf_astNode : mixed;
}.

Definition GraphQLInputFieldMap : Type := ObjMap GraphQLInputField.

Definition isRequiredInputField (field : GraphQLInputField) : bool :=
  isNonNullType (inf_type field) && bool_decide (inf_defaultValue field = Undefined).

Record GraphQLInputObjectTypeConfig : Type := {
  ioc_name : mixed;
  ioc_description : mixed;
  ioc_fields : Thunk (dyn GraphQLInputFieldConfigMap);
  ioc_extensions : Maybe ObjMapLike;
  ioc_astNode : mixed;
  ioc_extensionASTNodes : Maybe (list mixed);
}.

Record GraphQLInputObjectType : Type := {
  io_name : mixed;
  io_description : mixed;
  io_extensions : Maybe ObjMapLike;
  io_astNode : mixed;
  io_extensionASTNodes : list mixed;
  io__fields : Cell GraphQLInputObjectTypeConfig GraphQLInputFieldMap;
}.

(** ['resolve' in fieldConfig] *)
Definition has_resolve (fieldConfig : GraphQLInputFieldConfig) : bool :=
  bool_decide (is_Some (ifc_resolve fieldConfig)).

(** The callback of [mapValue] in [defineInputFieldMap]. *)
Definition defineInputField (name : mixed) (fieldConfig : GraphQLInputFieldConfig)
    (fieldName : string) : result GraphQLInputField :=
  _ ← devAssert (negb (has_resolve fieldConfig))
        [Interp name; Lit "."; Lit fieldName;
         Lit " field has a resolve property, but Input Types cannot define resolvers."];
  Ok {| inf_name := fieldName;
        inf_description := ifc_description fieldConfig;
        inf_type := ifc_type fieldConfig;
        inf_defaultValue := ifc_defaultValue fieldConfig;
        inf_deprecationReason := ifc_deprecationReason fieldConfig;
        inf_extensions := and_toObjMap (ifc_extensions fieldConfig);
        inf_astNode := ifc_astNode fieldConfig |}.

Definition defineInputFieldMap (config : GraphQLInputObjectTypeConfig)
  : M GraphQLInputFieldMap :=
  fieldMap ← resolveObjMapThunk (ioc_fields config);
  fieldMap ← lift (devAssert_shape isPlainObj fieldMap
    (λ _, [Interp (ioc_name config);
           Lit " fields must be an object with field names as keys or a function which returns such an object."]));
  lift (mapValue fieldMap (defineInputField (ioc_name config))).

(** [new GraphQLInputObjectType(config)] *)
Definition GraphQLInputObjectType_new (config : GraphQLInputObjectTypeConfig)
  : result GraphQLInputObjectType :=
  let this :=
    {| io_name := ioc_name config;
       io_description := ioc_description config;
       io_extensions := and_toObjMap (ioc_extensions config);
       io_astNode := ioc_astNode config;
       io_extensionASTNodes := nullish_or (ioc_extensionASTNodes config) [];
       io__fields := Bound config |} in
  _ ← devAssert (typeof_string (ioc_name config)) [Lit "Must provide name."];
  Ok this.

(** [this._fields = cell] *)
Definition io_set__fields (this : GraphQLInputObjectType)
    (cell : Cell GraphQLInputObjectTypeConfig GraphQLInputFieldMap) : GraphQLInputObjectType :=
  {| io_name := io_name this;
     io_description := io_description this;
     io_extensions := io_extensions this;
     io_astNode := io_astNode this;
     io_extensionASTNodes := io_extensionASTNodes this;
     io__fields := cell |}.

Definition GraphQLInputObjectType_getFields (this : GraphQLInputObjectType)
  : M (GraphQLInputObjectType * GraphQLInputFieldMap) :=
  '(cell, fields) ← Cell_get defineInputFieldMap (io__fields this);
  mret (io_set__fields this cell, fields).

(** The callback of [mapValue] in [toConfig]: the object literal it returns
    has the properties [description], [type], [defaultValue], [extensions]
    and [astNode]; it has no [deprecationReason], which reads as
    [undefined], and no [resolve]. *)
Definition inputFieldToConfig (field : GraphQLInputField) : GraphQLInputFieldConfig :=
  {| ifc_description := inf_description field;
     ifc_type := inf_type field;
     ifc_defaultValue := inf_defaultValue field;
     ifc_deprecationReason := Undefined;
     ifc_extensions := inf_extensions field;
     ifc_astNode := inf_astNode field;
     ifc_resolve := None |}.

Definition GraphQLInputObjectType_toConfig (this : GraphQLInputObjectType)
  : M (GraphQLInputObjectType * GraphQLInputObjectTypeConfig) :=
  '(this, fields) ← GraphQLInputObjectType_getFields this;
  fields ← lift (mapValue fields (λ field _, Ok (inputFieldToConfig field)));
  mret (this,
        {| ioc_name := io_name this;
           ioc_description := io_description this;
           ioc_fields := Direct (Is fields);
           ioc_extensions := io_extensions this;
           ioc_astNode := io_astNode this;
           ioc_extensionASTNodes := Given (io_extensionASTNodes this) |}).

(** ** The lazy accessors, side by side *)

(** The six accessors that resolve a lazy member of a named type. *)
Inductive Accessor : Type :=
| Object_getFields
| Object_getInterfaces
| Interface_getFields
| Interface_getInterfaces
| Union_getTypes
| InputObject_getFields.

(** The class of [this], the configuration it was built from and the
    collection returned, for each accessor. *)
Definition receiver (a : Accessor) : Type :=
  match a with
  | Object_getFields | Object_getInterfaces => GraphQLObjectType
  | Interface_getFields | Interface_getInterfaces => GraphQLInterfaceType
  | Union_getTypes => GraphQLUnionType
  | InputObject_getFields => GraphQLInputObjectType
  end.

Definition configuration (a : Accessor) : Type :=
  match a with
  | Object_getFields | Object_getInterfaces => GraphQLObjectTypeConfig
  | Interface_getFields | Interface_getInterfaces => GraphQLInterfaceTypeConfig
  | Union_getTypes => GraphQLUnionTypeConfig
  | InputObject_getFields => GraphQLInputObjectTypeConfig
  end.

Definition collection (a : Accessor) : Type :=
  match a with
  | Object_getFields | Interface_getFields => GraphQLFieldMap
  | Object_getInterfaces | Interface_getInterfaces | Union_getTypes => list mixed
  | InputObject_getFields => GraphQLInputFieldMap
  end.

(** [this.getFields()], [this.getInterfaces()], [this.getTypes()] *)
Definition call (a : Accessor) : receiver a → M (receiver a * collection a) :=
  match a with
  | Object_getFields => GraphQLObjectType_getFields
  | Object_getInterfaces => GraphQLObjectType_getInterfaces
  | Interface_getFields => GraphQLInterfaceType_getFields
  | Interface_getInterfaces => GraphQLInterfaceType_getInterfaces
  | Union_getTypes => GraphQLUnionType_getTypes
  | InputObject_getFields => GraphQLInputObjectType_getFields
  end.

(** The member the accessor resolves: [this._fields], [this._interfaces] or
    [this._types]. *)
Definition member (a : Accessor) : receiver a → Cell (configuration a) (collection a) :=
  match a with
  | Object_getFields => obj__fields
  | Object_getInterfaces => obj__interfaces
  | Interface_getFields => itf__fields
  | Interface_getInterfaces => itf__interfaces
  | Union_getTypes => uni__types
  | InputObject_getFields => io__fields
  end.

(** The assignment to the member. *)
Definition assign (a : Accessor)
  : receiver a → Cell (configuration a) (collection a) → receiver a :=
  match a with
  | Object_getFields => obj_set__fields
  | Object_getInterfaces => obj_set__interfaces
  | Interface_getFields => itf_set__fields
  | Interface_getInterfaces => itf_set__interfaces
  | Union_getTypes => uni_set__types
  | InputObject_getFields => io_set__fields
  end.

Definition thunk_id {A : Type} (thunk : Thunk A) : option Ref :=
  match thunk with Producer id _ => Some id | Direct _ => None end.

(** The thunk the configuration supplies for the member, if it supplies one. *)
Definition configured_thunk (a : Accessor) : configuration a → option Ref :=
  match a with
  | Object_getFields => λ config, thunk_id (oc_fields config)
  | Object_getInterfaces => λ config,
      match oc_interfaces config with Given thunk => thunk_id thunk | _ => None end
  | Interface_getFields => λ config, thunk_id (ic_fields config)
  | Interface_getInterfaces => λ config,
      match ic_interfaces config with Given thunk => thunk_id thunk | _ => None end
  | Union_getTypes => λ config, thunk_id (uc_types config)
  | InputObject_getFields => λ config, thunk_id (ioc_fields config)
  end.

(** An unresolved type whose member was supplied as the thunk [id]. *)
Definition pending_thunk (a : Accessor) (this : receiver a) : option Ref :=
  match member a this with
  | Bound config => configured_thunk a config
  | Settled _ => None
  end.

(** The collection of a resolved type. *)
Definition resolved (a : Accessor) (this : receiver a) : option (collection a) :=
  match member a this with
  | Bound _ => None
  | Settled value => Some value
  end.



(** ** Wrapping layers *)

(** The type objects reachable from a type by following [ofType]: the type
    itself first. *)
Fixpoint unwrappings (t : GraphQLType) : list GraphQLType :=
  t :: match t with
       | List t' | NonNull t' => unwrappings t'
       | _ => []
       end.


(** The defining function bound in the member: [defineFieldMap],
    [defineInterfaces], [defineTypes] or [defineInputFieldMap]. *)
Definition define (a : Accessor) : configuration a → M (collection a) :=
  match a with
  | Object_getFields => defineFieldMap
  | Object_getInterfaces => defineInterfaces
  | Interface_getFields => defineFieldMap
  | Interface_getInterfaces => defineInterfaces
  | Union_getTypes => defineTypes
  | InputObject_getFields => defineInputFieldMap
  end.



(** ** Round trips through [toConfig] *)

(** A type is built from a configuration and its lazy member forced; its
    [toConfig()] is handed to the constructor again, and the member of the
    second type forced: the fields of the first type and of the second. *)
Definition InputObject_round_trip (config : GraphQLInputObjectTypeConfig)
  : M (GraphQLInputFieldMap * GraphQLInputFieldMap) :=
  first ← lift (GraphQLInputObjectType_new config);
  '(first, fields) ← GraphQLInputObjectType_getFields first;
  '(first, config') ← GraphQLInputObjectType_toConfig first;
  second ← lift (GraphQLInputObjectType_new config');
  '(second, fields') ← GraphQLInputObjectType_getFields second;
  mret (fields, fields').

(** The same for an enum type, which has no lazy member. *)
Definition Enum_round_trip (config : GraphQLEnumTypeConfig)
  : result (GraphQLEnumType * GraphQLEnumType) :=
  first ← GraphQLEnumType_new config;
  second ← GraphQLEnumType_new (GraphQLEnumType_toConfig first);
  mret (first, second).

(** An input field with its deprecation reason forgotten. *)
Definition without_deprecationReason (field : GraphQLInputField) : GraphQLInputField :=
  {| inf_name := inf_name field;
     inf_description := inf_description field;
     inf_type := inf_type field;
     inf_defaultValue := inf_defaultValue field;
     inf_deprecationReason := Undefined;
     inf_extensions := inf_extensions field;
     inf_astNode := inf_astNode field |}.

(** The same for an object type, with both lazy members: the first type
    and the second, each with its fields and interfaces resolved. *)
Definition Object_round_trip (config : GraphQLObjectTypeConfig)
  : M (GraphQLObjectType * GraphQLObjectType) :=
  first ← lift (GraphQLObjectType_new config);
  '(first, _) ← GraphQLObjectType_getFields first;
  '(first, _) ← GraphQLObjectType_getInterfaces first;
  '(first, config') ← GraphQLObjectType_toConfig first;
  second ← lift (GraphQLObjectType_new config');
  '(second, _) ← GraphQLObjectType_getFields second;
  '(second, _) ← GraphQLObjectType_getInterfaces second;
  mret (first, second).

(** The configuration is no longer what the members of a type are bound
    to once both are resolved: two types with the same properties and the
    same resolved members are observably the same. *)
Definition same_resolved_object (first second : GraphQLObjectType) : Prop :=
  obj_name first = obj_name second
  ∧ obj_description first = obj_description second
  ∧ obj_isTypeOf first = obj_isTypeOf second
  ∧ obj_extensions first = obj_extensions second
  ∧ obj_astNode first = obj_astNode second
  ∧ obj_extensionASTNodes first = obj_extensionASTNodes second
  ∧ (∃ fields, obj__fields first = Settled fields ∧ obj__fields second = Settled fields)
  ∧ (∃ interfaces, obj__interfaces first = Settled interfaces
                   ∧ obj__interfaces second = Settled interfaces).

(** ** Assertions *)

(** [throw new Error(`Expected ${inspect(type)} to be a GraphQL ...`)]
    unless the predicate holds; the value itself is returned. *)
Definition assert_with (predicate : mixed → bool) (what : string) (type : mixed)
  : result mixed :=
  if negb (predicate type)
  then Throw (Error [Lit "Expected "; Inspect type; Lit " to be a GraphQL "; Lit what; Lit "."])
  else Ok type.

Definition assertType : mixed → result mixed := assert_with isType "type".
Definition assertScalarType : mixed → result mixed := assert_with isScalarType "Scalar type".
Definition assertObjectType : mixed → result mixed := assert_with isObjectType "Object type".
Definition assertInterfaceType : mixed → result mixed :=
  assert_with isInterfaceType "Interface type".
Definition assertUnionType : mixed → result mixed := assert_with isUnionType "Union type".
Definition assertEnumType : mixed → result mixed := assert_with isEnumType "Enum type".
Definition assertInputObjectType : mixed → result mixed :=
  assert_with isInputObjectType "Input Object type".
Definition assertListType : mixed → result mixed := assert_with isListType "List type".
Definition assertNonNullType : mixed → result mixed :=
  assert_with isNonNullType "Non-Null type".
Definition assertInputType : mixed → result mixed := assert_with isInputType "input type".
Definition assertOutputType : mixed → result mixed := assert_with isOutputType "output type".
Definition assertLeafType : mixed → result mixed := assert_with isLeafType "leaf type".
Definition assertCompositeType : mixed → result mixed :=
  assert_with isCompositeType "composite type".
Definition assertAbstractType : mixed → result mixed :=
  assert_with isAbstractType "abstract type".
Definition assertWrappingType : mixed → result mixed :=
  assert_with isWrappingType "wrapping type".
Definition assertNullableType : mixed → result mixed :=
  assert_with isNullableType "nullable type".
Definition assertNamedType : mixed → result mixed := assert_with isNamedType "named type".

(** ** Types the constructors build *)

(** The type objects that exist: the named types, and what
    [new GraphQLList] and [new GraphQLNonNull] return for a type that
    exists. *)
Inductive built : GraphQLType → Prop :=
| built_named (T : GraphQLType) :
    isNamedType (TypeObj T) = true → built T
| built_List (T W : GraphQLType) :
    built T → GraphQLList (TypeObj T) = Ok W → built W
| built_NonNull (T W : GraphQLType) :
    built T → GraphQLNonNull (TypeObj T) = Ok W → built W.

(** No non-null type directly inside a non-null type, at any depth. *)
Fixpoint no_NonNull_of_NonNull (t : GraphQLType) : bool :=
  match t with
  | List t' => no_NonNull_of_NonNull t'
  | NonNull t' => negb (isNonNullType (TypeObj t')) && no_NonNull_of_NonNull t'
  | _ => true
  end.

(** ** The constructors of the types with lazy members, side by side *)

(** [new GraphQLObjectType(config)], [new GraphQLInterfaceType(config)],
    [new GraphQLUnionType(config)] or [new GraphQLInputObjectType(config)]:
    the class the accessor belongs to. *)
Definition construct (a : Accessor) : configuration a → result (receiver a) :=
  match a with
  | Object_getFields | Object_getInterfaces => GraphQLObjectType_new
  | Interface_getFields | Interface_getInterfaces => GraphQLInterfaceType_new
  | Union_getTypes => GraphQLUnionType_new
  | InputObject_getFields => GraphQLInputObjectType_new
  end.

(** The round trip of an interface type and of a union type, as of an
    object type. *)
Definition Interface_round_trip (config : GraphQLInterfaceTypeConfig)
  : M (GraphQLInterfaceType * GraphQLInterfaceType) :=
  first ← lift (GraphQLInterfaceType_new config);
  '(first, _) ← GraphQLInterfaceType_getFields first;
  '(first, _) ← GraphQLInterfaceType_getInterfaces first;
  '(first, config') ← GraphQLInterfaceType_toConfig first;
  second ← lift (GraphQLInterfaceType_new config');
  '(second, _) ← GraphQLInterfaceType_getFields second;
  '(second, _) ← GraphQLInterfaceType_getInterfaces second;
  mret (first, second).

Definition same_resolved_interface (first second : GraphQLInterfaceType) : Prop :=
  itf_name first = itf_name second
  ∧ itf_description first = itf_description second
  ∧ itf_resolveType first = itf_resolveType second
  ∧ itf_extensions first = itf_extensions second
  ∧ itf_astNode first = itf_astNode second
  ∧ itf_extensionASTNodes first = itf_extensionASTNodes second
  ∧ (∃ fields, itf__fields first = Settled fields ∧ itf__fields second = Settled fields)
  ∧ (∃ interfaces, itf__interfaces first = Settled interfaces
                   ∧ itf__interfaces second = Settled interfaces).

Definition Union_round_trip (config : GraphQLUnionTypeConfig)
  : M (GraphQLUnionType * GraphQLUnionType) :=
  first ← lift (GraphQLUnionType_new config);
  '(first, _) ← GraphQLUnionType_getTypes first;
  '(first, config') ← GraphQLUnionType_toConfig first;
  second ← lift (GraphQLUnionType_new config');
  '(second, _) ← GraphQLUnionType_getTypes second;
  mret (first, second).

Definition same_resolved_union (first second : GraphQLUnionType) : Prop :=
  uni_name first = uni_name second
  ∧ uni_description first = uni_description second
  ∧ uni_resolveType first = uni_resolveType second
  ∧ uni_extensions first = uni_extensions second
  ∧ uni_astNode first = uni_astNode second
  ∧ uni_extensionASTNodes first = uni_extensionASTNodes second
  ∧ (∃ types, uni__types first = Settled types ∧ uni__types second = Settled types).


(** ** Scalar types *)

(** The value of [serialize], [parseValue] or [parseLiteral], in a
    configuration or in a scalar type: what the caller supplied (a missing
    property reads as [undefined]), or one of the two functions the
    constructor puts in for a missing one. *)
Inductive ScalarFn : Type :=
| Supplied (v : mixed)
| identityFunc
| parseLiteral_default (parseValue : ScalarFn).
    (* [(node, variables) => parseValue(valueFromASTUntyped(node, variables))] *)

Definition fn_nullish (f : ScalarFn) : bool :=
  match f with Supplied v => nullish v | _ => false end.

Definition fn_typeof_function (f : ScalarFn) : bool :=
  match f with Supplied v => typeof_function v | _ => true end.

Definition fn_truthy (f : ScalarFn) : bool :=
  match f with Supplied v => truthy v | _ => true end.

(** [f ?? d] *)
Definition fn_nullish_or (f d : ScalarFn) : ScalarFn :=
  if fn_nullish f then d else f.

Record GraphQLScalarTypeConfig : Type := {
  sc_name : mixed;
  sc_description : mixed;
  sc_specifiedByURL : mixed;
  sc_serialize : ScalarFn;
  sc_parseValue : ScalarFn;
  sc_parseLiteral : ScalarFn;
  sc_extensions : Maybe ObjMapLike;
  sc_astNode : mixed;
  sc_extensionASTNodes : Maybe (list mixed);
}.

Record GraphQLScalarType : Type := {
  sca_name : mixed;
  sca_description : mixed;
  sca_specifiedByURL : mixed;
  sca_serialize : ScalarFn;
  sca_parseValue : ScalarFn;
  sca_parseLiteral : ScalarFn;
  sca_extensions : Maybe ObjMapLike;
  sca_astNode : mixed;
  sca_extensionASTNodes : list mixed;
}.

(** [new GraphQLScalarType(config)] *)
Definition GraphQLScalarType_new (config : GraphQLScalarTypeConfig) : result GraphQLScalarType :=
  let parseValue := fn_nullish_or (sc_parseValue config) identityFunc in
  let this :=
    {| sca_name := sc_name config;
       sca_description := sc_description config;
       sca_specifiedByURL := sc_specifiedByURL config;
       sca_serialize := fn_nullish_or (sc_serialize config) identityFunc;
       sca_parseValue := parseValue;
       sca_parseLiteral :=
         fn_nullish_or (sc_parseLiteral config) (parseLiteral_default parseValue);
       sca_extensions := and_toObjMap (sc_extensions config);
       sca_astNode := sc_astNode config;
       sca_extensionASTNodes := nullish_or (sc_extensionASTNodes config) [] |} in
  _ ← devAssert (typeof_string (sc_name config)) [Lit "Must provide name."];
  _ ← devAssert (nullish (sc_specifiedByURL config)
                 || typeof_string (sc_specifiedByURL config))
        [Interp (sca_name this); Lit " must provide "; Quoted (Lit "specifiedByURL");
         Lit " as a string, "; Lit "but got: "; Inspect (sc_specifiedByURL config); Lit "."];
  _ ← devAssert (fn_nullish (sc_serialize config) || fn_typeof_function (sc_serialize config))
        [Interp (sca_name this); Lit " must provide "; Quoted (Lit "serialize");
         Lit " function. If this custom Scalar is also used as an input type, ensure ";
         Quoted (Lit "parseValue"); Lit " and "; Quoted (Lit "parseLiteral");
         Lit " functions are also provided."];
  _ ← (if fn_truthy (sc_parseLiteral config) then
         devAssert (fn_typeof_function (sc_parseValue config)
                    && fn_typeof_function (sc_parseLiteral config))
           [Interp (sca_name this); Lit " must provide both "; Quoted (Lit "parseValue");
            Lit " and "; Quoted (Lit "parseLiteral"); Lit " functions."]
       else Ok tt);
  Ok this.

Definition GraphQLScalarType_toConfig (this : GraphQLScalarType) : GraphQLScalarTypeConfig :=
  {| sc_name := sca_name this;
     sc_description := sca_description this;
     sc_specifiedByURL := sca_specifiedByURL this;
     sc_serialize := sca_serialize this;
     sc_parseValue := sca_parseValue this;
     sc_parseLiteral := sca_parseLiteral this;
     sc_extensions := sca_extensions this;
     sc_astNode := sca_astNode this;
     sc_extensionASTNodes := Given (sca_extensionASTNodes this) |}.

(** [new GraphQLScalarType(new GraphQLScalarType(config).toConfig())],
    with the first type. *)
Definition Scalar_round_trip (config : GraphQLScalarTypeConfig)
  : result (GraphQLScalarType * GraphQLScalarType) :=
  first ← GraphQLScalarType_new config;
  second ← GraphQLScalarType_new (GraphQLScalarType_toConfig first);
  mret (first, second).

(** The messages of the assertions in the constructor of a scalar type. *)
Definition specifiedByURL_error (name specifiedByURL : mixed) : exn :=
  Error [Interp name; Lit " must provide "; Quoted (Lit "specifiedByURL");
         Lit " as a string, "; Lit "but got: "; Inspect specifiedByURL; Lit "."].

Definition serialize_error (name : mixed) : exn :=
  Error [Interp name; Lit " must provide "; Quoted (Lit "serialize");
         Lit " function. If this custom Scalar is also used as an input type, ensure ";
         Quoted (Lit "parseValue"); Lit " and "; Quoted (Lit "parseLiteral");
         Lit " functions are also provided."].

Definition both_parsers_error (name : mixed) : exn :=
  Error [Interp name; Lit " must provide both "; Quoted (Lit "parseValue");
         Lit " and "; Quoted (Lit "parseLiteral"); Lit " functions."].

(** ** Printing types *)

Section Printing.

(** [type.name] of the named type behind a handle: the constructors of the
    named types check that it is a string. *)
Variable name : GraphQLType → string.

(** [type.toString()], which is also [String(type)] and [type.toJSON()]:
    ['[' + String(this.ofType) + ']'] for a list type,
    [String(this.ofType) + '!'] for a non-null type, [this.name] for a
    named type. *)
Fixpoint toString (type : GraphQLType) : string :=
  match type with
  | List ofType => ("[" +:+ toString ofType) +:+ "]"
  | NonNull ofType => toString ofType +:+ "!"
  | named => name named
  end.

Definition toJSON (type : GraphQLType) : string := toString type.

End Printing.
(** ** Example configurations *)

(** The object literal [{ value: v }] of an enum value, [{}] for [None]. *)
Definition enumValueConfig (value : option mixed) : GraphQLEnumValueConfig :=
  {| evc_description := Undefined;
     evc_value := value;
     evc_deprecationReason := Undefined;
     evc_extensions := Absent;
     evc_astNode := Undefined |}.

Definition enumValue (name : string) (value : mixed) : GraphQLEnumValue :=
  {| ev_name := name;
     ev_description := Undefined;
     ev_value := value;
     ev_deprecationReason := Undefined;
     ev_extensions := Absent;
     ev_astNode := Undefined |}.

Definition enumTypeConfig (name : string) (values : GraphQLEnumValueConfigMap)
  : GraphQLEnumTypeConfig :=
  {| ec_name := Str name;
     ec_description := Undefined;
     ec_values := Is values;
     ec_extensions := Absent;
     ec_astNode := Undefined;
     ec_extensionASTNodes := Absent |}.

(** [{ RED: { value: 0 }, GREEN: {}, BLUE: { value: null },
       GREY: { value: undefined } }] *)
Definition Shade_values : GraphQLEnumValueConfigMap :=
  [("RED", Is (enumValueConfig (Some (Num 0))));
   ("GREEN", Is (enumValueConfig None));
   ("BLUE", Is (enumValueConfig (Some Null)));
   ("GREY", Is (enumValueConfig (Some Undefined)))].

(** [{ A: { value: 1 }, B: { value: 1 } }]: two names for one internal
    value. *)
Definition Twin_values : GraphQLEnumValueConfigMap :=
  [("A", Is (enumValueConfig (Some (Num 1))));
   ("B", Is (enumValueConfig (Some (Num 1))))].

Definition Twin : GraphQLEnumType :=
  {| enum_name := Str "Twin";
     enum_description := Undefined;
     enum_extensions := Absent;
     enum_astNode := Undefined;
     enum_extensionASTNodes := [];
     enum__values := [enumValue "A" (Num 1); enumValue "B" (Num 1)];
     enum__valueLookup := {[ Num 1 := enumValue "B" (Num 1) ]};
     enum__nameLookup :=
       {[ "A" := enumValue "A" (Num 1); "B" := enumValue "B" (Num 1) ]} |}.

(** An input field configuration [{ type }], with [deprecationReason] and a
    [resolve] property when given. *)
Definition inputFieldConfig (type : mixed) (deprecationReason : mixed)
    (resolve : option mixed) : GraphQLInputFieldConfig :=
  {| ifc_description := Undefined;
     ifc_type := type;
     ifc_defaultValue := Undefined;
     ifc_deprecationReason := deprecationReason;
     ifc_extensions := Absent;
     ifc_astNode := Undefined;
     ifc_resolve := resolve |}.

Definition inputObjectTypeConfig (name : string)
    (fields : Thunk (dyn GraphQLInputFieldConfigMap)) : GraphQLInputObjectTypeConfig :=
  {| ioc_name := Str name;
     ioc_description := Undefined;
     ioc_fields := fields;
     ioc_extensions := Absent;
     ioc_astNode := Undefined;
     ioc_extensionASTNodes := Absent |}.

(** A new input object type: what the constructor returns for a
    configuration with a name. *)
Definition inputObjectType (config : GraphQLInputObjectTypeConfig) : GraphQLInputObjectType :=
  {| io_name := ioc_name config;
     io_description := ioc_description config;
     io_extensions := and_toObjMap (ioc_extensions config);
     io_astNode := ioc_astNode config;
     io_extensionASTNodes := nullish_or (ioc_extensionASTNodes config) [];
     io__fields := Bound config |}.

Definition Float : mixed := TypeObj (ScalarType 0).

(** [{ lat: { type: Float }, lon: { type: Float, resolve: null } }] *)
Definition GeoPoint_fields : GraphQLInputFieldConfigMap :=
  [("lat", inputFieldConfig Float Undefined None);
   ("lon", inputFieldConfig Float Undefined (Some Null))].

(** [new GraphQLInputObjectType({ name: 'GeoPoint', fields: () => ... })],
    the thunk being function 7. *)
Definition GeoPoint : GraphQLInputObjectType :=
  inputObjectType (inputObjectTypeConfig "GeoPoint" (Producer 7 (λ _, Is GeoPoint_fields))).

(** [{ alt: { type: Float, deprecationReason: 'use height' } }] *)
Definition Altitude_config : GraphQLInputObjectTypeConfig :=
  inputObjectTypeConfig "Altitude"
    (Direct (Is [("alt", inputFieldConfig Float (Str "use height") None)])).

Definition world0 : World := {| env := ∅; calls := [] |}.

(** The message of the assertion in [defineInputFieldMap]. *)
Definition resolve_property_error (name : mixed) (fieldName : string) : exn :=
  Error [Interp name; Lit "."; Lit fieldName;
         Lit " field has a resolve property, but Input Types cannot define resolvers."].





Definition inputField (name : string) (type : mixed) (deprecationReason : mixed)
  : GraphQLInputField :=
  {| inf_name := name;
     inf_description := Undefined;
     inf_type := type;
     inf_defaultValue := Undefined;
     inf_deprecationReason := deprecationReason;
     inf_extensions := Absent;
     inf_astNode := Undefined |}.

(** [new GraphQLObjectType({ name: 'Person', fields: () => ({ friends: {
    type: [Person], args: { first: { type: Int, defaultValue: 10 } } } })
    })], the thunk being function 3, [Person] the object type 5 and [Int] the
    scalar type 1. *)
Definition Person_config : GraphQLObjectTypeConfig :=
  {| oc_name := Str "Person";
     oc_description := Undefined;
     oc_interfaces := Absent;
     oc_fields :=
       Producer 3 (λ _,
         Is [("friends",
              Is {| fc_description := Undefined;
                    fc_type := TypeObj (List (ObjectType 5));
                    fc_args :=
                      Is [("first",
                           {| ac_description := Undefined;
                              ac_type := TypeObj (ScalarType 1);
                              ac_defaultValue := Num 10;
                              ac_extensions := Absent;
                              ac_deprecationReason := Undefined;
                              ac_astNode := Undefined |})];
                    fc_resolve := Undefined;
                    fc_subscribe := Undefined;
                    fc_deprecationReason := Str "use followers";
                    fc_extensions := Given {| nullProto := false; entries := [] |};
                    fc_astNode := Undefined |})]);
     oc_isTypeOf := Undefined;
     oc_extensions := Absent;
     oc_astNode := Undefined;
     oc_extensionASTNodes := Absent |}.

(** [{ first: { type: Int, defaultValue: 10 }, after: { type: String! } }],
    [Int] being the scalar type 1 and [String] the scalar type 2. *)
Definition argumentConfig (type : mixed) (defaultValue : mixed) : GraphQLArgumentConfig :=
  {| ac_description := Undefined;
     ac_type := type;
     ac_defaultValue := defaultValue;
     ac_extensions := Absent;
     ac_deprecationReason := Undefined;
     ac_astNode := Undefined |}.

Definition friends_args : GraphQLFieldConfigArgumentMap :=
  [("first", argumentConfig (TypeObj (ScalarType 1)) (Num 10));
   ("after", argumentConfig (TypeObj (NonNull (ScalarType 2))) Undefined)].

(** A field configuration [{ type, args, resolve }]. *)
Definition fieldConfig (type : mixed) (args : dyn GraphQLFieldConfigArgumentMap)
    (resolve : mixed) : GraphQLFieldConfig :=
  {| fc_description := Undefined;
     fc_type := type;
     fc_args := args;
     fc_resolve := resolve;
     fc_subscribe := Undefined;
     fc_deprecationReason := Undefined;
     fc_extensions := Absent;
     fc_astNode := Undefined |}.

Definition objectTypeConfig (name : mixed) (interfaces : Maybe (Thunk (dyn (list mixed))))
    (fields : Thunk (dyn GraphQLFieldConfigMap)) : GraphQLObjectTypeConfig :=
  {| oc_name := name;
     oc_description := Undefined;
     oc_interfaces := interfaces;
     oc_fields := fields;
     oc_isTypeOf := Undefined;
     oc_extensions := Absent;
     oc_astNode := Undefined;
     oc_extensionASTNodes := Absent |}.

(** A new object type: what the constructor returns for a configuration it
    accepts. *)
Definition objectType (config : GraphQLObjectTypeConfig) : GraphQLObjectType :=
  {| obj_name := oc_name config;
     obj_description := oc_description config;
     obj_isTypeOf := oc_isTypeOf config;
     obj_extensions := and_toObjMap (oc_extensions config);
     obj_astNode := oc_astNode config;
     obj_extensionASTNodes := nullish_or (oc_extensionASTNodes config) [];
     obj__fields := Bound config;
     obj__interfaces := Bound config |}.

(** [{ name: 'User', interfaces: () => [Node], fields: () => ({ id: { type:
    ID }, friends: { type: [User], args: ..., resolve: 'friends' } }) }]:
    the resolver of [friends] is a string.  The thunks are the functions 11
    and 12, [Node] is the interface type 6, [ID] the scalar type 3 and
    [User] the object type 5. *)
Definition User_fields : GraphQLFieldConfigMap :=
  [("id", Is (fieldConfig (TypeObj (ScalarType 3)) (Not Undefined) Undefined));
   ("friends", Is (fieldConfig (TypeObj (List (ObjectType 5))) (Is friends_args)
                     (Str "friends")))].

Definition User_config : GraphQLObjectTypeConfig :=
  objectTypeConfig (Str "User")
    (Given (Producer 11 (λ _, Is [TypeObj (InterfaceType 6)])))
    (Producer 12 (λ _, Is User_fields)).

(** The same with a function for the resolver of [friends]. *)
Definition Member_fields : GraphQLFieldConfigMap :=
  [("id", Is (fieldConfig (TypeObj (ScalarType 3)) (Not Undefined) Undefined));
   ("friends", Is (fieldConfig (TypeObj (List (ObjectType 5))) (Is friends_args) (Fun 20)))].

Definition Member_config : GraphQLObjectTypeConfig :=
  objectTypeConfig (Str "Member")
    (Given (Producer 11 (λ _, Is [TypeObj (InterfaceType 6)])))
    (Producer 12 (λ _, Is Member_fields)).

Definition field (name : string) (type : mixed) (args : list GraphQLArgument)
    (resolve : mixed) : GraphQLField :=
  {| fld_name := name;
     fld_description := Undefined;
     fld_type := type;
     fld_args := args;
     fld_resolve := resolve;
     fld_subscribe := Undefined;
     fld_deprecationReason := Undefined;
     fld_extensions := Absent;
     fld_astNode := Undefined |}.

(** The fields of [Member], resolved. *)
Definition Member_resolved : GraphQLFieldMap :=
  [("id", field "id" (TypeObj (ScalarType 3)) [] Undefined);
   ("friends", field "friends" (TypeObj (List (ObjectType 5)))
                 (defineArguments friends_args) (Fun 20))].

(** [{ name: 'Node', fields: () => ({ id: { type: ID } }) }], the thunk
    being function 13. *)
Definition Node_config : GraphQLInterfaceTypeConfig :=
  {| ic_name := Str "Node";
     ic_description := Str "An object with an id";
     ic_interfaces := Absent;
     ic_fields :=
       Producer 13 (λ _,
         Is [("id", Is (fieldConfig (TypeObj (NonNull (ScalarType 3))) (Not Null)
                          Undefined))]);
     ic_resolveType := Fun 21;
     ic_extensions := Given {| nullProto := false; entries := [("tag", Num 1)] |};
     ic_astNode := Undefined;
     ic_extensionASTNodes := IsNull |}.

(** [{ name: 'Pet', types: () => [Dog, Cat] }], the thunk being function 14,
    [Dog] and [Cat] the object types 7 and 8. *)
Definition Pet_config : GraphQLUnionTypeConfig :=
  {| uc_name := Str "Pet";
     uc_description := Undefined;
     uc_types := Producer 14 (λ _, Is [TypeObj (ObjectType 7); TypeObj (ObjectType 8)]);
     uc_resolveType := Undefined;
     uc_extensions := Absent;
     uc_astNode := Undefined;
     uc_extensionASTNodes := Absent |}.

(** The enum type built from [{ name: 'Shade', values: Shade_values }]. *)
Definition Shade : GraphQLEnumType :=
  {| enum_name := Str "Shade";
     enum_description := Undefined;
     enum_extensions := Absent;
     enum_astNode := Undefined;
     enum_extensionASTNodes := [];
     enum__values :=
       [enumValue "RED" (Num 0); enumValue "GREEN" (Str "GREEN");
        enumValue "BLUE" Null; enumValue "GREY" (Str "GREY")];
     enum__valueLookup :=
       {[ Num 0 := enumValue "RED" (Num 0);
          Str "GREEN" := enumValue "GREEN" (Str "GREEN");
          Null := enumValue "BLUE" Null;
          Str "GREY" := enumValue "GREY" (Str "GREY") ]};
     enum__nameLookup :=
       {[ "RED" := enumValue "RED" (Num 0);
          "GREEN" := enumValue "GREEN" (Str "GREEN");
          "BLUE" := enumValue "BLUE" Null;
          "GREY" := enumValue "GREY" (Str "GREY") ]} |}.


(** [{ name: 7, values: { ON: {}, OFF: false } }]: the second value is not
    an object and the name is not a string. *)
Definition Switch_config : GraphQLEnumTypeConfig :=
  {| ec_name := Num 7;
     ec_description := Undefined;
     ec_values := Is [("ON", Is (enumValueConfig None)); ("OFF", Not (Bool false))];
     ec_extensions := Absent;
     ec_astNode := Undefined;
     ec_extensionASTNodes := Absent |}.

(** [{ name, serialize, parseValue, parseLiteral }] *)
Definition scalarTypeConfig (name : string) (serialize parseValue parseLiteral : mixed)
  : GraphQLScalarTypeConfig :=
  {| sc_name := Str name;
     sc_description := Undefined;
     sc_specifiedByURL := Undefined;
     sc_serialize := Supplied serialize;
     sc_parseValue := Supplied parseValue;
     sc_parseLiteral := Supplied parseLiteral;
     sc_extensions := Absent;
     sc_astNode := Undefined;
     sc_extensionASTNodes := Absent |}.

(** [{ name: 'Odd', serialize }], the function being function 20. *)
Definition Odd_config : GraphQLScalarTypeConfig :=
  scalarTypeConfig "Odd" (Fun 20) Undefined Undefined.

(** [{ name: 'Even', parseValue: 2 }] *)
Definition Even_config : GraphQLScalarTypeConfig :=
  scalarTypeConfig "Even" Undefined (Num 2) Undefined.
(** * Properties *)

(** ** Classification and wrapping *)

Lemma isNullableType_spec T :
  isNullableType (TypeObj T) = true ↔ ∀ U, T ≠ NonNull U.
Proof.
  destruct T; simpl; split; try done; intros H.
  by destruct (H T).
Qed.

Lemma getNamedType_loop_named T :
  isNamedType (TypeObj T) = true → getNamedType_loop T = T.
Proof. by destruct T. Qed.

Lemma getNamedType_loop_wrap layers T :
  getNamedType_loop (wrap layers T) = getNamedType_loop T.
Proof. induction layers as [|[] layers IH]; simpl; auto. Qed.

Lemma unwrappings_self t : t ∈ unwrappings t.
Proof. destruct t; simpl; left. Qed.

Lemma getNamedType_loop_unwrappings t : getNamedType_loop t ∈ unwrappings t.
Proof.
  induction t; simpl; try (by left); by right.
Qed.

(** C9: each of [isInputType] and [isOutputType] that holds of a type [T]
    holds of the list type and of the non-null type wrapping [T]. *)
Theorem input_output_closed_under_wrapping (T : GraphQLType) :
  (isInputType (TypeObj T) = true →
     isInputType (TypeObj (List T)) = true ∧ isInputType (TypeObj (NonNull T)) = true)
  ∧ (isOutputType (TypeObj T) = true →
       isOutputType (TypeObj (List T)) = true ∧ isOutputType (TypeObj (NonNull T)) = true).
Proof.
  split; intros H; simpl in *; by rewrite H.
Qed.

Lemma input_output_closed_under_wrapping_witness :
  (isInputType (TypeObj (List (ScalarType 0))) = true
   ∧ isInputType (TypeObj (NonNull (ScalarType 0))) = true)
  ∧ (isOutputType (TypeObj (List (List (ObjectType 1)))) = true
     ∧ isOutputType (TypeObj (NonNull (List (ObjectType 1)))) = true).
Proof.
  split.
  - apply (proj1 (input_output_closed_under_wrapping (ScalarType 0))). reflexivity.
  - apply (proj2 (input_output_closed_under_wrapping (List (ObjectType 1)))). reflexivity.
Defined.

(** C3: [new GraphQLNonNull(T)] returns a type, the one wrapping [T], iff
    [T] is a nullable type, that is a type of any kind but NonNull; for a
    named type [T] the first construction succeeds and wrapping its result
    again throws, from within the constructor, the error that a nullable
    type was expected. *)
Theorem NonNull_accepts_nullable_types_only (T : GraphQLType) :
  ((∃ W, GraphQLNonNull (TypeObj T) = Ok W) ↔ isNullableType (TypeObj T) = true)
  ∧ (isNullableType (TypeObj T) = true ↔ ∀ U, T ≠ NonNull U)
  ∧ (isNullableType (TypeObj T) = true → GraphQLNonNull (TypeObj T) = Ok (NonNull T))
  ∧ (isNamedType (TypeObj T) = true →
       GraphQLNonNull (TypeObj T) = Ok (NonNull T)
       ∧ GraphQLNonNull (TypeObj (NonNull T))
         = Throw (Error [Lit "Expected "; Inspect (TypeObj (NonNull T));
                         Lit " to be a GraphQL nullable type."])).
Proof.
  split; [|split; [apply isNullableType_spec|split]].
  - unfold GraphQLNonNull. destruct (isNullableType (TypeObj T)); simpl.
    + split; eauto.
    + split; [intros [W HW]|]; done.
  - intros H. unfold GraphQLNonNull. by rewrite H.
  - intros H. split; [|done].
    unfold GraphQLNonNull. by destruct T.
Qed.

Lemma NonNull_accepts_nullable_types_only_witness :
  GraphQLNonNull (TypeObj (EnumType 3)) = Ok (NonNull (EnumType 3))
  ∧ GraphQLNonNull (TypeObj (NonNull (EnumType 3)))
    = Throw (Error [Lit "Expected "; Inspect (TypeObj (NonNull (EnumType 3)));
                    Lit " to be a GraphQL nullable type."]).
Proof.
  apply (proj2 (proj2 (proj2 (NonNull_accepts_nullable_types_only (EnumType 3))))).
  reflexivity.
Defined.

(** C8: [getNullableType] returns the [ofType] of a non-null type, one
    layer down, and any other type as it is; [getNamedType] returns the
    named type [T] from under any number of list and non-null layers; both
    return [undefined] for [undefined] and for [null]; both are total, and
    what they return is the argument or a type object found under it by
    following [ofType], none newly built. *)
Theorem unwrapping_to_nullable_and_named (T : GraphQLType) (layers : list Wrapper) :
  getNullableType (TypeObj (NonNull T)) = TypeObj T
  ∧ ((∀ U, T ≠ NonNull U) → getNullableType (TypeObj T) = TypeObj T)
  ∧ (isNamedType (TypeObj T) = true →
       getNamedType (TypeObj (wrap layers T)) = TypeObj T)
  ∧ (getNullableType Undefined = Undefined ∧ getNullableType Null = Undefined
     ∧ getNamedType Undefined = Undefined ∧ getNamedType Null = Undefined)
  ∧ (∃ U, getNullableType (TypeObj T) = TypeObj U ∧ U ∈ unwrappings T)
  ∧ (∃ U, getNamedType (TypeObj T) = TypeObj U ∧ U ∈ unwrappings T
          ∧ isWrappingType (TypeObj U) = false).
Proof.
  repeat split.
  - intros H. destruct T; try done. by destruct (H T).
  - intros H. change (TypeObj (getNamedType_loop (wrap layers T)) = TypeObj T).
    by rewrite getNamedType_loop_wrap, getNamedType_loop_named.
  - destruct T; simpl; eexists; (split; [done|]);
      try apply unwrappings_self; right; apply unwrappings_self.
  - exists (getNamedType_loop T). split; [done|].
    split; [apply getNamedType_loop_unwrappings|].
    induction T; done.
Qed.

Lemma unwrapping_to_nullable_and_named_witness :
  getNullableType (TypeObj (List (ScalarType 0))) = TypeObj (List (ScalarType 0))
  ∧ getNamedType (TypeObj (wrap [NonNullOf; ListOf; NonNullOf] (ObjectType 2)))
    = TypeObj (ObjectType 2).
Proof.
  split.
  - apply (proj1 (proj2 (unwrapping_to_nullable_and_named (List (ScalarType 0)) []))).
    intros U HU. discriminate HU.
  - apply (proj1 (proj2 (proj2
      (unwrapping_to_nullable_and_named (ObjectType 2) [NonNullOf; ListOf; NonNullOf])))).
    reflexivity.
Defined.

(** C5: an argument is required iff its type is a non-null type and its
    default value is [undefined], none supplied; with a default value,
    [0] and [null] among them, or with a type that is not a non-null type
    it is not required.  The same holds of an input field. *)
Theorem required_iff_NonNull_and_no_default
    (arg : GraphQLArgument) (field : GraphQLInputField) :
  (isRequiredArgument arg = true
     ↔ (∃ T, arg_type arg = TypeObj (NonNull T)) ∧ arg_defaultValue arg = Undefined)
  ∧ (arg_defaultValue arg ≠ Undefined → isRequiredArgument arg = false)
  ∧ (isNonNullType (arg_type arg) = false → isRequiredArgument arg = false)
  ∧ (isRequiredInputField field = true
       ↔ (∃ T, inf_type field = TypeObj (NonNull T)) ∧ inf_defaultValue field = Undefined)
  ∧ (inf_defaultValue field ≠ Undefined → isRequiredInputField field = false)
  ∧ (isNonNullType (inf_type field) = false → isRequiredInputField field = false).
Proof.
  unfold isRequiredArgument, isRequiredInputField.
  split_and!.
  - split.
    + intros [H1 H2]%andb_true_iff. apply bool_decide_eq_true in H2. split; [|done].
      destruct (arg_type arg) as [| | | | | | | |[]]; try done. eauto.
    + intros [[T ->] ->]. done.
  - intros H. rewrite bool_decide_eq_false_2 by done. apply andb_false_r.
  - by intros ->.
  - split.
    + intros [H1 H2]%andb_true_iff. apply bool_decide_eq_true in H2. split; [|done].
      destruct (inf_type field) as [| | | | | | | |[]]; try done. eauto.
    + intros [[T ->] ->]. done.
  - intros H. rewrite bool_decide_eq_false_2 by done. apply andb_false_r.
  - by intros ->.
Qed.

Lemma required_iff_NonNull_and_no_default_witness :
  isRequiredArgument
    {| arg_name := "first"; arg_description := Undefined;
       arg_type := TypeObj (NonNull (ScalarType 0)); arg_defaultValue := Num 0;
       arg_deprecationReason := Undefined; arg_extensions := Absent;
       arg_astNode := Undefined |} = false
  ∧ isRequiredInputField
      {| inf_name := "lat"; inf_description := Undefined;
         inf_type := TypeObj (NonNull (ScalarType 1)); inf_defaultValue := Null;
         inf_deprecationReason := Undefined; inf_extensions := Absent;
         inf_astNode := Undefined |} = false.
Proof.
  set (arg := {| arg_name := "first"; arg_defaultValue := Num 0 |}).
  set (field := {| inf_name := "lat"; inf_defaultValue := Null |}).
  split.
  - apply (proj1 (proj2 (required_iff_NonNull_and_no_default arg field))). discriminate.
  - apply (proj1 (proj2 (proj2 (proj2 (proj2
      (required_iff_NonNull_and_no_default arg field)))))). discriminate.
Defined.

(** ** Traversals that may throw *)

Lemma mapM_Ok_Forall2 {A B : Type} (f : A → result B) (l : list A) (l' : list B) :
  mapM f l = Ok l' ↔ Forall2 (λ x y, f x = Ok y) l l'.
Proof.
  split.
  - revert l'. induction l as [|x l IH]; simpl; intros l' H.
    + injection H as <-. constructor.
    + destruct (f x) as [y|e] eqn:Hf; simpl in H; [|done].
      destruct (mapM f l) as [k|e] eqn:Hk; simpl in H; [|done].
      injection H as <-. constructor; auto.
  - induction 1 as [|x y l l' Hxy _ IH]; simpl; [done|].
    rewrite Hxy; simpl. by rewrite IH.
Qed.

Lemma mapValue_Ok_Forall2 {A B : Type} (fn : A → string → result B)
    (m : ObjMap A) (m' : ObjMap B) :
  mapValue m fn = Ok m' ↔ Forall2 (λ e e', e.1 = e'.1 ∧ fn e.2 e.1 = Ok e'.2) m m'.
Proof.
  split.
  - revert m'. induction m as [|[key value] m IH]; simpl; intros m' H.
    + injection H as <-. constructor.
    + destruct (fn value key) as [b|e] eqn:Hf; simpl in H; [|done].
      destruct (mapValue m fn) as [bs|e] eqn:Hk; simpl in H; [|done].
      injection H as <-. constructor; auto.
  - induction 1 as [|[k v] [k' v'] m m' [Hk Hv] _ IH]; simpl in *; [done|].
    subst k'. rewrite Hv; simpl. by rewrite IH.
Qed.

Lemma mapValue_total {A B : Type} (g : A → B) (m : ObjMap A) :
  mapValue m (λ value _, Ok (g value)) = Ok (prod_map id g <$> m).
Proof.
  induction m as [|[key value] m IH]; simpl; [done|]. by rewrite IH.
Qed.

Lemma mapValue_first_throw {A B : Type} (fn : A → string → result B)
    (before after : ObjMap A) (key : string) (value : A) (e : exn) :
  Forall (λ entry, ∃ b, fn entry.2 entry.1 = Ok b) before →
  fn value key = Throw e →
  mapValue (before ++ (key, value) :: after) fn = Throw e.
Proof.
  intros Hbefore Hthrow.
  induction before as [|[k v] before IH]; simpl.
  - by rewrite Hthrow.
  - apply Forall_cons in Hbefore as [[b Hb] Hbefore]. simpl in Hb.
    rewrite Hb; simpl. by rewrite IH.
Qed.

(** ** Enum values *)

(** C10: the internal value of the enum value built from an entry of the
    value map is the [value] property of the entry when the property is
    there and is not [undefined], a [null] included, and is the name of the
    entry when the property is left out or is [undefined]. *)
Theorem enum_value_defaults_to_its_name
    (typeName : mixed) (valueMap : GraphQLEnumValueConfigMap)
    (values : list GraphQLEnumValue) (i : nat)
    (valueName : string) (valueConfig : GraphQLEnumValueConfig) :
  defineEnumValues typeName (Is valueMap) = Ok values →
  valueMap !! i = Some (valueName, Is valueConfig) →
  ∃ enumValue,
    values !! i = Some enumValue
    ∧ ev_name enumValue = valueName
    ∧ ev_value enumValue =
        match evc_value valueConfig with
        | None | Some Undefined => Str valueName
        | Some value => value
        end.
Proof.
  intros Hvalues Hentry. simpl in Hvalues.
  apply mapM_Ok_Forall2 in Hvalues.
  destruct (Forall2_lookup_l _ _ _ _ _ Hvalues Hentry) as (enumValue & Hi & Hdef).
  exists enumValue. split; [done|].
  simpl in Hdef. injection Hdef as <-. simpl. split; [done|].
  destruct (evc_value valueConfig) as [[]|]; done.
Qed.

Lemma enum_value_defaults_to_its_name_witness :
  ∃ blue,
    [enumValue "RED" (Num 0); enumValue "GREEN" (Str "GREEN");
     enumValue "BLUE" Null; enumValue "GREY" (Str "GREY")] !! 2 = Some blue
    ∧ ev_name blue = "BLUE"
    ∧ ev_value blue = Null.
Proof.
  apply (enum_value_defaults_to_its_name (Str "Shade") Shade_values _ 2 "BLUE"
           (enumValueConfig (Some Null))); reflexivity.
Defined.

(** ** Input fields *)

(** C6: when the field map of an input object type holds a field
    configuration that has a [resolve] property, whatever the value of the
    property, [null] or a function included, normalizing that configuration
    throws the error that names the type and the field, before any field
    record is built from it; with it the normalization of the whole map
    and [getFields] throw that error for the first such field. *)
Theorem input_field_with_resolve_is_rejected
    (this : GraphQLInputObjectType) (config : GraphQLInputObjectTypeConfig)
    (w w' : World) (before after : GraphQLInputFieldConfigMap)
    (fieldName : string) (fieldConfig : GraphQLInputFieldConfig) (value : mixed) :
  io__fields this = Bound config →
  resolveObjMapThunk (ioc_fields config) w
    = (w', Ok (Is (before ++ (fieldName, fieldConfig) :: after))) →
  Forall (λ entry, has_resolve entry.2 = false) before →
  ifc_resolve fieldConfig = Some value →
  defineInputField (ioc_name config) fieldConfig fieldName
    = Throw (resolve_property_error (ioc_name config) fieldName)
  ∧ defineInputFieldMap config w
    = (w', Throw (resolve_property_error (ioc_name config) fieldName))
  ∧ GraphQLInputObjectType_getFields this w
    = (w', Throw (resolve_property_error (ioc_name config) fieldName)).
Proof.
  intros Hcell Hthunk Hbefore Hresolve.
  assert (Hfield : defineInputField (ioc_name config) fieldConfig fieldName
                   = Throw (resolve_property_error (ioc_name config) fieldName)).
  { unfold defineInputField, has_resolve. rewrite Hresolve.
    rewrite bool_decide_eq_true_2 by eauto. done. }
  assert (Hmap : defineInputFieldMap config w
                 = (w', Throw (resolve_property_error (ioc_name config) fieldName))).
  { unfold defineInputFieldMap, mbind, M_bind. rewrite Hthunk. simpl.
    unfold lift. f_equal.
    apply mapValue_first_throw; [|done].
    eapply Forall_impl; [exact Hbefore|]. intros [k fc] Hfc; simpl in *.
    unfold defineInputField. rewrite Hfc. simpl. eauto. }
  split_and!; [done..|].
  unfold GraphQLInputObjectType_getFields, mbind, M_bind, Cell_get.
  rewrite Hcell. unfold mbind, M_bind. by rewrite Hmap.
Qed.

Lemma input_field_with_resolve_is_rejected_witness :
  defineInputField (Str "GeoPoint") (inputFieldConfig Float Undefined (Some Null)) "lon"
    = Throw (resolve_property_error (Str "GeoPoint") "lon")
  ∧ defineInputFieldMap (inputObjectTypeConfig "GeoPoint" (Producer 7 (λ _, Is GeoPoint_fields)))
      world0
    = ({| env := ∅; calls := [7] |}, Throw (resolve_property_error (Str "GeoPoint") "lon"))
  ∧ GraphQLInputObjectType_getFields GeoPoint world0
    = ({| env := ∅; calls := [7] |}, Throw (resolve_property_error (Str "GeoPoint") "lon")).
Proof.
  apply (input_field_with_resolve_is_rejected GeoPoint
           (inputObjectTypeConfig "GeoPoint" (Producer 7 (λ _, Is GeoPoint_fields)))
           world0 {| env := ∅; calls := [7] |}
           [("lat", inputFieldConfig Float Undefined None)] [] "lon"
           (inputFieldConfig Float Undefined (Some Null)) Null).
  - reflexivity.
  - reflexivity.
  - repeat constructor.
  - reflexivity.
Defined.

(** ** Lazy members *)

Lemma call_is_Cell_get (a : Accessor) (this : receiver a) (w : World) :
  call a this w =
    match Cell_get (define a) (member a this) w with
    | (w', Ok (cell, value)) => (w', Ok (assign a this cell, value))
    | (w', Throw e) => (w', Throw e)
    end.
Proof.
  destruct a; simpl in *;
    unfold GraphQLObjectType_getFields, GraphQLObjectType_getInterfaces,
      GraphQLInterfaceType_getFields, GraphQLInterfaceType_getInterfaces,
      GraphQLUnionType_getTypes, GraphQLInputObjectType_getFields;
    unfold mbind at 1; unfold M_bind;
    match goal with |- context [Cell_get ?d ?c w] =>
      destruct (Cell_get d c w) as [w' [[cell value]|e]] end;
    reflexivity.
Qed.


Lemma assign_member (a : Accessor) (this : receiver a) :
  assign a this (member a this) = this.
Proof. by destruct a, this. Qed.

Lemma call_resolved (a : Accessor) (this : receiver a) (value : collection a) (w : World) :
  member a this = Settled value → call a this w = (w, Ok (this, value)).
Proof.
  intros Hm. rewrite call_is_Cell_get, Hm. simpl.
  by rewrite <- Hm, assign_member.
Qed.

Lemma call_pending (a : Accessor) (this : receiver a) (config : configuration a) (w : World) :
  member a this = Bound config →
  call a this w =
    match define a config w with
    | (w', Ok value) => (w', Ok (assign a this (Settled value), value))
    | (w', Throw e) => (w', Throw e)
    end.
Proof.
  intros Hm. rewrite call_is_Cell_get, Hm. simpl. unfold mbind, M_bind.
  by destruct (define a config w) as [w' [value|e]].
Qed.

Lemma resolve_thunk_world {A : Type} (thunk : Thunk A) (w : World) :
  resolveObjMapThunk thunk w
  = (match thunk_id thunk with
     | Some id => {| env := env w; calls := calls w ++ [id] |}
     | None => w
     end,
     Ok (match thunk with Direct a => a | Producer _ produce => produce (env w) end)).
Proof. by destruct thunk. Qed.

(** The defining function calls the thunk of the configuration once, if
    there is one, whether it then returns or throws, and calls nothing
    else. *)
Lemma define_world (a : Accessor) (config : configuration a) (w : World) :
  (define a config w).1
  = match configured_thunk a config with
    | Some id => {| env := env w; calls := calls w ++ [id] |}
    | None => w
    end.
Proof.
  destruct a; simpl;
    unfold defineFieldMap, defineInterfaces, defineTypes, defineInputFieldMap;
    unfold mbind, M_bind; simpl.
  all: try match goal with |- context [nullish_or ?x ?d] => destruct x as [| |?]; simpl end.
  all: try done.
  all: match goal with
       | |- context [resolveObjMapThunk ?t _] => destruct t; simpl
       | |- context [resolveArrayThunk ?t _] => destruct t; simpl
       end.
  all: repeat match goal with |- context [devAssert_shape ?c ?x ?m] =>
         destruct (devAssert_shape c x m) end; done.
Qed.






(** ** Maps built by assigning the items of a list in turn *)

Section build.
Context `{Countable K} {A V : Type} (kf : A → K) (vf : A → V).

Local Abbreviation build := (foldl (λ (m : gmap K V) x, <[kf x := vf x]> m)).

Lemma build_snoc (m : gmap K V) (l : list A) (a : A) :
  build m (l ++ [a]) = <[kf a := vf a]> (build m l).
Proof. by rewrite foldl_app. Qed.

(** A key that is looked up was assigned by an item of the list. *)
Lemma build_lookup_Some (l : list A) (k : K) (v : V) :
  build ∅ l !! k = Some v → ∃ x, x ∈ l ∧ kf x = k ∧ vf x = v.
Proof.
  induction l as [|a l IH] using rev_ind; [done|].
  rewrite build_snoc. destruct (decide (kf a = k)) as [<-|Hne].
  - rewrite lookup_insert_eq. intros [= <-]. exists a.
    split; [|done]. apply elem_of_app. right. by apply list_elem_of_singleton.
  - rewrite lookup_insert_ne by done. intros (x & ? & ? & ?)%IH.
    exists x. split; [|done]. apply elem_of_app. by left.
Qed.

(** The key of every item is in the map, assigned by some item. *)
Lemma build_lookup_elem (l : list A) (x : A) :
  x ∈ l → ∃ y, y ∈ l ∧ kf y = kf x ∧ build ∅ l !! kf x = Some (vf y).
Proof.
  induction l as [|a l IH] using rev_ind; [by intros ?%elem_of_nil|].
  rewrite build_snoc. intros Hx.
  destruct (decide (kf a = kf x)) as [Heq|Hne].
  - exists a. rewrite <- Heq, lookup_insert_eq.
    split; [|done]. apply elem_of_app. right. by apply list_elem_of_singleton.
  - rewrite lookup_insert_ne by done.
    destruct IH as (y & ? & ? & ?).
    + apply elem_of_app in Hx as [?|Hx]; [done|].
      apply list_elem_of_singleton in Hx. by subst.
    + exists y. split; [|done]. apply elem_of_app. by left.
Qed.

(** The last item with a key is the one the map holds for it. *)
Lemma build_lookup_last (l : list A) (j : nat) (x : A) :
  l !! j = Some x →
  (∀ j' y, j < j' → l !! j' = Some y → kf y ≠ kf x) →
  build ∅ l !! kf x = Some (vf x).
Proof.
  induction l as [|a l IH] using rev_ind; [done|].
  rewrite build_snoc. intros Hj Hlater.
  destruct (decide (j = length l)) as [->|Hne].
  - rewrite list_lookup_middle in Hj by done. injection Hj as ->.
    apply lookup_insert_eq.
  - assert (j < length l).
    { apply lookup_lt_Some in Hj. rewrite length_app in Hj. simpl in Hj. lia. }
    rewrite lookup_app_l in Hj by done.
    rewrite lookup_insert_ne.
    + apply IH; [done|]. intros j' y ? Hy. apply (Hlater j'); [done|].
      apply lookup_lt_Some in Hy as Hlt. by rewrite lookup_app_l.
    + apply (Hlater (length l)); [done|]. by apply list_lookup_middle.
Qed.
End build.

Lemma NoDup_fmap_elem_inj {A B : Type} (f : A → B) (l : list A) (x y : A) :
  NoDup (f <$> l) → x ∈ l → y ∈ l → f x = f y → x = y.
Proof.
  intros Hnd [i Hi]%list_elem_of_lookup [j Hj]%list_elem_of_lookup Hf.
  assert (i = j) as ->; [|congruence].
  eapply NoDup_lookup; [exact Hnd|..]; rewrite list_lookup_fmap.
  - by rewrite Hi.
  - rewrite Hj. simpl. by rewrite Hf.
Qed.

(** ** The enum codec *)

(** What the constructor made of the configuration. *)
Lemma GraphQLEnumType_new_Ok (config : GraphQLEnumTypeConfig) (this : GraphQLEnumType) :
  GraphQLEnumType_new config = Ok this →
  ∃ valueMap,
    ec_values config = Is valueMap
    ∧ Forall2 (λ entry enumValue, defineEnumValue (ec_name config) entry = Ok enumValue)
        valueMap (enum__values this)
    ∧ enum__valueLookup this
      = Map_new ((λ enumValue, (ev_value enumValue, enumValue)) <$> enum__values this)
    ∧ enum__nameLookup this = keyMap (enum__values this) ev_name.
Proof.
  unfold GraphQLEnumType_new, defineEnumValues.
  destruct (ec_values config) as [valueMap|v]; simpl; [|done].
  destruct (mapM _ valueMap) as [values|e] eqn:Hvalues; simpl; [|done].
  destruct (typeof_string (ec_name config)); simpl; [|done].
  intros [= <-]. simpl. exists valueMap. split_and!; try done.
  by apply mapM_Ok_Forall2.
Qed.

Lemma defineEnumValue_name (typeName : mixed) entry (enumValue : GraphQLEnumValue) :
  defineEnumValue typeName entry = Ok enumValue → ev_name enumValue = entry.1.
Proof.
  destruct entry as [valueName [valueConfig|v]]; simpl; [|done]. by intros [= <-].
Qed.

Lemma enum_names_NoDup (config : GraphQLEnumTypeConfig) (this : GraphQLEnumType)
    (valueMap : GraphQLEnumValueConfigMap) :
  GraphQLEnumType_new config = Ok this →
  ec_values config = Is valueMap →
  ObjMap_wf valueMap →
  NoDup (ev_name <$> enum__values this).
Proof.
  intros (valueMap' & Hv & Hall & _)%GraphQLEnumType_new_Ok Hmap Hwf.
  rewrite Hmap in Hv. injection Hv as <-.
  unfold ObjMap_wf in Hwf.
  replace (ev_name <$> enum__values this) with valueMap.*1; [done|].
  clear Hwf Hmap. induction Hall as [|entry ev ?? Hd _ IH]; [done|].
  rewrite !fmap_cons. f_equal; [|done].
  symmetry. by apply (defineEnumValue_name (ec_name config)).
Qed.

Section enum.
Context (config : GraphQLEnumTypeConfig) (this : GraphQLEnumType)
        (valueMap : GraphQLEnumValueConfigMap).
Hypothesis Hnew : GraphQLEnumType_new config = Ok this.
Hypothesis Hmap : ec_values config = Is valueMap.
Hypothesis Hwf : ObjMap_wf valueMap.

Lemma valueLookup_last (j : nat) (last : GraphQLEnumValue) :
  GraphQLEnumType_getValues this !! j = Some last →
  (∀ k later, j < k → GraphQLEnumType_getValues this !! k = Some later →
              ev_value later ≠ ev_value last) →
  enum__valueLookup this !! ev_value last = Some last.
Proof.
  unfold GraphQLEnumType_getValues. intros Hj Hlater.
  destruct (GraphQLEnumType_new_Ok _ _ Hnew) as (_ & _ & _ & -> & _).
  apply (build_lookup_last fst snd _ j (ev_value last, last)).
  - by rewrite list_lookup_fmap, Hj.
  - intros k [x later] Hk. rewrite list_lookup_fmap.
    destruct (enum__values this !! k) as [later'|] eqn:Hlk; [|done].
    intros [= <- <-]. simpl. by apply (Hlater k).
Qed.

Lemma valueLookup_Some (x : mixed) (r : GraphQLEnumValue) :
  enum__valueLookup this !! x = Some r →
  r ∈ GraphQLEnumType_getValues this ∧ ev_value r = x.
Proof.
  destruct (GraphQLEnumType_new_Ok _ _ Hnew) as (_ & _ & _ & -> & _).
  intros ([x' r'] & Hin & Hx & Hr)%(build_lookup_Some fst snd). simpl in *. subst.
  apply list_elem_of_fmap in Hin as (ev & [= -> ->] & Hin). done.
Qed.

Lemma valueLookup_elem (v : GraphQLEnumValue) :
  v ∈ GraphQLEnumType_getValues this →
  ∃ r, r ∈ GraphQLEnumType_getValues this ∧ ev_value r = ev_value v
       ∧ enum__valueLookup this !! ev_value v = Some r.
Proof.
  intros Hv.
  destruct (GraphQLEnumType_new_Ok _ _ Hnew) as (_ & _ & _ & -> & _).
  destruct (build_lookup_elem fst snd
              ((λ enumValue, (ev_value enumValue, enumValue)) <$> enum__values this)
              (ev_value v, v)) as ([x r] & Hin & Hx & Hr).
  { by apply list_elem_of_fmap_2'  with v. }
  simpl in *. apply list_elem_of_fmap in Hin as (ev & [= -> ->] & Hin).
  exists ev. done.
Qed.

Lemma nameLookup_elem (v : GraphQLEnumValue) :
  v ∈ GraphQLEnumType_getValues this →
  GraphQLEnumType_getValue this (ev_name v) = Some v.
Proof.
  intros Hv. unfold GraphQLEnumType_getValue.
  destruct (GraphQLEnumType_new_Ok _ _ Hnew) as (_ & _ & _ & _ & ->).
  destruct (build_lookup_elem ev_name id (enum__values this) v Hv)
    as (y & Hy & Hname & Hlook).
  unfold keyMap. simpl in Hlook. rewrite Hlook. f_equal.
  eapply NoDup_fmap_elem_inj; [|exact Hy|exact Hv|exact Hname].
  by eapply enum_names_NoDup.
Qed.

Lemma serialize_registered_last (j : nat) (last : GraphQLEnumValue) :
  GraphQLEnumType_getValues this !! j = Some last →
  (∀ k later, j < k → GraphQLEnumType_getValues this !! k = Some later →
              ev_value later ≠ ev_value last) →
  GraphQLEnumType_serialize this (ev_value last) = Ok (ev_name last).
Proof.
  intros Hj Hlater. unfold GraphQLEnumType_serialize.
  by rewrite (valueLookup_last j last Hj Hlater).
Qed.
End enum.




(** C2, as the code has it: for a value record [v] registered in an enum
    under the name [n], parsing the name that [serialize] gives for the
    internal value of [v] returns that internal value; and serializing what
    [parseValue(n)] returns gives [n] back when no record registered after
    [v] has the internal value of [v]. *)
Theorem enum_codec_round_trip
    (config : GraphQLEnumTypeConfig) (valueMap : GraphQLEnumValueConfigMap)
    (this : GraphQLEnumType) (i : nat) (v : GraphQLEnumValue) :
  GraphQLEnumType_new config = Ok this →
  ec_values config = Is valueMap →
  ObjMap_wf valueMap →
  GraphQLEnumType_getValues this !! i = Some v →
  (name ← GraphQLEnumType_serialize this (ev_value v);
   GraphQLEnumType_parseValue this (Str name)) = Ok (ev_value v)
  ∧ GraphQLEnumType_parseValue this (Str (ev_name v)) = Ok (ev_value v)
  ∧ ((∀ k later, i < k → GraphQLEnumType_getValues this !! k = Some later →
                 ev_value later ≠ ev_value v) →
     (value ← GraphQLEnumType_parseValue this (Str (ev_name v));
      GraphQLEnumType_serialize this value) = Ok (ev_name v)).
Proof.
  intros Hnew Hmap Hwf Hi.
  assert (Hv : v ∈ GraphQLEnumType_getValues this) by by apply list_elem_of_lookup_2 with i.
  assert (Hparse : ∀ r, r ∈ GraphQLEnumType_getValues this →
            GraphQLEnumType_parseValue this (Str (ev_name r)) = Ok (ev_value r)).
  { intros r Hr. unfold GraphQLEnumType_parseValue.
    by rewrite (nameLookup_elem config this valueMap Hnew Hmap Hwf r Hr). }
  split_and!.
  - destruct (valueLookup_elem config this Hnew v Hv) as (r & Hr & Hval & Hlook).
    unfold GraphQLEnumType_serialize. rewrite Hlook. unfold mbind, result_bind.
    by rewrite (Hparse r Hr), Hval.
  - by apply Hparse.
  - intros Hlater. rewrite (Hparse v Hv). unfold mbind, result_bind.
    by apply (serialize_registered_last config this Hnew i).
Qed.

Lemma enum_codec_round_trip_witness :
  (name ← GraphQLEnumType_serialize Twin (ev_value (enumValue "B" (Num 1)));
   GraphQLEnumType_parseValue Twin (Str name)) = Ok (ev_value (enumValue "B" (Num 1)))
  ∧ GraphQLEnumType_parseValue Twin (Str (ev_name (enumValue "B" (Num 1))))
    = Ok (ev_value (enumValue "B" (Num 1)))
  ∧ (value ← GraphQLEnumType_parseValue Twin (Str (ev_name (enumValue "B" (Num 1))));
     GraphQLEnumType_serialize Twin value) = Ok (ev_name (enumValue "B" (Num 1))).
Proof.
  destruct (enum_codec_round_trip
              (enumTypeConfig "Twin" Twin_values) Twin_values Twin 1
              (enumValue "B" (Num 1))) as (H1 & H2 & H3).
  - vm_compute. reflexivity.
  - reflexivity.
  - unfold ObjMap_wf. apply (bool_decide_unpack _). vm_compute. exact I.
  - reflexivity.
  - split_and!; [exact H1|exact H2|].
    apply H3. intros k later Hk Hlook. simpl in Hlook.
    destruct k as [|[|k]]; [lia..|]. discriminate Hlook.
Defined.

(** C2 fails as stated: in the enum [{ A: { value: 1 }, B: { value: 1 } }]
    the value record registered under the name ["A"] parses to [1], and
    [1] serializes to ["B"]. *)
Lemma serialize_parseValue_changes_name :
  GraphQLEnumType_new (enumTypeConfig "Twin" Twin_values) = Ok Twin
  ∧ GraphQLEnumType_getValue Twin "A" = Some (enumValue "A" (Num 1))
  ∧ GraphQLEnumType_parseValue Twin (Str "A") = Ok (Num 1)
  ∧ (value ← GraphQLEnumType_parseValue Twin (Str "A");
     GraphQLEnumType_serialize Twin value) = Ok "B"
  ∧ (value ← GraphQLEnumType_parseValue Twin (Str "A");
     GraphQLEnumType_serialize Twin value) ≠ Ok "A".
Proof. split_and!; [vm_compute; reflexivity|reflexivity..|discriminate]. Qed.

(** ** Round trips through [toConfig] *)

Lemma and_toObjMap_idemp (extensions : Maybe ObjMapLike) :
  and_toObjMap (and_toObjMap extensions) = and_toObjMap extensions.
Proof. by destruct extensions. Qed.

(** A field record that [defineInputField] built, put back into
    configuration shape by [toConfig] and normalized again, comes out with
    everything but its deprecation reason. *)
Lemma defineInputField_again (name name' : mixed) (fieldConfig : GraphQLInputFieldConfig)
    (fieldName : string) (field : GraphQLInputField) :
  defineInputField name fieldConfig fieldName = Ok field →
  defineInputField name' (inputFieldToConfig field) fieldName
  = Ok (without_deprecationReason field).
Proof.
  unfold defineInputField. destruct (has_resolve fieldConfig); simpl; [done|].
  intros [= <-]. unfold has_resolve. simpl. by rewrite and_toObjMap_idemp.
Qed.

Lemma defineInputFieldMap_Ok (config : GraphQLInputObjectTypeConfig) (w w1 : World)
    (fields : GraphQLInputFieldMap) :
  defineInputFieldMap config w = (w1, Ok fields) →
  ∃ fieldMap,
    Forall2 (λ e e', e.1 = e'.1 ∧ defineInputField (ioc_name config) e.2 e.1 = Ok e'.2)
      fieldMap fields.
Proof.
  unfold defineInputFieldMap, mbind, M_bind. rewrite resolve_thunk_world.
  match goal with |- context [devAssert_shape ?c ?x ?m] =>
    destruct x as [fieldMap|v]; simpl; [|done] end.
  unfold lift. intros [= _ H]. exists fieldMap. by apply mapValue_Ok_Forall2.
Qed.

Lemma InputObject_getFields_resolved (this : GraphQLInputObjectType)
    (fields : GraphQLInputFieldMap) (w : World) :
  io__fields this = Settled fields →
  GraphQLInputObjectType_getFields this w = (w, Ok (this, fields)).
Proof. exact (call_resolved InputObject_getFields this fields w). Qed.

Lemma InputObject_getFields_pending (this : GraphQLInputObjectType)
    (config : GraphQLInputObjectTypeConfig) (w : World) :
  io__fields this = Bound config →
  GraphQLInputObjectType_getFields this w =
    match defineInputFieldMap config w with
    | (w', Ok fields) => (w', Ok (io_set__fields this (Settled fields), fields))
    | (w', Throw e) => (w', Throw e)
    end.
Proof. exact (call_pending InputObject_getFields this config w). Qed.

Lemma M_bind_Ok {A B : Type} (m : M A) (f : A → M B) (w w' : World) (a : A) :
  m w = (w', Ok a) → (m ≫= f) w = f a w'.
Proof. unfold mbind, M_bind. by intros ->. Qed.

Lemma M_bind_lift_Ok {A B : Type} (r : result A) (f : A → M B) (w : World) (a : A) :
  r = Ok a → (lift r ≫= f) w = f a w.
Proof. by intros ->. Qed.

Lemma InputObject_toConfig_resolved (this : GraphQLInputObjectType)
    (fields : GraphQLInputFieldMap) (w : World) :
  io__fields this = Settled fields →
  GraphQLInputObjectType_toConfig this w
  = (w, Ok (this,
            {| ioc_name := io_name this;
               ioc_description := io_description this;
               ioc_fields := Direct (Is (prod_map id inputFieldToConfig <$> fields));
               ioc_extensions := io_extensions this;
               ioc_astNode := io_astNode this;
               ioc_extensionASTNodes := Given (io_extensionASTNodes this) |})).
Proof.
  intros Hcell. unfold GraphQLInputObjectType_toConfig.
  rewrite (M_bind_Ok _ _ _ _ _ (InputObject_getFields_resolved _ _ w Hcell)).
  cbv beta iota.
  by rewrite (M_bind_lift_Ok _ _ _ _ (mapValue_total inputFieldToConfig fields)).
Qed.

(** X1: whenever an input object type can be built and its fields forced, the
    round trip through [toConfig] succeeds, and the fields of the second
    type are those of the first without their deprecation reasons. *)
Lemma InputObject_round_trip_fields (config : GraphQLInputObjectTypeConfig)
    (first first1 : GraphQLInputObjectType) (w w1 : World) (fields : GraphQLInputFieldMap) :
  GraphQLInputObjectType_new config = Ok first →
  GraphQLInputObjectType_getFields first w = (w1, Ok (first1, fields)) →
  InputObject_round_trip config w
  = (w1, Ok (fields, prod_map id without_deprecationReason <$> fields)).
Proof.
  intros Hnew Hget. unfold InputObject_round_trip.
  rewrite (M_bind_lift_Ok _ _ _ _ Hnew), (M_bind_Ok _ _ _ _ _ Hget).
  cbv beta iota.
  (* the first type was unresolved, and is resolved now *)
  unfold GraphQLInputObjectType_new in Hnew.
  destruct (typeof_string (ioc_name config)) eqn:Hstr; simpl in Hnew; [|done].
  injection Hnew as <-.
  match type of Hget with GraphQLInputObjectType_getFields ?t _ = _ => set (first := t) in * end.
  pose proof (InputObject_getFields_pending first config w eq_refl) as Hcall.
  rewrite Hget in Hcall.
  destruct (defineInputFieldMap config w) as [w1' [fields0|e]] eqn:Hdef; [|done].
  injection Hcall as <- -> <-.
  destruct (defineInputFieldMap_Ok _ _ _ _ Hdef) as (fieldMap & Hall).
  (* its configuration, and the second type *)
  rewrite (M_bind_Ok _ _ _ _ _
             (InputObject_toConfig_resolved (io_set__fields first (Settled fields))
                fields w1 eq_refl)).
  cbv beta iota.
  erewrite M_bind_lift_Ok;
    [|unfold GraphQLInputObjectType_new; simpl ioc_name; rewrite Hstr; reflexivity].
  erewrite M_bind_Ok; cycle 1.
  { erewrite InputObject_getFields_pending; [|reflexivity].
    unfold defineInputFieldMap. simpl.
    replace (mapValue (prod_map id inputFieldToConfig <$> fields)
               (defineInputField (ioc_name config)))
      with (Ok (prod_map id without_deprecationReason <$> fields)
            : result GraphQLInputFieldMap); [reflexivity|].
    symmetry. apply mapValue_Ok_Forall2.
    clear -Hall.
    induction Hall as [|[k c] [k' f] ?? [Hk Hf] _ IH]; simpl in *; [constructor|].
    subst k'. constructor; [|done]. simpl. split; [done|].
    by apply defineInputField_again with (ioc_name config) c. }
  reflexivity.
Qed.

Lemma ObjMap_set_fresh {A : Type} (m : ObjMap A) (key : string) (value : A) :
  key ∉ m.*1 → ObjMap_set m key value = m ++ [(key, value)].
Proof.
  induction m as [|[k x] m IH]; simpl; [done|]. intros Hnotin.
  apply not_elem_of_cons in Hnotin as [Hne Hnotin].
  rewrite decide_False by done. by rewrite IH.
Qed.

(** With keys that differ, [keyValMap] lists the items in their order. *)
Lemma keyValMap_NoDup {T V : Type} (l : list T) (keyFn : T → string) (valFn : T → V) :
  NoDup (keyFn <$> l) → keyValMap l keyFn valFn = (λ item, (keyFn item, valFn item)) <$> l.
Proof.
  unfold keyValMap. induction l as [|a l IH] using rev_ind; [done|].
  rewrite fmap_app. intros [Hl [Hnotin _]]%NoDup_app.
  rewrite foldl_app, fmap_app. simpl. rewrite IH by done.
  apply ObjMap_set_fresh.
  rewrite <- list_fmap_compose. intros Hin. apply (Hnotin _ Hin). simpl. left.
Qed.

(** A value record that [defineEnumValue] built, put back into
    configuration shape by [toConfig] and defined again, is the same
    record. *)
Lemma defineEnumValue_again (typeName typeName' : mixed)
    (entry : string * dyn GraphQLEnumValueConfig) (value : GraphQLEnumValue) :
  defineEnumValue typeName entry = Ok value →
  defineEnumValue typeName'
    (ev_name value,
     Is {| evc_description := ev_description value;
           evc_value := Some (ev_value value);
           evc_deprecationReason := ev_deprecationReason value;
           evc_extensions := ev_extensions value;
           evc_astNode := ev_astNode value |})
  = Ok value.
Proof.
  destruct entry as [valueName [valueConfig|v]]; simpl; [|done].
  intros [= <-]. simpl. rewrite and_toObjMap_idemp. do 2 f_equal.
  destruct (bool_decide (get_property (evc_value valueConfig) ≠ Undefined)) eqn:Hdef.
  - by rewrite Hdef.
  - by rewrite bool_decide_eq_true_2.
Qed.

(** X2: the round trip of an enum type gives the same enum type: the same
    value records in the same order, under the same names and internal
    values, so that [serialize], [parseValue] and [parseLiteral] agree. *)
Lemma Enum_round_trip_same (config : GraphQLEnumTypeConfig)
    (valueMap : GraphQLEnumValueConfigMap) (first : GraphQLEnumType) :
  GraphQLEnumType_new config = Ok first →
  ec_values config = Is valueMap →
  ObjMap_wf valueMap →
  Enum_round_trip config = Ok (first, first).
Proof.
  intros Hnew Hmap Hwf. unfold Enum_round_trip. rewrite Hnew. simpl.
  pose proof (enum_names_NoDup _ _ _ Hnew Hmap Hwf) as Hnd.
  destruct (GraphQLEnumType_new_Ok _ _ Hnew) as (vm & _ & Hall & Hvl & Hnl).
  assert (Hstr : typeof_string (ec_name config) = true ∧ enum_name first = ec_name config
                 ∧ enum_extensions first = and_toObjMap (ec_extensions config)).
  { revert Hnew. unfold GraphQLEnumType_new.
    destruct (defineEnumValues _ _); simpl; [|done].
    destruct (typeof_string _); simpl; [|done]. by intros [= <-]. }
  destruct Hstr as (Hstr & Hname & Hext).
  assert (Hagain :
    mapM (defineEnumValue (enum_name first))
      ((λ value, (ev_name value,
                  Is {| evc_description := ev_description value;
                        evc_value := Some (ev_value value);
                        evc_deprecationReason := ev_deprecationReason value;
                        evc_extensions := ev_extensions value;
                        evc_astNode := ev_astNode value |})) <$> enum__values first)
    = Ok (enum__values first)).
  { apply mapM_Ok_Forall2. clear -Hall.
    induction Hall as [|entry value ?? Hd _ IH]; [constructor|].
    rewrite fmap_cons. constructor; [|done].
    by apply defineEnumValue_again with (ec_name config) entry. }
  unfold GraphQLEnumType_new, GraphQLEnumType_toConfig, GraphQLEnumType_getValues.
  unfold defineEnumValues. cbn -[mapM fmap keyValMap Map_new keyMap].
  rewrite keyValMap_NoDup by done. rewrite Hagain.
  cbn -[mapM fmap keyValMap Map_new keyMap].
  rewrite Hname, Hstr. cbn -[mapM fmap keyValMap Map_new keyMap]. do 2 f_equal.
  destruct first; simpl in *. subst. by rewrite and_toObjMap_idemp.
Qed.

Lemma defineArguments_again (config : GraphQLFieldConfigArgumentMap) :
  NoDup (arg_name <$> defineArguments config) →
  defineArguments (argsToArgsConfig (defineArguments config)) = defineArguments config.
Proof.
  intros Hnd. unfold argsToArgsConfig. rewrite keyValMap_NoDup by done.
  unfold defineArguments. rewrite <- !list_fmap_compose.
  apply list_fmap_ext. intros _ [argName argConfig] _. simpl.
  by rewrite and_toObjMap_idemp.
Qed.

(** A field record that [defineField] built, put back into configuration
    shape by [fieldsToFieldsConfig] and normalized again, is the same
    record. *)
Lemma defineField_again (name name' : mixed) (fieldConfig : dyn GraphQLFieldConfig)
    (fieldName : string) (field : GraphQLField) :
  defineField name fieldConfig fieldName = Ok field →
  NoDup (arg_name <$> fld_args field) →
  defineField name' (Is (fieldToFieldConfig field)) fieldName = Ok field.
Proof.
  unfold defineField. destruct fieldConfig as [fieldConfig|v]; simpl; [|done].
  destruct (nullish (fc_resolve fieldConfig) || typeof_function (fc_resolve fieldConfig))
    eqn:Hresolve; simpl; [|done].
  destruct (args_or_empty (fc_args fieldConfig)) as [argsConfig|v]; simpl; [|done].
  intros [= <-]. simpl. intros Hnd. rewrite Hresolve. simpl.
  by rewrite defineArguments_again, and_toObjMap_idemp.
Qed.

Lemma Object_getFields_resolved (this : GraphQLObjectType) (fields : GraphQLFieldMap)
    (w : World) :
  obj__fields this = Settled fields →
  GraphQLObjectType_getFields this w = (w, Ok (this, fields)).
Proof. exact (call_resolved Object_getFields this fields w). Qed.

Lemma Object_getInterfaces_resolved (this : GraphQLObjectType) (interfaces : list mixed)
    (w : World) :
  obj__interfaces this = Settled interfaces →
  GraphQLObjectType_getInterfaces this w = (w, Ok (this, interfaces)).
Proof. exact (call_resolved Object_getInterfaces this interfaces w). Qed.

Lemma Object_getFields_pending (this : GraphQLObjectType)
    (config : GraphQLObjectTypeConfig) (w : World) :
  obj__fields this = Bound config →
  GraphQLObjectType_getFields this w =
    match defineFieldMap config w with
    | (w', Ok fields) => (w', Ok (obj_set__fields this (Settled fields), fields))
    | (w', Throw e) => (w', Throw e)
    end.
Proof. exact (call_pending Object_getFields this config w). Qed.

Lemma Object_getInterfaces_pending (this : GraphQLObjectType)
    (config : GraphQLObjectTypeConfig) (w : World) :
  obj__interfaces this = Bound config →
  GraphQLObjectType_getInterfaces this w =
    match defineInterfaces config w with
    | (w', Ok interfaces) =>
        (w', Ok (obj_set__interfaces this (Settled interfaces), interfaces))
    | (w', Throw e) => (w', Throw e)
    end.
Proof. exact (call_pending Object_getInterfaces this config w). Qed.

Lemma defineFieldMap_Ok (config : GraphQLObjectTypeConfig) (w w1 : World)
    (fields : GraphQLFieldMap) :
  defineFieldMap config w = (w1, Ok fields) →
  ∃ fieldMap,
    Forall2 (λ e e', e.1 = e'.1 ∧ defineField (oc_name config) e.2 e.1 = Ok e'.2)
      fieldMap fields.
Proof.
  unfold defineFieldMap, mbind, M_bind. rewrite resolve_thunk_world.
  match goal with |- context [devAssert_shape ?c ?x ?m] =>
    destruct x as [fieldMap|v]; simpl; [|done] end.
  unfold lift. intros [= _ H]. exists fieldMap. by apply mapValue_Ok_Forall2.
Qed.

Lemma Object_toConfig_resolved (this : GraphQLObjectType)
    (fields : GraphQLFieldMap) (interfaces : list mixed) (w : World) :
  obj__fields this = Settled fields →
  obj__interfaces this = Settled interfaces →
  GraphQLObjectType_toConfig this w
  = (w, Ok (this,
            {| oc_name := obj_name this;
               oc_description := obj_description this;
               oc_interfaces := Given (Direct (Is interfaces));
               oc_fields := Direct (Is (prod_map id (Is ∘ fieldToFieldConfig) <$> fields));
               oc_isTypeOf := obj_isTypeOf this;
               oc_extensions := obj_extensions this;
               oc_astNode := obj_astNode this;
               oc_extensionASTNodes := Given (obj_extensionASTNodes this) |})).
Proof.
  intros Hf Hi. unfold GraphQLObjectType_toConfig.
  rewrite (M_bind_Ok _ _ _ _ _ (Object_getInterfaces_resolved _ _ w Hi)). cbv beta iota.
  rewrite (M_bind_Ok _ _ _ _ _ (Object_getFields_resolved _ _ w Hf)). cbv beta iota.
  unfold fieldsToFieldsConfig.
  by rewrite (M_bind_lift_Ok _ _ _ _ (mapValue_total (Is ∘ fieldToFieldConfig) fields)).
Qed.

(** X3: whenever an object type can be built and its fields and interfaces
    forced, the round trip through [toConfig] succeeds, and the second type
    has the properties, the fields and the interfaces of the first. *)
Lemma Object_round_trip_same (config : GraphQLObjectTypeConfig)
    (first first1 first2 : GraphQLObjectType) (w w1 w2 : World)
    (fields : GraphQLFieldMap) (interfaces : list mixed) :
  GraphQLObjectType_new config = Ok first →
  GraphQLObjectType_getFields first w = (w1, Ok (first1, fields)) →
  GraphQLObjectType_getInterfaces first1 w1 = (w2, Ok (first2, interfaces)) →
  Forall (λ e, NoDup (arg_name <$> fld_args e.2)) fields →
  ∃ second,
    Object_round_trip config w = (w2, Ok (first2, second))
    ∧ same_resolved_object first2 second.
Proof.
  intros Hnew Hfields Hinterfaces Hargs. unfold Object_round_trip.
  rewrite (M_bind_lift_Ok _ _ _ _ Hnew), (M_bind_Ok _ _ _ _ _ Hfields). cbv beta iota.
  rewrite (M_bind_Ok _ _ _ _ _ Hinterfaces). cbv beta iota.
  (* the first type was unresolved, and is resolved now *)
  unfold GraphQLObjectType_new in Hnew.
  destruct (typeof_string (oc_name config)) eqn:Hstr; simpl in Hnew; [|done].
  destruct (nullish (oc_isTypeOf config) || typeof_function (oc_isTypeOf config))
    eqn:HisTypeOf; simpl in Hnew; [|done].
  injection Hnew as <-.
  match type of Hfields with GraphQLObjectType_getFields ?t _ = _ => set (first := t) in * end.
  pose proof (Object_getFields_pending first config w eq_refl) as Hcall.
  rewrite Hfields in Hcall.
  destruct (defineFieldMap config w) as [w1' [fields0|e]] eqn:Hdef; [|done].
  injection Hcall as <- -> <-.
  pose proof (Object_getInterfaces_pending (obj_set__fields first (Settled fields))
                config w1 eq_refl) as Hcall.
  rewrite Hinterfaces in Hcall.
  destruct (defineInterfaces config w1) as [w2' [interfaces0|e]] eqn:Hdefi; [|done].
  injection Hcall as <- -> <-.
  destruct (defineFieldMap_Ok _ _ _ _ Hdef) as (fieldMap & Hall).
  set (first2 := obj_set__interfaces (obj_set__fields first (Settled fields))
                   (Settled interfaces)).
  (* its configuration, and the second type *)
  rewrite (M_bind_Ok _ _ _ _ _
             (Object_toConfig_resolved first2 fields interfaces w2 eq_refl eq_refl)).
  cbv beta iota.
  erewrite M_bind_lift_Ok; cycle 1.
  { unfold GraphQLObjectType_new. simpl oc_name. simpl oc_isTypeOf.
    rewrite Hstr, HisTypeOf. reflexivity. }
  erewrite M_bind_Ok; cycle 1.
  { erewrite Object_getFields_pending; [|reflexivity].
    unfold defineFieldMap. simpl.
    replace (mapValue (prod_map id (Is ∘ fieldToFieldConfig) <$> fields)
               (defineField (oc_name config)))
      with (Ok fields : result GraphQLFieldMap); [reflexivity|].
    symmetry. apply mapValue_Ok_Forall2.
    clear -Hall Hargs.
    induction Hall as [|[k c] [k' f] ?? [Hk Hf] _ IH]; simpl in *; [constructor|].
    apply Forall_cons in Hargs as [Hnd Hargs].
    subst k'. constructor; [|by apply IH]. simpl. split; [done|].
    by apply defineField_again with (oc_name config) c. }
  cbv beta iota.
  erewrite M_bind_Ok; cycle 1.
  { erewrite Object_getInterfaces_pending; [|reflexivity].
    unfold defineInterfaces. simpl. reflexivity. }
  cbv beta iota.
  eexists. split; [reflexivity|].
  unfold same_resolved_object. simpl.
  rewrite and_toObjMap_idemp. split_and!; eauto.
Qed.

Example Twin_round_trip :
  Enum_round_trip (enumTypeConfig "Twin" Twin_values) = Ok (Twin, Twin).
Proof.
  apply Enum_round_trip_same with Twin_values.
  - vm_compute. reflexivity.
  - reflexivity.
  - unfold ObjMap_wf. apply (bool_decide_unpack _). vm_compute. exact I.
Defined.

Example Person_round_trip :
  ∃ first second,
    Object_round_trip Person_config world0
    = ({| env := ∅; calls := [3] |}, Ok (first, second))
    ∧ same_resolved_object first second.
Proof.
  edestruct (Object_round_trip_same Person_config) as (second & Htrip & Hsame).
  - reflexivity.
  - reflexivity.
  - reflexivity.
  - repeat constructor. intros Hin. by apply elem_of_nil in Hin.
  - eexists _, second. split; [exact Htrip|exact Hsame].
Defined.

(** C4 does not hold of input object types: the input object type built
    from [{ name: 'Altitude', fields: { alt: { type: Float,
    deprecationReason: 'use height' } } }] has the field [alt] deprecated
    with that reason; the type built from its [toConfig()] has the field
    [alt] with no deprecation reason. *)
Theorem input_object_round_trip_drops_deprecationReason :
  InputObject_round_trip Altitude_config world0
  = (world0, Ok ([("alt", inputField "alt" Float (Str "use height"))],
                 [("alt", inputField "alt" Float Undefined)]))
  ∧ inputField "alt" Float (Str "use height") ≠ inputField "alt" Float Undefined.
Proof. split; [reflexivity|discriminate]. Qed.

(** * Further properties *)

(** ** Classification *)

Lemma getNamedType_loop_isNamedType (T : GraphQLType) :
  isNamedType (TypeObj (getNamedType_loop T)) = true.
Proof. induction T; done. Qed.

Lemma isInputType_rec_loop (T : GraphQLType) :
  isInputType_rec T = isInputType_rec (getNamedType_loop T).
Proof. induction T; done. Qed.

Lemma isOutputType_rec_loop (T : GraphQLType) :
  isOutputType_rec T = isOutputType_rec (getNamedType_loop T).
Proof. induction T; done. Qed.

(** X4: whether a type is an input type, and whether it is an output type,
    is decided by the named type under its wrappers, which [getNamedType]
    returns: the result is a named type, and unwrapping it again changes
    nothing. *)
Theorem input_output_decided_by_named_type (T : GraphQLType) :
  isInputType (TypeObj T) = isInputType (getNamedType (TypeObj T))
  ∧ isOutputType (TypeObj T) = isOutputType (getNamedType (TypeObj T))
  ∧ isNamedType (getNamedType (TypeObj T)) = true
  ∧ getNamedType (getNamedType (TypeObj T)) = getNamedType (TypeObj T)
  ∧ getNamedType (getNullableType (TypeObj T)) = getNamedType (TypeObj T).
Proof.
  change (getNamedType (TypeObj T)) with (TypeObj (getNamedType_loop T)).
  split_and!.
  - apply isInputType_rec_loop.
  - apply isOutputType_rec_loop.
  - apply getNamedType_loop_isNamedType.
  - change (TypeObj (getNamedType_loop (getNamedType_loop T))
            = TypeObj (getNamedType_loop T)).
    f_equal. apply getNamedType_loop_named, getNamedType_loop_isNamedType.
  - by destruct T.
Qed.

(** X5: every type is an input type or an output type; it is both exactly
    when the named type under its wrappers is a leaf type, an input type
    only when that is an input object type, and an output type only when
    that is a composite type. *)
Theorem usage_position_of_types (T : GraphQLType) :
  isInputType (TypeObj T) || isOutputType (TypeObj T) = true
  ∧ isInputType (TypeObj T) && isOutputType (TypeObj T)
    = isLeafType (getNamedType (TypeObj T))
  ∧ isInputType (TypeObj T) && negb (isOutputType (TypeObj T))
    = isInputObjectType (getNamedType (TypeObj T))
  ∧ negb (isInputType (TypeObj T)) && isOutputType (TypeObj T)
    = isCompositeType (getNamedType (TypeObj T)).
Proof.
  change (getNamedType (TypeObj T)) with (TypeObj (getNamedType_loop T)).
  simpl isInputType. simpl isOutputType.
  rewrite isInputType_rec_loop, isOutputType_rec_loop.
  pose proof (getNamedType_loop_isNamedType T) as Hnamed.
  by destruct (getNamedType_loop T).
Qed.

Lemma GraphQLList_of_type (T : GraphQLType) : GraphQLList (TypeObj T) = Ok (List T).
Proof. by destruct T. Qed.

Lemma built_no_NonNull_of_NonNull (T : GraphQLType) :
  built T ↔ no_NonNull_of_NonNull T = true.
Proof.
  split.
  - induction 1 as [T Hnamed|T W _ IH Hnew|T W _ IH Hnew].
    + by destruct T.
    + rewrite GraphQLList_of_type in Hnew. injection Hnew as <-. done.
    + unfold GraphQLNonNull in Hnew.
      destruct (isNullableType (TypeObj T)) eqn:Hnullable; simpl in Hnew; [|done].
      injection Hnew as <-. simpl. rewrite IH.
      by destruct T.
  - induction T as [r|r|r|r|r|r|T IH|T IH]; simpl; intros Hwf;
      try (by apply built_named).
    + apply built_List with T; [by apply IH|apply GraphQLList_of_type].
    + apply andb_true_iff in Hwf as [Hnn Hwf].
      apply built_NonNull with T; [by apply IH|].
      unfold GraphQLNonNull. by destruct T.
Qed.

(** X6: for a type the constructors can have built, [getNullableType]
    returns a nullable type, so that [new GraphQLNonNull] accepts it; for a
    non-null type this builds the type again.  There is no non-null type
    directly inside a non-null type, at any depth. *)
Theorem built_types_unwrap_to_nullable (T : GraphQLType) :
  built T →
  no_NonNull_of_NonNull T = true
  ∧ isNullableType (getNullableType (TypeObj T)) = true
  ∧ (∃ U, getNullableType (TypeObj T) = TypeObj U
          ∧ GraphQLNonNull (getNullableType (TypeObj T)) = Ok (NonNull U)
          ∧ built (NonNull U)
          ∧ (isNonNullType (TypeObj T) = true → NonNull U = T)).
Proof.
  intros Hbuilt. pose proof Hbuilt as Hwf. apply built_no_NonNull_of_NonNull in Hwf.
  split; [done|].
  assert (Hnullable : isNullableType (getNullableType (TypeObj T)) = true).
  { destruct T as [| | | | | | |U]; try done. simpl in *.
    apply andb_true_iff in Hwf as [Hnn _]. by destruct U. }
  split; [done|].
  assert (∃ U, getNullableType (TypeObj T) = TypeObj U) as [U HU].
  { destruct T; simpl; eauto. }
  exists U. rewrite HU in *. split; [done|].
  assert (Hnew : GraphQLNonNull (TypeObj U) = Ok (NonNull U)).
  { unfold GraphQLNonNull. by rewrite Hnullable. }
  split_and!; [done| |].
  - apply built_NonNull with U; [|done].
    apply built_no_NonNull_of_NonNull.
    destruct T; simpl in *; injection HU as <-; try done.
    by apply andb_true_iff in Hwf as [_ ?].
  - destruct T; try done. simpl in HU. by injection HU as <-.
Qed.

Lemma built_types_unwrap_to_nullable_witness :
  no_NonNull_of_NonNull (NonNull (List (NonNull (ScalarType 0)))) = true
  ∧ isNullableType (getNullableType (TypeObj (NonNull (List (NonNull (ScalarType 0)))))) = true
  ∧ (∃ U, getNullableType (TypeObj (NonNull (List (NonNull (ScalarType 0))))) = TypeObj U
          ∧ GraphQLNonNull (getNullableType (TypeObj (NonNull (List (NonNull (ScalarType 0))))))
            = Ok (NonNull U)
          ∧ built (NonNull U)
          ∧ (isNonNullType (TypeObj (NonNull (List (NonNull (ScalarType 0))))) = true →
             NonNull U = NonNull (List (NonNull (ScalarType 0))))).
Proof.
  apply (built_types_unwrap_to_nullable (NonNull (List (NonNull (ScalarType 0))))).
  apply built_NonNull with (List (NonNull (ScalarType 0))); [|reflexivity].
  apply built_List with (NonNull (ScalarType 0)); [|reflexivity].
  apply built_NonNull with (ScalarType 0); [|reflexivity].
  apply built_named. reflexivity.
Defined.

(** X7: [new GraphQLList] returns a type exactly for the values that are
    types, the list type of its argument, and throws for every other
    value; what it returns is nullable, so that the non-null type of a list
    type can always be built. *)
Theorem List_accepts_every_type (ofType : mixed) :
  (∀ W, GraphQLList ofType = Ok W ↔ ∃ T, ofType = TypeObj T ∧ W = List T)
  ∧ (isType ofType = false →
     GraphQLList ofType
     = Throw (Error [Lit "Expected "; Inspect ofType; Lit " to be a GraphQL type."]))
  ∧ (∀ W, GraphQLList ofType = Ok W →
          GraphQLNonNull (TypeObj W) = Ok (NonNull W)
          ∧ getNullableType (TypeObj W) = TypeObj W).
Proof.
  split_and!.
  - intros W. split.
    + destruct ofType as [| | | | | | | |T]; try done. intros Hnew.
      exists T. split; [done|]. rewrite GraphQLList_of_type in Hnew. by injection Hnew as <-.
    + intros (T & -> & ->). apply GraphQLList_of_type.
  - intros Hnot. unfold GraphQLList. by rewrite Hnot.
  - intros W Hnew. destruct ofType as [| | | | | | | |T]; try done.
    rewrite GraphQLList_of_type in Hnew. injection Hnew as <-. done.
Qed.

Lemma List_accepts_every_type_witness :
  GraphQLList (Str "Int")
  = Throw (Error [Lit "Expected "; Inspect (Str "Int"); Lit " to be a GraphQL type."])
  ∧ GraphQLNonNull (TypeObj (List (NonNull (EnumType 2))))
    = Ok (NonNull (List (NonNull (EnumType 2)))).
Proof.
  split.
  - apply (proj1 (proj2 (List_accepts_every_type (Str "Int")))). reflexivity.
  - apply (proj2 (proj2 (List_accepts_every_type (TypeObj (NonNull (EnumType 2)))))
             (List (NonNull (EnumType 2)))).
    reflexivity.
Defined.

(** X8: an assertion returns the value it was given, and the assertions
    are ordered as the predicates are: a value that passes
    [assertAbstractType] passes [assertCompositeType]; one that passes that
    passes [assertOutputType], [assertNamedType] and [assertNullableType]
    and fails [assertInputType]; one that passes [assertLeafType] passes
    [assertInputType] and [assertOutputType]; and [assertWrappingType]
    fails on every value that passes [assertNamedType]. *)
Theorem assertions_follow_the_predicates (type : mixed) :
  (∀ predicate what value, assert_with predicate what type = Ok value → value = type)
  ∧ (assertAbstractType type = Ok type → assertCompositeType type = Ok type)
  ∧ (assertCompositeType type = Ok type →
     assertOutputType type = Ok type ∧ assertNamedType type = Ok type
     ∧ assertNullableType type = Ok type
     ∧ assertInputType type
       = Throw (Error [Lit "Expected "; Inspect type; Lit " to be a GraphQL ";
                       Lit "input type"; Lit "."]))
  ∧ (assertLeafType type = Ok type →
     assertInputType type = Ok type ∧ assertOutputType type = Ok type)
  ∧ (assertNamedType type = Ok type →
     assertType type = Ok type
     ∧ assertWrappingType type
       = Throw (Error [Lit "Expected "; Inspect type; Lit " to be a GraphQL ";
                       Lit "wrapping type"; Lit "."])).
Proof.
  split_and!.
  - intros predicate what value. unfold assert_with.
    destruct (predicate type); simpl; congruence.
  - destruct type as [| | | | | | | |[]]; done.
  - destruct type as [| | | | | | | |[]]; done.
  - destruct type as [| | | | | | | |[]]; done.
  - destruct type as [| | | | | | | |[]]; done.
Qed.

Lemma assertions_follow_the_predicates_witness :
  assertCompositeType (TypeObj (UnionType 4)) = Ok (TypeObj (UnionType 4))
  ∧ assertInputType (TypeObj (ScalarType 0)) = Ok (TypeObj (ScalarType 0))
  ∧ assertOutputType (TypeObj (ScalarType 0)) = Ok (TypeObj (ScalarType 0)).
Proof.
  split.
  - apply (proj1 (proj2 (assertions_follow_the_predicates (TypeObj (UnionType 4))))).
    reflexivity.
  - apply (proj1 (proj2 (proj2 (proj2
      (assertions_follow_the_predicates (TypeObj (ScalarType 0))))))).
    reflexivity.
Defined.

(** ** Fields and arguments *)

Lemma defineFieldMap_Ok_gen `{FieldsAndInterfaces C} (config : C) (w w1 : World)
    (fields : GraphQLFieldMap) :
  defineFieldMap config w = (w1, Ok fields) →
  ∃ fieldMap,
    resolveObjMapThunk (config_fields config) w = (w1, Ok (Is fieldMap))
    ∧ Forall2 (λ e e', e.1 = e'.1 ∧ defineField (config_name config) e.2 e.1 = Ok e'.2)
        fieldMap fields.
Proof.
  unfold defineFieldMap, mbind, M_bind.
  destruct (resolveObjMapThunk (config_fields config) w) as [w' [[fieldMap|v]|e]];
    simpl; [|done..].
  unfold lift. intros [= <- Hmap]. exists fieldMap. split; [done|].
  by apply mapValue_Ok_Forall2.
Qed.

Lemma defineField_Ok (name : mixed) (fieldConfig : dyn GraphQLFieldConfig)
    (fieldName : string) (field : GraphQLField) :
  defineField name fieldConfig fieldName = Ok field →
  ∃ c argsConfig,
    fieldConfig = Is c
    ∧ nullish (fc_resolve c) || typeof_function (fc_resolve c) = true
    ∧ args_or_empty (fc_args c) = Is argsConfig
    ∧ fld_name field = fieldName
    ∧ fld_type field = fc_type c
    ∧ fld_resolve field = fc_resolve c
    ∧ fld_args field = defineArguments argsConfig.
Proof.
  unfold defineField. destruct fieldConfig as [c|v]; simpl; [|done].
  destruct (nullish (fc_resolve c) || typeof_function (fc_resolve c)) eqn:Hres;
    simpl; [|done].
  destruct (args_or_empty (fc_args c)) as [argsConfig|v] eqn:Hargs; simpl; [|done].
  intros [= <-]. exists c, argsConfig. split_and!; done.
Qed.

Lemma defineArguments_arg_names (config : GraphQLFieldConfigArgumentMap) :
  arg_name <$> defineArguments config = config.*1.
Proof.
  unfold defineArguments. rewrite <- list_fmap_compose.
  apply list_fmap_ext. by intros _ [argName argConfig] _.
Qed.

(** X9: the field map that [defineFieldMap] returns has the keys of the
    configured field map in their order; each field is named after its key,
    has the type and the resolver configured under that key, and has one
    argument for each key of the configured argument map, in their order,
    none when the argument map is left out or [null]. *)
Theorem defineFieldMap_keeps_keys_and_order `{FieldsAndInterfaces C}
    (config : C) (w w1 : World) (fields : GraphQLFieldMap) :
  defineFieldMap config w = (w1, Ok fields) →
  ∃ fieldMap,
    resolveObjMapThunk (config_fields config) w = (w1, Ok (Is fieldMap))
    ∧ fields.*1 = fieldMap.*1
    ∧ Forall (λ e, fld_name e.2 = e.1) fields
    ∧ Forall2 (λ e e',
        ∃ c, e.2 = Is c
             ∧ fld_type e'.2 = fc_type c
             ∧ fld_resolve e'.2 = fc_resolve c
             ∧ arg_name <$> fld_args e'.2
               = match fc_args c with
                 | Is argsConfig => argsConfig.*1
                 | Not _ => []
                 end)
        fieldMap fields.
Proof.
  intros (fieldMap & Hthunk & Hall)%defineFieldMap_Ok_gen.
  exists fieldMap. split; [done|]. clear Hthunk.
  induction Hall as [|[k c] [k' f] ?? [Hk Hf] _ (IH1 & IH2 & IH3)].
  { split_and!; constructor. }
  simpl in Hk, Hf. subst k'. apply defineField_Ok in Hf
    as (c' & argsConfig & -> & _ & Hargs & Hname & Htype & Hres & Hfargs).
  split_and!.
  - rewrite !fmap_cons. by rewrite IH1.
  - by constructor.
  - constructor; [|done]. exists c'. simpl. split_and!; try done.
    rewrite Hfargs, defineArguments_arg_names.
    destruct (fc_args c') as [a|[]]; simpl in Hargs; try done; by injection Hargs as <-.
Qed.

Lemma defineFieldMap_keeps_keys_and_order_witness :
  ∃ fieldMap,
    resolveObjMapThunk (config_fields Member_config) world0
    = ({| env := ∅; calls := [12] |}, Ok (Is fieldMap))
    ∧ Member_resolved.*1 = fieldMap.*1
    ∧ Forall (λ e, fld_name e.2 = e.1) Member_resolved
    ∧ Forall2 (λ e e',
        ∃ c, e.2 = Is c
             ∧ fld_type e'.2 = fc_type c
             ∧ fld_resolve e'.2 = fc_resolve c
             ∧ arg_name <$> fld_args e'.2
               = match fc_args c with
                 | Is argsConfig => argsConfig.*1
                 | Not _ => []
                 end)
        fieldMap Member_resolved.
Proof.
  apply (defineFieldMap_keeps_keys_and_order Member_config world0
           {| env := ∅; calls := [12] |} Member_resolved).
  reflexivity.
Defined.

(** X10: the first field of an object type's field map that is not
    acceptable makes [getFields] throw, after the thunk ran: a field
    configuration that is not an object, a resolver that is given and is
    not a function, and arguments that are given and are not an object,
    each with its own message naming the type and the field. *)
Theorem first_invalid_field_is_reported
    (this : GraphQLObjectType) (config : GraphQLObjectTypeConfig) (w w' : World)
    (before after : GraphQLFieldConfigMap) (fieldName : string)
    (fieldConfig : dyn GraphQLFieldConfig) :
  obj__fields this = Bound config →
  resolveObjMapThunk (oc_fields config) w
    = (w', Ok (Is (before ++ (fieldName, fieldConfig) :: after))) →
  Forall (λ e, ∃ field, defineField (oc_name config) e.2 e.1 = Ok field) before →
  (∀ v, fieldConfig = Not v →
     GraphQLObjectType_getFields this w
     = (w', Throw (Error [Interp (oc_name config); Lit "."; Lit fieldName;
                          Lit " field config must be an object."])))
  ∧ (∀ c, fieldConfig = Is c →
       nullish (fc_resolve c) || typeof_function (fc_resolve c) = false →
       GraphQLObjectType_getFields this w
       = (w', Throw (Error [Interp (oc_name config); Lit "."; Lit fieldName;
                            Lit " field resolver must be a function if provided, but got: ";
                            Inspect (fc_resolve c); Lit "."])))
  ∧ (∀ c v, fieldConfig = Is c →
       nullish (fc_resolve c) || typeof_function (fc_resolve c) = true →
       args_or_empty (fc_args c) = Not v →
       GraphQLObjectType_getFields this w
       = (w', Throw (Error [Interp (oc_name config); Lit "."; Lit fieldName;
                            Lit " args must be an object with argument names as keys."]))).
Proof.
  intros Hcell Hthunk Hbefore.
  assert (Hget : ∀ e, defineField (oc_name config) fieldConfig fieldName = Throw e →
                      GraphQLObjectType_getFields this w = (w', Throw e)).
  { intros e He. rewrite (Object_getFields_pending _ _ _ Hcell).
    unfold defineFieldMap, mbind, M_bind. simpl config_fields. rewrite Hthunk. simpl.
    unfold lift. by rewrite (mapValue_first_throw _ _ _ _ _ e Hbefore He). }
  split_and!.
  - intros v ->. by apply Hget.
  - intros c -> Hres. apply Hget. unfold defineField. simpl. by rewrite Hres.
  - intros c v -> Hres Hargs. apply Hget. unfold defineField. simpl.
    by rewrite Hres, Hargs.
Qed.

Lemma first_invalid_field_is_reported_witness :
  GraphQLObjectType_getFields (objectType User_config) world0
  = ({| env := ∅; calls := [12] |},
     Throw (Error [Interp (Str "User"); Lit "."; Lit "friends";
                   Lit " field resolver must be a function if provided, but got: ";
                   Inspect (Str "friends"); Lit "."])).
Proof.
  destruct (first_invalid_field_is_reported (objectType User_config)
              User_config world0 {| env := ∅; calls := [12] |}
              [("id", Is (fieldConfig (TypeObj (ScalarType 3)) (Not Undefined) Undefined))]
              [] "friends"
              (Is (fieldConfig (TypeObj (List (ObjectType 5))) (Is friends_args)
                     (Str "friends")))) as (_ & Hresolver & _).
  - reflexivity.
  - reflexivity.
  - constructor; [|constructor]. eexists. reflexivity.
  - apply (Hresolver _ eq_refl). reflexivity.
Defined.

(** X11: the arguments that [defineArguments] makes of an argument map are
    named after its keys, in their order; [argsToArgsConfig] gives an
    argument map with those keys back, and [defineArguments] of that is the
    same list of arguments; an argument is required exactly when its
    configured type is a non-null type and its configured default value is
    [undefined]. *)
Theorem arguments_round_trip (config : GraphQLFieldConfigArgumentMap) :
  ObjMap_wf config →
  arg_name <$> defineArguments config = config.*1
  ∧ (argsToArgsConfig (defineArguments config)).*1 = config.*1
  ∧ defineArguments (argsToArgsConfig (defineArguments config)) = defineArguments config
  ∧ Forall2 (λ arg entry,
       isRequiredArgument arg
       = isNonNullType (ac_type entry.2) && bool_decide (ac_defaultValue entry.2 = Undefined))
      (defineArguments config) config.
Proof.
  intros Hwf. pose proof (defineArguments_arg_names config) as Hnames.
  assert (Hnd : NoDup (arg_name <$> defineArguments config)) by by rewrite Hnames.
  split_and!; [done| |by apply defineArguments_again|].
  - unfold argsToArgsConfig. rewrite keyValMap_NoDup by done.
    rewrite <- list_fmap_compose. by rewrite <- Hnames.
  - unfold defineArguments. clear. induction config as [|[k c] config IH]; constructor; done.
Qed.

Lemma arguments_round_trip_witness :
  arg_name <$> defineArguments friends_args = friends_args.*1
  ∧ (argsToArgsConfig (defineArguments friends_args)).*1 = friends_args.*1
  ∧ defineArguments (argsToArgsConfig (defineArguments friends_args))
    = defineArguments friends_args
  ∧ Forall2 (λ arg entry,
       isRequiredArgument arg
       = isNonNullType (ac_type entry.2) && bool_decide (ac_defaultValue entry.2 = Undefined))
      (defineArguments friends_args) friends_args.
Proof.
  apply (arguments_round_trip friends_args).
  unfold ObjMap_wf. apply (bool_decide_unpack _). vm_compute. exact I.
Defined.

(** ** Laziness *)

Lemma M_bind_Throw {A B : Type} (m : M A) (f : A → M B) (w w' : World) (e : exn) :
  m w = (w', Throw e) → (m ≫= f) w = (w', Throw e).
Proof. unfold mbind, M_bind. by intros ->. Qed.

Lemma M_bind_inv {A B : Type} (m : M A) (f : A → M B) (w w' : World) (b : B) :
  (m ≫= f) w = (w', Ok b) → ∃ w1 a, m w = (w1, Ok a) ∧ f a w1 = (w', Ok b).
Proof.
  unfold mbind, M_bind. destruct (m w) as [w1 [a|e]]; [|done]. eauto.
Qed.


(** X12: a type that a constructor has just returned is unresolved: its
    member is still bound to the configuration, no thunk has run, and the
    first call of the accessor is what runs the defining function on the
    configuration; the constructor of an input object type accepts every
    configuration whose name is a string, whatever its fields. *)
Theorem new_types_are_unresolved
    (a : Accessor) (config : configuration a) (this : receiver a) :
  construct a config = Ok this →
  member a this = Bound config
  ∧ resolved a this = None
  ∧ pending_thunk a this = configured_thunk a config
  ∧ (∀ w, call a this w =
          match define a config w with
          | (w', Ok value) => (w', Ok (assign a this (Settled value), value))
          | (w', Throw e) => (w', Throw e)
          end)
  ∧ (∀ ioc, typeof_string (ioc_name ioc) = true →
            ∃ io, GraphQLInputObjectType_new ioc = Ok io ∧ io__fields io = Bound ioc).
Proof.
  intros Hnew.
  assert (Hm : member a this = Bound config).
  { destruct a; simpl in *;
      unfold GraphQLObjectType_new, GraphQLInterfaceType_new, GraphQLUnionType_new,
        GraphQLInputObjectType_new in Hnew;
      repeat match type of Hnew with
        | context [devAssert ?c ?m] => destruct c; simpl in Hnew; [|done]
        end;
      by injection Hnew as <-. }
  unfold resolved, pending_thunk. rewrite Hm. split_and!; try done.
  - intros w. by apply call_pending.
  - intros ioc Hstr. unfold GraphQLInputObjectType_new. rewrite Hstr. simpl. eauto.
Qed.

Lemma new_types_are_unresolved_witness :
  member InputObject_getFields GeoPoint
  = Bound (inputObjectTypeConfig "GeoPoint" (Producer 7 (λ _, Is GeoPoint_fields)))
  ∧ resolved InputObject_getFields GeoPoint = None
  ∧ pending_thunk InputObject_getFields GeoPoint
    = configured_thunk InputObject_getFields
        (inputObjectTypeConfig "GeoPoint" (Producer 7 (λ _, Is GeoPoint_fields)))
  ∧ (∀ w, call InputObject_getFields GeoPoint w =
          match define InputObject_getFields
                  (inputObjectTypeConfig "GeoPoint" (Producer 7 (λ _, Is GeoPoint_fields))) w
          with
          | (w', Ok value) =>
              (w', Ok (assign InputObject_getFields GeoPoint (Settled value), value))
          | (w', Throw e) => (w', Throw e)
          end)
  ∧ (∀ ioc, typeof_string (ioc_name ioc) = true →
            ∃ io, GraphQLInputObjectType_new ioc = Ok io ∧ io__fields io = Bound ioc).
Proof.
  apply (new_types_are_unresolved InputObject_getFields
           (inputObjectTypeConfig "GeoPoint" (Producer 7 (λ _, Is GeoPoint_fields)))
           GeoPoint).
  reflexivity.
Defined.



(** X14: [toConfig] of an unresolved object type whose interfaces and
    fields were supplied as thunks runs the thunk of the interfaces, then
    the thunk of the fields, each once; when the interfaces cannot be
    resolved the thunk of the fields does not run.  The type is resolved
    afterwards, the configuration returned holds the interfaces and the
    fields themselves and no thunk, with the keys of the fields in their
    order, and a further [toConfig] returns the same configuration and
    runs no thunk. *)
Theorem Object_toConfig_forces_members
    (this : GraphQLObjectType) (cf ci : GraphQLObjectTypeConfig) (w : World) (i f : Ref) :
  obj__interfaces this = Bound ci →
  obj__fields this = Bound cf →
  configured_thunk Object_getInterfaces ci = Some i →
  configured_thunk Object_getFields cf = Some f →
  (∀ w1 e, GraphQLObjectType_getInterfaces this w = (w1, Throw e) →
           GraphQLObjectType_toConfig this w = (w1, Throw e)
           ∧ calls w1 = calls w ++ [i])
  ∧ (∀ w' this' config',
       GraphQLObjectType_toConfig this w = (w', Ok (this', config')) →
       w' = {| env := env w; calls := calls w ++ [i; f] |}
       ∧ (∃ interfaces fields fieldConfigs,
            obj__interfaces this' = Settled interfaces
            ∧ obj__fields this' = Settled fields
            ∧ oc_interfaces config' = Given (Direct (Is interfaces))
            ∧ oc_fields config' = Direct (Is fieldConfigs)
            ∧ fieldConfigs.*1 = fields.*1)
       ∧ ∀ w'', GraphQLObjectType_toConfig this' w'' = (w'', Ok (this', config'))).
Proof.
  intros Hci Hcf Hi Hf. split.
  - intros w1 e Hthrow. split.
    + unfold GraphQLObjectType_toConfig. by apply M_bind_Throw.
    + rewrite (Object_getInterfaces_pending _ _ _ Hci) in Hthrow.
      pose proof (define_world Object_getInterfaces ci w) as Hw. rewrite Hi in Hw.
      simpl in Hw. destruct (defineInterfaces ci w) as [? [?|?]]; [done|].
      injection Hthrow as -> _. simpl in Hw. by subst.
  - intros w' this' config' Hto. unfold GraphQLObjectType_toConfig in Hto.
    apply M_bind_inv in Hto as (w1 & [t1 interfaces] & Hgi & Hrest).
    apply M_bind_inv in Hrest as (w2 & [t2 fields] & Hgf & Hrest).
    apply M_bind_inv in Hrest as (w3 & fieldConfigs & Hconf & Hret).
    unfold fieldsToFieldsConfig in Hconf.
    assert (Hmv : mapValue fields (λ field _, Ok (Is (fieldToFieldConfig field)))
                  = Ok (prod_map id (Is ∘ fieldToFieldConfig) <$> fields))
      by apply (mapValue_total (Is ∘ fieldToFieldConfig)).
    rewrite Hmv in Hconf. clear Hmv.
    unfold lift in Hconf. injection Hconf as <- <-.
    unfold mret, M_ret in Hret. injection Hret as <- <- <-.
    (* the interfaces *)
    rewrite (Object_getInterfaces_pending _ _ _ Hci) in Hgi.
    pose proof (define_world Object_getInterfaces ci w) as Hw1. rewrite Hi in Hw1.
    simpl in Hw1. destruct (defineInterfaces ci w) as [? [?|?]]; [|done].
    injection Hgi as -> <- ->. simpl in Hw1. subst w1.
    (* the fields *)
    erewrite Object_getFields_pending in Hgf; [|exact Hcf].
    match type of Hgf with context [defineFieldMap cf ?v] =>
      pose proof (define_world Object_getFields cf v) as Hw2 end.
    rewrite Hf in Hw2. simpl in Hw2.
    match type of Hgf with context [defineFieldMap cf ?v] =>
      destruct (defineFieldMap cf v) as [? [?|?]]; [|done] end.
    injection Hgf as -> <- ->. simpl in Hw2. subst w2.
    split_and!.
    + by rewrite <- app_assoc.
    + eexists _, _, _. split_and!; try reflexivity.
      rewrite <- list_fmap_compose. apply list_fmap_ext. by intros _ [] _.
    + intros w''.
      by erewrite Object_toConfig_resolved; [|reflexivity..].
Qed.

Lemma Object_toConfig_forces_members_witness :
  ∃ w' this' config',
    GraphQLObjectType_toConfig (objectType Member_config) world0 = (w', Ok (this', config'))
    ∧ w' = {| env := env world0; calls := calls world0 ++ [11; 12] |}
    ∧ (∃ interfaces fields fieldConfigs,
         obj__interfaces this' = Settled interfaces
         ∧ obj__fields this' = Settled fields
         ∧ oc_interfaces config' = Given (Direct (Is interfaces))
         ∧ oc_fields config' = Direct (Is fieldConfigs)
         ∧ fieldConfigs.*1 = fields.*1)
    ∧ ∀ w'', GraphQLObjectType_toConfig this' w'' = (w'', Ok (this', config')).
Proof.
  destruct (GraphQLObjectType_toConfig (objectType Member_config) world0)
    as [w' [[this' config']|e]] eqn:Hto; [|discriminate Hto].
  exists w', this', config'. split; [reflexivity|].
  apply (proj2 (Object_toConfig_forces_members (objectType Member_config)
                  Member_config Member_config world0 11 12
                  eq_refl eq_refl eq_refl eq_refl)).
  exact Hto.
Defined.




(** ** More round trips through [toConfig] *)

Lemma Interface_getFields_resolved (this : GraphQLInterfaceType) (fields : GraphQLFieldMap)
    (w : World) :
  itf__fields this = Settled fields →
  GraphQLInterfaceType_getFields this w = (w, Ok (this, fields)).
Proof. exact (call_resolved Interface_getFields this fields w). Qed.

Lemma Interface_getInterfaces_resolved (this : GraphQLInterfaceType)
    (interfaces : list mixed) (w : World) :
  itf__interfaces this = Settled interfaces →
  GraphQLInterfaceType_getInterfaces this w = (w, Ok (this, interfaces)).
Proof. exact (call_resolved Interface_getInterfaces this interfaces w). Qed.

Lemma Interface_getFields_pending (this : GraphQLInterfaceType)
    (config : GraphQLInterfaceTypeConfig) (w : World) :
  itf__fields this = Bound config →
  GraphQLInterfaceType_getFields this w =
    match defineFieldMap config w with
    | (w', Ok fields) => (w', Ok (itf_set__fields this (Settled fields), fields))
    | (w', Throw e) => (w', Throw e)
    end.
Proof. exact (call_pending Interface_getFields this config w). Qed.

Lemma Interface_getInterfaces_pending (this : GraphQLInterfaceType)
    (config : GraphQLInterfaceTypeConfig) (w : World) :
  itf__interfaces this = Bound config →
  GraphQLInterfaceType_getInterfaces this w =
    match defineInterfaces config w with
    | (w', Ok interfaces) =>
        (w', Ok (itf_set__interfaces this (Settled interfaces), interfaces))
    | (w', Throw e) => (w', Throw e)
    end.
Proof. exact (call_pending Interface_getInterfaces this config w). Qed.

Lemma Interface_toConfig_resolved (this : GraphQLInterfaceType)
    (fields : GraphQLFieldMap) (interfaces : list mixed) (w : World) :
  itf__fields this = Settled fields →
  itf__interfaces this = Settled interfaces →
  GraphQLInterfaceType_toConfig this w
  = (w, Ok (this,
            {| ic_name := itf_name this;
               ic_description := itf_description this;
               ic_interfaces := Given (Direct (Is interfaces));
               ic_fields := Direct (Is (prod_map id (Is ∘ fieldToFieldConfig) <$> fields));
               ic_resolveType := itf_resolveType this;
               ic_extensions := itf_extensions this;
               ic_astNode := itf_astNode this;
               ic_extensionASTNodes := Given (itf_extensionASTNodes this) |})).
Proof.
  intros Hf Hi. unfold GraphQLInterfaceType_toConfig.
  rewrite (M_bind_Ok _ _ _ _ _ (Interface_getInterfaces_resolved _ _ w Hi)). cbv beta iota.
  rewrite (M_bind_Ok _ _ _ _ _ (Interface_getFields_resolved _ _ w Hf)). cbv beta iota.
  unfold fieldsToFieldsConfig.
  by rewrite (M_bind_lift_Ok _ _ _ _ (mapValue_total (Is ∘ fieldToFieldConfig) fields)).
Qed.

(** X16: whenever an interface type can be built and its fields and
    interfaces forced, building a second type from its [toConfig()] and
    forcing it succeeds without running any thunk, and the second type has
    the properties, the fields and the interfaces of the first. *)
Theorem Interface_round_trip_same (config : GraphQLInterfaceTypeConfig)
    (first first1 first2 : GraphQLInterfaceType) (w w1 w2 : World)
    (fields : GraphQLFieldMap) (interfaces : list mixed) :
  GraphQLInterfaceType_new config = Ok first →
  GraphQLInterfaceType_getFields first w = (w1, Ok (first1, fields)) →
  GraphQLInterfaceType_getInterfaces first1 w1 = (w2, Ok (first2, interfaces)) →
  Forall (λ e, NoDup (arg_name <$> fld_args e.2)) fields →
  ∃ second,
    Interface_round_trip config w = (w2, Ok (first2, second))
    ∧ same_resolved_interface first2 second.
Proof.
  intros Hnew Hfields Hinterfaces Hargs. unfold Interface_round_trip.
  rewrite (M_bind_lift_Ok _ _ _ _ Hnew), (M_bind_Ok _ _ _ _ _ Hfields). cbv beta iota.
  rewrite (M_bind_Ok _ _ _ _ _ Hinterfaces). cbv beta iota.
  unfold GraphQLInterfaceType_new in Hnew.
  destruct (typeof_string (ic_name config)) eqn:Hstr; simpl in Hnew; [|done].
  destruct (nullish (ic_resolveType config) || typeof_function (ic_resolveType config))
    eqn:HresolveType; simpl in Hnew; [|done].
  injection Hnew as <-.
  match type of Hfields with GraphQLInterfaceType_getFields ?t _ = _ =>
    set (first := t) in * end.
  pose proof (Interface_getFields_pending first config w eq_refl) as Hcall.
  rewrite Hfields in Hcall.
  destruct (defineFieldMap config w) as [w1' [fields0|e]] eqn:Hdef; [|done].
  injection Hcall as <- -> <-.
  pose proof (Interface_getInterfaces_pending (itf_set__fields first (Settled fields))
                config w1 eq_refl) as Hcall.
  rewrite Hinterfaces in Hcall.
  destruct (defineInterfaces config w1) as [w2' [interfaces0|e]] eqn:Hdefi; [|done].
  injection Hcall as <- -> <-.
  destruct (defineFieldMap_Ok_gen _ _ _ _ Hdef) as (fieldMap & _ & Hall).
  set (first2 := itf_set__interfaces (itf_set__fields first (Settled fields))
                   (Settled interfaces)).
  rewrite (M_bind_Ok _ _ _ _ _
             (Interface_toConfig_resolved first2 fields interfaces w2 eq_refl eq_refl)).
  cbv beta iota.
  erewrite M_bind_lift_Ok; cycle 1.
  { unfold GraphQLInterfaceType_new. simpl ic_name. simpl ic_resolveType.
    rewrite Hstr, HresolveType. reflexivity. }
  erewrite M_bind_Ok; cycle 1.
  { erewrite Interface_getFields_pending; [|reflexivity].
    unfold defineFieldMap. simpl.
    replace (mapValue (prod_map id (Is ∘ fieldToFieldConfig) <$> fields)
               (defineField (ic_name config)))
      with (Ok fields : result GraphQLFieldMap); [reflexivity|].
    symmetry. apply mapValue_Ok_Forall2.
    clear -Hall Hargs. simpl in Hall.
    induction Hall as [|[k c] [k' f] ?? [Hk Hf] _ IH]; simpl in *; [constructor|].
    apply Forall_cons in Hargs as [Hnd Hargs].
    subst k'. constructor; [|by apply IH]. simpl. split; [done|].
    by apply defineField_again with (ic_name config) c. }
  cbv beta iota.
  erewrite M_bind_Ok; cycle 1.
  { erewrite Interface_getInterfaces_pending; [|reflexivity].
    unfold defineInterfaces. simpl. reflexivity. }
  cbv beta iota.
  eexists. split; [reflexivity|].
  unfold same_resolved_interface. simpl.
  rewrite and_toObjMap_idemp. split_and!; eauto.
Qed.

Lemma Interface_round_trip_same_witness :
  ∃ first second,
    Interface_round_trip Node_config world0
    = ({| env := ∅; calls := [13] |}, Ok (first, second))
    ∧ same_resolved_interface first second.
Proof.
  edestruct (Interface_round_trip_same Node_config) as (second & Htrip & Hsame).
  - reflexivity.
  - reflexivity.
  - reflexivity.
  - repeat constructor.
  - eexists _, second. split; [exact Htrip|exact Hsame].
Defined.

Lemma Union_getTypes_resolved (this : GraphQLUnionType) (types : list mixed) (w : World) :
  uni__types this = Settled types →
  GraphQLUnionType_getTypes this w = (w, Ok (this, types)).
Proof. exact (call_resolved Union_getTypes this types w). Qed.

Lemma Union_getTypes_pending (this : GraphQLUnionType)
    (config : GraphQLUnionTypeConfig) (w : World) :
  uni__types this = Bound config →
  GraphQLUnionType_getTypes this w =
    match defineTypes config w with
    | (w', Ok types) => (w', Ok (uni_set__types this (Settled types), types))
    | (w', Throw e) => (w', Throw e)
    end.
Proof. exact (call_pending Union_getTypes this config w). Qed.

Lemma Union_toConfig_resolved (this : GraphQLUnionType) (types : list mixed) (w : World) :
  uni__types this = Settled types →
  GraphQLUnionType_toConfig this w
  = (w, Ok (this,
            {| uc_name := uni_name this;
               uc_description := uni_description this;
               uc_types := Direct (Is types);
               uc_resolveType := uni_resolveType this;
               uc_extensions := uni_extensions this;
               uc_astNode := uni_astNode this;
               uc_extensionASTNodes := Given (uni_extensionASTNodes this) |})).
Proof.
  intros Ht. unfold GraphQLUnionType_toConfig.
  by rewrite (M_bind_Ok _ _ _ _ _ (Union_getTypes_resolved _ _ w Ht)).
Qed.

(** X17: whenever a union type can be built and its member types forced,
    building a second type from its [toConfig()] and forcing it succeeds
    without running any thunk, and the second type has the properties and
    the member types of the first, in their order. *)
Theorem Union_round_trip_same (config : GraphQLUnionTypeConfig)
    (first first1 : GraphQLUnionType) (w w1 : World) (types : list mixed) :
  GraphQLUnionType_new config = Ok first →
  GraphQLUnionType_getTypes first w = (w1, Ok (first1, types)) →
  ∃ second,
    Union_round_trip config w = (w1, Ok (first1, second))
    ∧ same_resolved_union first1 second.
Proof.
  intros Hnew Htypes. unfold Union_round_trip.
  rewrite (M_bind_lift_Ok _ _ _ _ Hnew), (M_bind_Ok _ _ _ _ _ Htypes). cbv beta iota.
  unfold GraphQLUnionType_new in Hnew.
  destruct (typeof_string (uc_name config)) eqn:Hstr; simpl in Hnew; [|done].
  destruct (nullish (uc_resolveType config) || typeof_function (uc_resolveType config))
    eqn:HresolveType; simpl in Hnew; [|done].
  injection Hnew as <-.
  match type of Htypes with GraphQLUnionType_getTypes ?t _ = _ => set (first := t) in * end.
  pose proof (Union_getTypes_pending first config w eq_refl) as Hcall.
  rewrite Htypes in Hcall.
  destruct (defineTypes config w) as [w1' [types0|e]] eqn:Hdef; [|done].
  injection Hcall as <- -> <-.
  rewrite (M_bind_Ok _ _ _ _ _
             (Union_toConfig_resolved (uni_set__types first (Settled types)) types w1
                eq_refl)).
  cbv beta iota.
  erewrite M_bind_lift_Ok; cycle 1.
  { unfold GraphQLUnionType_new. simpl uc_name. simpl uc_resolveType.
    rewrite Hstr, HresolveType. reflexivity. }
  erewrite M_bind_Ok; cycle 1.
  { erewrite Union_getTypes_pending; [|reflexivity].
    unfold defineTypes. simpl. reflexivity. }
  cbv beta iota.
  eexists. split; [reflexivity|].
  unfold same_resolved_union. simpl.
  rewrite and_toObjMap_idemp. split_and!; eauto.
Qed.

Lemma Union_round_trip_same_witness :
  ∃ first second,
    Union_round_trip Pet_config world0
    = ({| env := ∅; calls := [14] |}, Ok (first, second))
    ∧ same_resolved_union first second.
Proof.
  edestruct (Union_round_trip_same Pet_config) as (second & Htrip & Hsame).
  - reflexivity.
  - reflexivity.
  - eexists _, second. split; [exact Htrip|exact Hsame].
Defined.

Lemma InputObject_round_trip_fields_witness :
  InputObject_round_trip Altitude_config world0
  = (world0,
     Ok ([("alt", inputField "alt" Float (Str "use height"))],
         prod_map id without_deprecationReason
           <$> [("alt", inputField "alt" Float (Str "use height"))])).
Proof.
  apply (InputObject_round_trip_fields Altitude_config (inputObjectType Altitude_config)
           (io_set__fields (inputObjectType Altitude_config)
              (Settled [("alt", inputField "alt" Float (Str "use height"))]))).
  - reflexivity.
  - reflexivity.
Defined.

(** ** More on the enum codec *)

Lemma keyMap_lookup_None {T : Type} (l : list T) (keyFn : T → string) (name : string) :
  keyMap l keyFn !! name = None ↔ name ∉ keyFn <$> l.
Proof.
  unfold keyMap. induction l as [|a l IH] using rev_ind.
  - split; [intros _ Hin; by apply elem_of_nil in Hin|done].
  - rewrite foldl_app, fmap_app. simpl. rewrite not_elem_of_app.
    destruct (decide (keyFn a = name)) as [<-|Hne].
    + rewrite lookup_insert_eq. split; [done|]. intros [_ Hnot].
      exfalso. apply Hnot. apply list_elem_of_singleton. done.
    + rewrite lookup_insert_ne by done. rewrite IH. split.
      * intros Hnot. split; [done|]. intros Hin%list_elem_of_singleton. done.
      * by intros [? _].
Qed.

Lemma enum_names (config : GraphQLEnumTypeConfig) (this : GraphQLEnumType)
    (valueMap : GraphQLEnumValueConfigMap) :
  GraphQLEnumType_new config = Ok this →
  ec_values config = Is valueMap →
  ev_name <$> enum__values this = valueMap.*1.
Proof.
  intros (valueMap' & Hv & Hall & _)%GraphQLEnumType_new_Ok Hmap.
  rewrite Hmap in Hv. injection Hv as <-. clear Hmap.
  induction Hall as [|entry ev ?? Hd _ IH]; [done|].
  rewrite !fmap_cons. f_equal; [|done].
  by apply (defineEnumValue_name (ec_name config)).
Qed.

Lemma getValue_Some_iff (config : GraphQLEnumTypeConfig)
    (valueMap : GraphQLEnumValueConfigMap) (this : GraphQLEnumType)
    (name : string) (r : GraphQLEnumValue) :
  GraphQLEnumType_new config = Ok this →
  ec_values config = Is valueMap →
  ObjMap_wf valueMap →
  GraphQLEnumType_getValue this name = Some r
  ↔ r ∈ GraphQLEnumType_getValues this ∧ ev_name r = name.
Proof.
  intros Hnew Hmap Hwf. split.
  - unfold GraphQLEnumType_getValue.
    destruct (GraphQLEnumType_new_Ok _ _ Hnew) as (_ & _ & _ & _ & ->).
    intros (x & Hin & Hname & Hx)%(build_lookup_Some ev_name id). simpl in Hx.
    by subst.
  - intros [Hin <-]. by apply (nameLookup_elem config this valueMap).
Qed.

Lemma getValue_None_iff (config : GraphQLEnumTypeConfig)
    (valueMap : GraphQLEnumValueConfigMap) (this : GraphQLEnumType) (name : string) :
  GraphQLEnumType_new config = Ok this →
  ec_values config = Is valueMap →
  GraphQLEnumType_getValue this name = None ↔ name ∉ valueMap.*1.
Proof.
  intros Hnew Hmap. pose proof (enum_names _ _ _ Hnew Hmap) as Hnames.
  unfold GraphQLEnumType_getValue.
  destruct (GraphQLEnumType_new_Ok _ _ Hnew) as (_ & _ & _ & _ & ->).
  rewrite keyMap_lookup_None. by rewrite Hnames.
Qed.

(** X18: the value records of an enum type are named after the keys of
    the value map, in their order, and [getValue] finds under a name the
    record with that name, and nothing under a name that is no key. *)
Theorem enum_values_follow_the_value_map
    (config : GraphQLEnumTypeConfig) (valueMap : GraphQLEnumValueConfigMap)
    (this : GraphQLEnumType) :
  GraphQLEnumType_new config = Ok this →
  ec_values config = Is valueMap →
  ObjMap_wf valueMap →
  ev_name <$> GraphQLEnumType_getValues this = valueMap.*1
  ∧ (∀ name r, GraphQLEnumType_getValue this name = Some r
               ↔ r ∈ GraphQLEnumType_getValues this ∧ ev_name r = name)
  ∧ (∀ name, GraphQLEnumType_getValue this name = None ↔ name ∉ valueMap.*1).
Proof.
  intros Hnew Hmap Hwf. split_and!.
  - by apply (enum_names config).
  - intros name r. by apply (getValue_Some_iff config valueMap).
  - intros name. by apply (getValue_None_iff config).
Qed.

Lemma enum_values_follow_the_value_map_witness :
  ev_name <$> GraphQLEnumType_getValues Shade = Shade_values.*1
  ∧ (∀ name r, GraphQLEnumType_getValue Shade name = Some r
               ↔ r ∈ GraphQLEnumType_getValues Shade ∧ ev_name r = name)
  ∧ (∀ name, GraphQLEnumType_getValue Shade name = None ↔ name ∉ Shade_values.*1).
Proof.
  apply (enum_values_follow_the_value_map (enumTypeConfig "Shade" Shade_values)
           Shade_values Shade).
  - vm_compute. reflexivity.
  - reflexivity.
  - unfold ObjMap_wf. apply (bool_decide_unpack _). vm_compute. exact I.
Defined.



(** X20: [parseValue] returns a value exactly for the strings that are the
    name of a value record, and the value is the internal value of the
    record with that name; for a string that is no such name it throws the
    error that the value does not exist in the enum, and for a value that
    is not a string the error that the enum cannot represent a non-string
    value, both with the suggestions drawn from all the names. *)
Theorem parseValue_accepts_registered_names_only
    (config : GraphQLEnumTypeConfig) (valueMap : GraphQLEnumValueConfigMap)
    (this : GraphQLEnumType) (inputValue : mixed) :
  GraphQLEnumType_new config = Ok this →
  ec_values config = Is valueMap →
  ObjMap_wf valueMap →
  ((∃ value, GraphQLEnumType_parseValue this inputValue = Ok value)
   ↔ ∃ name, inputValue = Str name ∧ name ∈ valueMap.*1)
  ∧ (∀ name value, inputValue = Str name →
       GraphQLEnumType_parseValue this inputValue = Ok value →
       ∃ r, r ∈ GraphQLEnumType_getValues this ∧ ev_name r = name ∧ ev_value r = value)
  ∧ (∀ name, inputValue = Str name → name ∉ valueMap.*1 →
       GraphQLEnumType_parseValue this inputValue
       = Throw (GraphQLError
                  [Lit "Value "; Quoted (Lit name); Lit " does not exist in ";
                   Quoted (Interp (ec_name config)); Lit " enum.";
                   DidYouMeanEnumValue valueMap.*1 (Lit name)] None))
  ∧ (typeof_string inputValue = false →
       GraphQLEnumType_parseValue this inputValue
       = Throw (GraphQLError
                  [Lit "Enum "; Quoted (Interp (ec_name config));
                   Lit " cannot represent non-string value: "; Inspect inputValue; Lit ".";
                   DidYouMeanEnumValue valueMap.*1 (Inspect inputValue)] None)).
Proof.
  intros Hnew Hmap Hwf.
  pose proof (enum_names _ _ _ Hnew Hmap) as Hnames.
  pose proof (λ name r, proj1 (getValue_Some_iff config valueMap this name r Hnew Hmap Hwf))
    as Hsome.
  pose proof (λ name, getValue_None_iff config valueMap this name Hnew Hmap) as Hnone.
  assert (Hname : enum_name this = ec_name config).
  { revert Hnew. unfold GraphQLEnumType_new.
    destruct (defineEnumValues _ _); simpl; [|done].
    destruct (typeof_string _); simpl; [|done]. by intros [= <-]. }
  assert (Hall : allNames this = valueMap.*1) by done.
  split_and!.
  - split.
    + intros [value Hparse]. destruct inputValue as [| | | |name| | | |]; try done.
      exists name. split; [done|]. simpl in Hparse.
      destruct (GraphQLEnumType_getValue this name) eqn:Hget; [|done].
      destruct (decide (name ∈ valueMap.*1)) as [|Hnot]; [done|].
      apply Hnone in Hnot. congruence.
    + intros (name & -> & Hin). simpl.
      destruct (GraphQLEnumType_getValue this name) eqn:Hget; [eauto|].
      apply Hnone in Hget. done.
  - intros name value -> Hparse. simpl in Hparse.
    destruct (GraphQLEnumType_getValue this name) as [r|] eqn:Hget; [|done].
    injection Hparse as <-. apply Hsome in Hget as [? ?]. eauto.
  - intros name -> Hnot. simpl. apply Hnone in Hnot. by rewrite Hnot, Hname, Hall.
  - intros Hstr. destruct inputValue; try done; simpl; by rewrite Hname, Hall.
Qed.

Lemma parseValue_accepts_registered_names_only_witness :
  (∃ value, GraphQLEnumType_parseValue Shade (Str "GREEN") = Ok value)
  ∧ GraphQLEnumType_parseValue Shade (Num 0)
    = Throw (GraphQLError
               [Lit "Enum "; Quoted (Interp (Str "Shade"));
                Lit " cannot represent non-string value: "; Inspect (Num 0); Lit ".";
                DidYouMeanEnumValue Shade_values.*1 (Inspect (Num 0))] None).
Proof.
  assert (Hwf : ObjMap_wf Shade_values).
  { unfold ObjMap_wf. apply (bool_decide_unpack _). vm_compute. exact I. }
  split.
  - apply (proj1 (parseValue_accepts_registered_names_only
             (enumTypeConfig "Shade" Shade_values) Shade_values Shade (Str "GREEN")
             ltac:(vm_compute; reflexivity) eq_refl Hwf)).
    exists "GREEN". split; [reflexivity|].
    apply list_elem_of_lookup_2 with 1. reflexivity.
  - apply (proj2 (proj2 (proj2 (parseValue_accepts_registered_names_only
             (enumTypeConfig "Shade" Shade_values) Shade_values Shade (Num 0)
             ltac:(vm_compute; reflexivity) eq_refl Hwf)))).
    reflexivity.
Defined.

(** X21: [parseLiteral] of an enum literal node returns what [parseValue]
    returns for the name text of the node, when that returns; it throws for
    an enum literal whose name is not registered and for every node of
    another kind; each error it throws carries the node; and the variables
    it is given make no difference. *)
Theorem parseLiteral_follows_parseValue
    (this : GraphQLEnumType) (valueNode : ValueNode) (variables : mixed) :
  (∀ name value, valueNode = EnumValueNode name →
     (GraphQLEnumType_parseLiteral this valueNode variables = Ok value
      ↔ GraphQLEnumType_parseValue this (Str name) = Ok value))
  ∧ (∀ r, valueNode = OtherValueNode r →
       GraphQLEnumType_parseLiteral this valueNode variables
       = Throw (GraphQLError
                  [Lit "Enum "; Quoted (Interp (enum_name this));
                   Lit " cannot represent non-enum value: "; Print valueNode; Lit ".";
                   DidYouMeanEnumValue (allNames this) (Print valueNode)]
                  (Some valueNode)))
  ∧ (∀ e, GraphQLEnumType_parseLiteral this valueNode variables = Throw e →
          ∃ m, e = GraphQLError m (Some valueNode))
  ∧ (∀ variables', GraphQLEnumType_parseLiteral this valueNode variables'
                   = GraphQLEnumType_parseLiteral this valueNode variables).
Proof.
  split_and!.
  - intros name value ->. simpl.
    by destruct (GraphQLEnumType_getValue this name).
  - by intros r ->.
  - intros e. destruct valueNode as [name|r]; simpl.
    + destruct (GraphQLEnumType_getValue this name); [done|]. intros [= <-]. eauto.
    + intros [= <-]. eauto.
  - done.
Qed.

Lemma parseLiteral_follows_parseValue_witness :
  GraphQLEnumType_parseLiteral Shade (EnumValueNode "BLUE") Undefined = Ok Null
  ∧ ∃ m, GraphQLError
           [Lit "Value "; Quoted (Print (EnumValueNode "PINK")); Lit " does not exist in ";
            Quoted (Interp (Str "Shade")); Lit " enum.";
            DidYouMeanEnumValue ["RED"; "GREEN"; "BLUE"; "GREY"] (Print (EnumValueNode "PINK"))]
           (Some (EnumValueNode "PINK"))
         = GraphQLError m (Some (EnumValueNode "PINK")).
Proof.
  split.
  - apply (proj1 (parseLiteral_follows_parseValue Shade (EnumValueNode "BLUE") Undefined)
             "BLUE" Null eq_refl).
    reflexivity.
  - apply (proj1 (proj2 (proj2
             (parseLiteral_follows_parseValue Shade (EnumValueNode "PINK") Undefined)))).
    reflexivity.
Defined.

Lemma defineEnumValue_not_undefined (typeName : mixed)
    (entry : string * dyn GraphQLEnumValueConfig) (value : GraphQLEnumValue) :
  defineEnumValue typeName entry = Ok value → ev_value value ≠ Undefined.
Proof.
  destruct entry as [valueName [valueConfig|v]]; simpl; [|done].
  intros [= <-]. simpl. case_bool_decide; done.
Qed.

(** X22: no value record of an enum type has [undefined] for its internal
    value: [serialize(undefined)] throws, and neither [parseValue] nor
    [parseLiteral] ever returns [undefined]. *)
Theorem enum_internal_value_is_never_undefined
    (config : GraphQLEnumTypeConfig) (this : GraphQLEnumType) :
  GraphQLEnumType_new config = Ok this →
  Forall (λ r, ev_value r ≠ Undefined) (GraphQLEnumType_getValues this)
  ∧ GraphQLEnumType_serialize this Undefined
    = Throw (GraphQLError
               [Lit "Enum "; Quoted (Interp (enum_name this));
                Lit " cannot represent value: "; Inspect Undefined] None)
  ∧ (∀ inputValue, GraphQLEnumType_parseValue this inputValue ≠ Ok Undefined)
  ∧ (∀ valueNode variables,
       GraphQLEnumType_parseLiteral this valueNode variables ≠ Ok Undefined).
Proof.
  intros Hnew.
  destruct (GraphQLEnumType_new_Ok _ _ Hnew) as (valueMap & _ & Hall & _ & Hnl).
  assert (Hvalues : Forall (λ r, ev_value r ≠ Undefined) (GraphQLEnumType_getValues this)).
  { unfold GraphQLEnumType_getValues. clear -Hall.
    induction Hall as [|entry ev ?? Hd _ IH]; constructor; [|done].
    by apply (defineEnumValue_not_undefined (ec_name config) entry). }
  assert (Hget : ∀ name r, GraphQLEnumType_getValue this name = Some r →
                           ev_value r ≠ Undefined).
  { intros name r. unfold GraphQLEnumType_getValue. rewrite Hnl.
    intros (x & Hin & _ & Hx)%(build_lookup_Some ev_name id). simpl in Hx. subst.
    by apply (proj1 (Forall_forall _ _) Hvalues). }
  split_and!; [done| | |].
  - unfold GraphQLEnumType_serialize.
    destruct (enum__valueLookup this !! Undefined) as [r|] eqn:Hr; [|done].
    destruct (valueLookup_Some config this Hnew _ _ Hr) as [Hin Hv].
    by destruct (proj1 (Forall_forall _ _) Hvalues r Hin).
  - intros [| | | |name| | | |]; try done. simpl.
    destruct (GraphQLEnumType_getValue this name) as [r|] eqn:Hr; [|done].
    intros [= Hv]. by apply (Hget name r).
  - intros [name|r0] variables; [|done]. simpl.
    destruct (GraphQLEnumType_getValue this name) as [r|] eqn:Hr; [|done].
    intros [= Hv]. by apply (Hget name r).
Qed.

Lemma enum_internal_value_is_never_undefined_witness :
  Forall (λ r, ev_value r ≠ Undefined) (GraphQLEnumType_getValues Shade)
  ∧ GraphQLEnumType_serialize Shade Undefined
    = Throw (GraphQLError
               [Lit "Enum "; Quoted (Interp (enum_name Shade));
                Lit " cannot represent value: "; Inspect Undefined] None)
  ∧ (∀ inputValue, GraphQLEnumType_parseValue Shade inputValue ≠ Ok Undefined)
  ∧ (∀ valueNode variables,
       GraphQLEnumType_parseLiteral Shade valueNode variables ≠ Ok Undefined).
Proof.
  apply (enum_internal_value_is_never_undefined (enumTypeConfig "Shade" Shade_values)).
  vm_compute. reflexivity.
Defined.

Lemma mapM_first_throw {A B : Type} (f : A → result B)
    (before after : list A) (x : A) (e : exn) :
  Forall (λ y, ∃ b, f y = Ok b) before →
  f x = Throw e →
  mapM f (before ++ x :: after) = Throw e.
Proof.
  intros Hbefore Hthrow.
  induction before as [|y before IH]; simpl.
  - by rewrite Hthrow.
  - apply Forall_cons in Hbefore as [[b Hb] Hbefore].
    rewrite Hb; simpl. by rewrite IH.
Qed.

(** X23: the constructor of an enum type returns a type exactly when the
    value map is an object, each of its values is an object and the name
    is a string, and the type then has one value record for each key;
    otherwise it throws, for a value map that is not an object first, then
    for the first value that is not an object, naming its key, and last for
    a name that is not a string. *)
Theorem enum_constructor_checks (config : GraphQLEnumTypeConfig) :
  ((∃ this, GraphQLEnumType_new config = Ok this)
   ↔ (∃ valueMap, ec_values config = Is valueMap
                  ∧ Forall (λ entry, isPlainObj entry.2 = true) valueMap)
     ∧ typeof_string (ec_name config) = true)
  ∧ (∀ this valueMap, GraphQLEnumType_new config = Ok this →
       ec_values config = Is valueMap →
       length (GraphQLEnumType_getValues this) = length valueMap)
  ∧ (∀ v, ec_values config = Not v →
       GraphQLEnumType_new config
       = Throw (Error [Interp (ec_name config);
                       Lit " values must be an object with value names as keys."]))
  ∧ (∀ before valueName v after,
       ec_values config = Is (before ++ (valueName, Not v) :: after) →
       Forall (λ entry, isPlainObj entry.2 = true) before →
       GraphQLEnumType_new config
       = Throw (Error [Interp (ec_name config); Lit "."; Lit valueName;
                       Lit " must refer to an object with a "; Quoted (Lit "value");
                       Lit " key "; Lit "representing an internal value but got: ";
                       Inspect v; Lit "."]))
  ∧ (∀ valueMap, ec_values config = Is valueMap →
       Forall (λ entry, isPlainObj entry.2 = true) valueMap →
       typeof_string (ec_name config) = false →
       GraphQLEnumType_new config = Throw (Error [Lit "Must provide name."])).
Proof.
  assert (Hplain : ∀ valueMap, Forall (λ entry, isPlainObj entry.2 = true) valueMap →
            ∃ values, mapM (defineEnumValue (ec_name config)) valueMap = Ok values).
  { intros valueMap Hall. induction Hall as [|[k [c|v]] valueMap Hc _ [values IH]];
      simpl in *; [by eexists| |done].
    rewrite IH. simpl. by eexists. }
  split_and!.
  - split.
    + intros [this Hnew]. split.
      * destruct (GraphQLEnumType_new_Ok _ _ Hnew) as (valueMap & Hmap & Hall & _).
        exists valueMap. split; [done|]. clear -Hall.
        induction Hall as [|[k [c|v]] ev ?? Hd _ IH]; constructor; done.
      * revert Hnew. unfold GraphQLEnumType_new.
        destruct (defineEnumValues _ _); simpl; [|done].
        by destruct (typeof_string _).
    + intros [(valueMap & Hmap & Hall) Hstr].
      destruct (Hplain valueMap Hall) as [values Hvalues].
      unfold GraphQLEnumType_new, defineEnumValues. rewrite Hmap. simpl.
      rewrite Hvalues. simpl. rewrite Hstr. simpl. by eexists.
  - intros this valueMap Hnew Hmap.
    destruct (GraphQLEnumType_new_Ok _ _ Hnew) as (valueMap' & Hmap' & Hall & _).
    rewrite Hmap in Hmap'. injection Hmap' as <-.
    symmetry. by apply Forall2_length in Hall.
  - intros v Hmap. unfold GraphQLEnumType_new, defineEnumValues. by rewrite Hmap.
  - intros before valueName v after Hmap Hbefore.
    unfold GraphQLEnumType_new, defineEnumValues. rewrite Hmap. simpl.
    erewrite mapM_first_throw; [reflexivity| |reflexivity].
    eapply Forall_impl; [exact Hbefore|]. intros [k [c|v']] Hc; [|done].
    simpl. by eexists.
  - intros valueMap Hmap Hall Hstr.
    destruct (Hplain valueMap Hall) as [values Hvalues].
    unfold GraphQLEnumType_new, defineEnumValues. rewrite Hmap. simpl.
    rewrite Hvalues. simpl. by rewrite Hstr.
Qed.

Lemma enum_constructor_checks_witness :
  (∃ this, GraphQLEnumType_new (enumTypeConfig "Shade" Shade_values) = Ok this)
  ∧ GraphQLEnumType_new Switch_config
    = Throw (Error [Interp (Num 7); Lit "."; Lit "OFF";
                    Lit " must refer to an object with a "; Quoted (Lit "value");
                    Lit " key "; Lit "representing an internal value but got: ";
                    Inspect (Bool false); Lit "."]).
Proof.
  split.
  - apply (proj2 (proj1 (enum_constructor_checks (enumTypeConfig "Shade" Shade_values)))).
    split; [|reflexivity].
    exists Shade_values. split; [reflexivity|]. repeat constructor.
  - apply (proj1 (proj2 (proj2 (proj2 (enum_constructor_checks Switch_config))))
             [("ON", Is (enumValueConfig None))] "OFF" (Bool false) []).
    + reflexivity.
    + repeat constructor.
Defined.

(** ** Input fields *)




(** ** Scalar types *)

(** X25: the constructor of a scalar type returns a type exactly when the
    name is a string, [specifiedByURL] is nullish or a string, [serialize]
    is nullish or a function, and [parseValue] and [parseLiteral] are both
    functions when [parseLiteral] is truthy; it reports the first of these
    that fails, in this order.  A [parseValue] that is not a function is
    accepted when [parseLiteral] is left out. *)
Theorem scalar_constructor_checks (config : GraphQLScalarTypeConfig) :
  let name_ok := typeof_string (sc_name config) in
  let url_ok := nullish (sc_specifiedByURL config)
                || typeof_string (sc_specifiedByURL config) in
  let serialize_ok := fn_nullish (sc_serialize config)
                      || fn_typeof_function (sc_serialize config) in
  let parsers_ok := negb (fn_truthy (sc_parseLiteral config))
                    || fn_typeof_function (sc_parseValue config)
                       && fn_typeof_function (sc_parseLiteral config) in
  ((∃ this, GraphQLScalarType_new config = Ok this)
   ↔ name_ok && url_ok && serialize_ok && parsers_ok = true)
  ∧ (name_ok = false →
     GraphQLScalarType_new config = Throw (Error [Lit "Must provide name."]))
  ∧ (name_ok = true → url_ok = false →
     GraphQLScalarType_new config
     = Throw (specifiedByURL_error (sc_name config) (sc_specifiedByURL config)))
  ∧ (name_ok = true → url_ok = true → serialize_ok = false →
     GraphQLScalarType_new config = Throw (serialize_error (sc_name config)))
  ∧ (name_ok = true → url_ok = true → serialize_ok = true → parsers_ok = false →
     GraphQLScalarType_new config = Throw (both_parsers_error (sc_name config))).
Proof.
  unfold GraphQLScalarType_new. cbv zeta.
  destruct (typeof_string (sc_name config)); simpl; [|by split_and!; [split; [intros []|]|..]].
  destruct (nullish (sc_specifiedByURL config) || typeof_string (sc_specifiedByURL config));
    simpl; [|by split_and!; [split; [intros []|]|..]].
  destruct (fn_nullish (sc_serialize config) || fn_typeof_function (sc_serialize config));
    simpl; [|by split_and!; [split; [intros []|]|..]].
  destruct (fn_truthy (sc_parseLiteral config)); simpl.
  - destruct (fn_typeof_function (sc_parseValue config)
              && fn_typeof_function (sc_parseLiteral config)); simpl.
    + split_and!; try done. split; [done|]. by eexists.
    + by split_and!; [split; [intros []|]|..].
  - split_and!; try done. split; [done|]. by eexists.
Qed.

Lemma scalar_constructor_checks_witness :
  (∃ this, GraphQLScalarType_new Even_config = Ok this)
  ∧ GraphQLScalarType_new (scalarTypeConfig "Even" Undefined (Num 2) (Fun 21))
    = Throw (both_parsers_error (Str "Even")).
Proof.
  split.
  - apply (proj2 (proj1 (scalar_constructor_checks Even_config))). reflexivity.
  - apply (proj2 (proj2 (proj2 (proj2
             (scalar_constructor_checks (scalarTypeConfig "Even" Undefined (Num 2) (Fun 21)))))));
      reflexivity.
Defined.

Lemma GraphQLScalarType_new_Ok (config : GraphQLScalarTypeConfig)
    (this : GraphQLScalarType) :
  GraphQLScalarType_new config = Ok this →
  typeof_string (sc_name config) = true
  ∧ nullish (sc_specifiedByURL config) || typeof_string (sc_specifiedByURL config) = true
  ∧ fn_nullish (sc_serialize config) || fn_typeof_function (sc_serialize config) = true
  ∧ negb (fn_truthy (sc_parseLiteral config))
    || fn_typeof_function (sc_parseValue config)
       && fn_typeof_function (sc_parseLiteral config) = true
  ∧ this = {| sca_name := sc_name config;
       sca_description := sc_description config;
       sca_specifiedByURL := sc_specifiedByURL config;
       sca_serialize := fn_nullish_or (sc_serialize config) identityFunc;
       sca_parseValue := fn_nullish_or (sc_parseValue config) identityFunc;
       sca_parseLiteral :=
         fn_nullish_or (sc_parseLiteral config)
           (parseLiteral_default (fn_nullish_or (sc_parseValue config) identityFunc));
       sca_extensions := and_toObjMap (sc_extensions config);
       sca_astNode := sc_astNode config;
       sca_extensionASTNodes := nullish_or (sc_extensionASTNodes config) [] |}.
Proof.
  unfold GraphQLScalarType_new. cbv zeta.
  destruct (typeof_string (sc_name config)); simpl; [|done].
  destruct (nullish (sc_specifiedByURL config) || typeof_string (sc_specifiedByURL config));
    simpl; [|done].
  destruct (fn_nullish (sc_serialize config) || fn_typeof_function (sc_serialize config));
    simpl; [|done].
  destruct (fn_truthy (sc_parseLiteral config)); simpl.
  - destruct (fn_typeof_function (sc_parseValue config)
              && fn_typeof_function (sc_parseLiteral config)); simpl; [|done].
    by intros [= <-].
  - by intros [= <-].
Qed.

(** X26: the round trip of a scalar type through [toConfig] gives the same
    scalar type, but for one case in which it throws: a scalar type built
    with a [parseValue] that is neither nullish nor a function and no
    [parseLiteral] got the default [parseLiteral], so its configuration has
    a [parseLiteral] and a [parseValue] that is not a function, which the
    constructor rejects. *)
Theorem scalar_round_trip_same_unless_parseValue_is_no_function
    (config : GraphQLScalarTypeConfig) (first : GraphQLScalarType) :
  GraphQLScalarType_new config = Ok first →
  Scalar_round_trip config
  = if fn_nullish (sc_parseLiteral config)
       && negb (fn_nullish (sc_parseValue config)
                || fn_typeof_function (sc_parseValue config))
    then Throw (both_parsers_error (sc_name config))
    else Ok (first, first).
Proof.
  intros Hnew. unfold Scalar_round_trip. rewrite Hnew. simpl.
  apply GraphQLScalarType_new_Ok in Hnew as (Hn & Hu & Hser & Hp & ->).
  unfold GraphQLScalarType_new, GraphQLScalarType_toConfig, fn_nullish_or. cbv zeta.
  cbn [sc_name sc_description sc_specifiedByURL sc_serialize sc_parseValue sc_parseLiteral
       sc_extensions sc_astNode sc_extensionASTNodes
       sca_name sca_description sca_specifiedByURL sca_serialize sca_parseValue
       sca_parseLiteral sca_extensions sca_astNode sca_extensionASTNodes nullish_or].
  rewrite Hn, Hu, and_toObjMap_idemp. cbn [devAssert mbind result_bind].
  destruct (fn_nullish (sc_serialize config)) eqn:Hns,
           (fn_nullish (sc_parseValue config)) eqn:Hnv,
           (fn_nullish (sc_parseLiteral config)) eqn:Hnl,
           (fn_truthy (sc_parseLiteral config)) eqn:Htl,
           (fn_typeof_function (sc_parseValue config)) eqn:Htv,
           (fn_typeof_function (sc_parseLiteral config)) eqn:Htl2;
    simpl in Hser, Hp; try discriminate;
    repeat (simpl; rewrite ?Hns, ?Hnv, ?Hnl, ?Htl, ?Htv, ?Htl2, ?Hser);
    try reflexivity.
Qed.

Lemma scalar_round_trip_same_unless_parseValue_is_no_function_witness :
  Scalar_round_trip Even_config = Throw (both_parsers_error (Str "Even"))
  ∧ ∃ first, Scalar_round_trip Odd_config = Ok (first, first).
Proof.
  split.
  - apply (scalar_round_trip_same_unless_parseValue_is_no_function Even_config
             {| sca_name := Str "Even";
                sca_description := Undefined;
                sca_specifiedByURL := Undefined;
                sca_serialize := identityFunc;
                sca_parseValue := Supplied (Num 2);
                sca_parseLiteral := parseLiteral_default (Supplied (Num 2));
                sca_extensions := Absent;
                sca_astNode := Undefined;
                sca_extensionASTNodes := [] |}).
    reflexivity.
  - eexists.
    apply (scalar_round_trip_same_unless_parseValue_is_no_function Odd_config).
    reflexivity.
Defined.

(** ** Printing types *)

Lemma append_last_inj (s t : string) (c d : Ascii.ascii) :
  s +:+ String c EmptyString = t +:+ String d EmptyString → s = t ∧ c = d.
Proof.
  revert t. induction s as [|a s IH]; intros [|b t]; simpl.
  - by intros [= ->].
  - intros [= _ H]. by destruct t.
  - intros [= _ H]. by destruct s.
  - intros [= -> H]. apply IH in H as [-> ->]. done.
Qed.

Lemma append_length (s t : string) :
  String.length (s +:+ t) = String.length s + String.length t.
Proof. induction s as [|a s IH]; simpl; [done|]. by rewrite IH. Qed.

Lemma toString_length (name : GraphQLType → string) (T : GraphQLType) :
  String.length (name (getNamedType_loop T)) ≤ String.length (toString name T)
  ∧ (isWrappingType (TypeObj T) = true →
     String.length (name (getNamedType_loop T)) < String.length (toString name T)).
Proof.
  induction T as [r|r|r|r|r|r|t [IH _]|t [IH _]]; simpl; try (split; [lia|done]).
  - rewrite !append_length. simpl. split; [lia|]. intros _. lia.
  - rewrite append_length. simpl. split; [lia|]. intros _. lia.
Qed.

(** X27: printing tells apart the types over one named type: two different
    types that wrap the same named type print differently, whatever the
    name is, under [toString] and under [toJSON]. *)
Theorem toString_tells_wrappers_apart
    (name : GraphQLType → string) (T U : GraphQLType) :
  getNamedType_loop T = getNamedType_loop U →
  T ≠ U →
  toString name T ≠ toString name U ∧ toJSON name T ≠ toJSON name U.
Proof.
  intros Hnamed Hne. unfold toJSON.
  enough (toString name T = toString name U → T = U) by (split; intros ?; auto).
  clear Hne. revert U Hnamed.
  assert (Hbase : ∀ T U, isWrappingType (TypeObj T) = false →
            getNamedType_loop T = getNamedType_loop U →
            toString name T = toString name U → T = U).
  { clear T. intros T U HT Hn Hs.
    destruct (isWrappingType (TypeObj U)) eqn:HU.
    - exfalso. destruct (toString_length name U) as [_ Hlt]. specialize (Hlt HU).
      rewrite <- Hn, <- Hs in Hlt.
      destruct T; simpl in *; try lia; done.
    - destruct T, U; simpl in *; done. }
  induction T as [r|r|r|r|r|r|t IH|t IH]; intros U Hnamed Hs;
    try (by apply Hbase).
  - destruct U as [r|r|r|r|r|r|u|u];
      try (symmetry; by apply Hbase).
    + cbn [toString getNamedType_loop] in *.
      apply append_last_inj in Hs as [Hs _]. injection Hs as Hs.
      f_equal. by apply IH.
    + cbn [toString] in Hs. by apply append_last_inj in Hs as [_ ?].
  - destruct U as [r|r|r|r|r|r|u|u];
      try (symmetry; by apply Hbase).
    + cbn [toString] in Hs. by apply append_last_inj in Hs as [_ ?].
    + cbn [toString getNamedType_loop] in *.
      apply append_last_inj in Hs as [Hs _]. f_equal. by apply IH.
Qed.

Lemma toString_tells_wrappers_apart_witness :
  toString (λ _, "Int") (List (NonNull (ScalarType 1)))
  ≠ toString (λ _, "Int") (NonNull (List (ScalarType 1)))
  ∧ toJSON (λ _, "Int") (List (NonNull (ScalarType 1)))
    ≠ toJSON (λ _, "Int") (NonNull (List (ScalarType 1))).
Proof.
  apply (toString_tells_wrappers_apart (λ _, "Int")
           (List (NonNull (ScalarType 1))) (NonNull (List (ScalarType 1)))).
  - reflexivity.
  - discriminate.
Defined.
